(** * PayU plugin: hash engine and webhook reconciliation

    A shallow embedding of the plugin's hash helpers, plan lookups and
    status helpers (utils.ts), its UDF metadata helpers (metadata.ts), the
    webhook handlers (hooks.ts), the session and reference middleware
    (middleware.ts), the webhook, pause, resume, plan and subscription read
    endpoints (routes.ts) and the organization deletion hook (index.ts),
    followed by the properties established about them.

    Conventions.
    - A JavaScript string is a [string]: the sequence of bytes that
      [Hmac.update] hashes (its UTF-8 encoding). [===] on strings is
      [String.eqb]; [s || ""] and [!s] test for the empty string.
    - An optional field ([udf1?: string]) is an [option string];
      [undefined] is [None].
    - [s.toLowerCase()] is the Unicode toLowercase algorithm on the code
      points of the string, with the case data of Unicode 14.0.
    - A [number | null] counter is an [option Z]: an integer-valued double
      of magnitude below 2^1023, given by the integer. [+] and [-] round
      the exact result to the nearest double, as IEEE 754 does.
    - A [Date] is the number of milliseconds since the epoch, a [Z].
    - A thrown value is given by what the catch blocks read of it: the
      text of [err instanceof Error ? err.message : String(err)], or the
      exception that this conversion throws. *)

From Stdlib Require Import ZArith String Ascii List Lia Bool.
From stdpp Require Import base option list strings gmap pretty.
Import ListNotations.

Local Open Scope Z_scope.
Local Open Scope string_scope.

(* ================================================================== *)
(** * SHA-512 and HMAC (node:crypto's [createHmac("sha512", key)])     *)
(* ================================================================== *)

(** The primitive is not code of the plugin; it is written out after
    FIPS 180-4 (SHA-512) and RFC 2104 (HMAC) so that digests can be computed.
    Words are 64-bit, held in [Z] and reduced modulo [2^64]. *)
Module Sha512.

Definition mask64 : Z := 0xffffffffffffffff.
Definition w64 (x : Z) : Z := Z.land x mask64.
Definition add64 (x y : Z) : Z := w64 (x + y).
Definition not64 (x : Z) : Z := Z.lxor x mask64.
Definition rotr (n x : Z) : Z :=
  Z.lor (Z.shiftr x n) (w64 (Z.shiftl x (64 - n))).
Definition shr (n x : Z) : Z := Z.shiftr x n.

Definition Ch (x y z : Z) : Z := Z.lxor (Z.land x y) (Z.land (not64 x) z).
Definition Maj (x y z : Z) : Z :=
  Z.lxor (Z.lxor (Z.land x y) (Z.land x z)) (Z.land y z).
Definition Sigma0 (x : Z) : Z := Z.lxor (Z.lxor (rotr 28 x) (rotr 34 x)) (rotr 39 x).
Definition Sigma1 (x : Z) : Z := Z.lxor (Z.lxor (rotr 14 x) (rotr 18 x)) (rotr 41 x).
Definition sigma0 (x : Z) : Z := Z.lxor (Z.lxor (rotr 1 x) (rotr 8 x)) (shr 7 x).
Definition sigma1 (x : Z) : Z := Z.lxor (Z.lxor (rotr 19 x) (rotr 61 x)) (shr 6 x).

(** Round constants: the first 64 bits of the fractional parts of the cube
    roots of the first eighty primes. *)
Definition K : list Z :=
  [0x428a2f98d728ae22; 0x7137449123ef65cd; 0xb5c0fbcfec4d3b2f; 0xe9b5dba58189dbbc;
   0x3956c25bf348b538; 0x59f111f1b605d019; 0x923f82a4af194f9b; 0xab1c5ed5da6d8118;
   0xd807aa98a3030242; 0x12835b0145706fbe; 0x243185be4ee4b28c; 0x550c7dc3d5ffb4e2;
   0x72be5d74f27b896f; 0x80deb1fe3b1696b1; 0x9bdc06a725c71235; 0xc19bf174cf692694;
   0xe49b69c19ef14ad2; 0xefbe4786384f25e3; 0x0fc19dc68b8cd5b5; 0x240ca1cc77ac9c65;
   0x2de92c6f592b0275; 0x4a7484aa6ea6e483; 0x5cb0a9dcbd41fbd4; 0x76f988da831153b5;
   0x983e5152ee66dfab; 0xa831c66d2db43210; 0xb00327c898fb213f; 0xbf597fc7beef0ee4;
   0xc6e00bf33da88fc2; 0xd5a79147930aa725; 0x06ca6351e003826f; 0x142929670a0e6e70;
   0x27b70a8546d22ffc; 0x2e1b21385c26c926; 0x4d2c6dfc5ac42aed; 0x53380d139d95b3df;
   0x650a73548baf63de; 0x766a0abb3c77b2a8; 0x81c2c92e47edaee6; 0x92722c851482353b;
   0xa2bfe8a14cf10364; 0xa81a664bbc423001; 0xc24b8b70d0f89791; 0xc76c51a30654be30;
   0xd192e819d6ef5218; 0xd69906245565a910; 0xf40e35855771202a; 0x106aa07032bbd1b8;
   0x19a4c116b8d2d0c8; 0x1e376c085141ab53; 0x2748774cdf8eeb99; 0x34b0bcb5e19b48a8;
   0x391c0cb3c5c95a63; 0x4ed8aa4ae3418acb; 0x5b9cca4f7763e373; 0x682e6ff3d6b2b8a3;
   0x748f82ee5defb2fc; 0x78a5636f43172f60; 0x84c87814a1f0ab72; 0x8cc702081a6439ec;
   0x90befffa23631e28; 0xa4506cebde82bde9; 0xbef9a3f7b2c67915; 0xc67178f2e372532b;
   0xca273eceea26619c; 0xd186b8c721c0c207; 0xeada7dd6cde0eb1e; 0xf57d4f7fee6ed178;
   0x06f067aa72176fba; 0x0a637dc5a2c898a6; 0x113f9804bef90dae; 0x1b710b35131c471b;
   0x28db77f523047d84; 0x32caab7b40c72493; 0x3c9ebe0a15c9bebc; 0x431d67c49c100d4c;
   0x4cc5d4becb3e42b6; 0x597f299cfc657e2a; 0x5fcb6fab3ad6faec; 0x6c44198c4a475817].

(** The eight working variables, also the chaining value. *)
Record state := State {
  va : Z; vb : Z; vc : Z; vd : Z; ve : Z; vf : Z; vg : Z; vh : Z }.

(** Initial value: fractional parts of the square roots of the first eight
    primes. *)
Definition H0 : state :=
  State 0x6a09e667f3bcc908 0xbb67ae8584caa73b 0x3c6ef372fe94f82b 0xa54ff53a5f1d36f1
        0x510e527fade682d1 0x9b05688c2b3e6c1f 0x1f83d9abfb41bd6b 0x5be0cd19137e2179.

Definition wnth (ws : list Z) (i : nat) : Z := nth i ws 0.

(** One round on the working variables with schedule word [wt]. *)
Definition round (s : state) (kt wt : Z) : state :=
  let t1 := add64 (add64 (add64 (add64 (vh s) (Sigma1 (ve s)))
                                (Ch (ve s) (vf s) (vg s))) kt) wt in
  let t2 := add64 (Sigma0 (va s)) (Maj (va s) (vb s) (vc s)) in
  State (add64 t1 t2) (va s) (vb s) (vc s) (add64 (vd s) t1) (ve s) (vf s) (vg s).

(** The message schedule is kept as a window of sixteen words: its head is
    W(t), and W(t+16) is appended when the head is consumed. *)
Definition next_word (win : list Z) : Z :=
  add64 (add64 (add64 (sigma1 (wnth win 14)) (wnth win 9))
               (sigma0 (wnth win 1))) (wnth win 0).

Fixpoint rounds (ks : list Z) (win : list Z) (s : state) : state :=
  match ks with
  | [] => s
  | kt :: ks' =>
      rounds ks' (tl win ++ [next_word win]) (round s kt (wnth win 0))
  end.

Definition compress (h : state) (block : list Z) : state :=
  let s := rounds K block h in
  State (add64 (va h) (va s)) (add64 (vb h) (vb s))
        (add64 (vc h) (vc s)) (add64 (vd h) (vd s))
        (add64 (ve h) (ve s)) (add64 (vf h) (vf s))
        (add64 (vg h) (vg s)) (add64 (vh h) (vh s)).

(** Big-endian conversions between bytes (values 0..255) and integers. *)
Definition be_value (bs : list Z) : Z :=
  fold_left (fun acc b => acc * 256 + b) bs 0.

Fixpoint be_bytes (n : nat) (x : Z) : list Z :=
  match n with
  | O => []
  | S n' => be_bytes n' (x / 256) ++ [x mod 256]
  end.

Fixpoint chunks (fuel : nat) (size : nat) (bs : list Z) : list (list Z) :=
  match fuel with
  | O => []
  | S fuel' => firstn size bs :: chunks fuel' size (skipn size bs)
  end.

(** Padding: a one bit, zero bits up to 896 modulo 1024, then the length in
    bits as a 128-bit integer. *)
Definition pad (msg : list Z) : list Z :=
  let len := Z.of_nat (List.length msg) in
  msg ++ [0x80] ++ repeat 0 (Z.to_nat ((111 - len) mod 128))
      ++ be_bytes 16 (8 * len).

Definition block_words (block : list Z) : list Z :=
  map be_value (chunks 16 8 block).

Definition digest_state (msg : list Z) : state :=
  let p := pad msg in
  fold_left (fun h b => compress h (block_words b))
            (chunks (Nat.div (List.length p) 128) 128 p) H0.

Definition state_words (s : state) : list Z :=
  [va s; vb s; vc s; vd s; ve s; vf s; vg s; vh s].

(** The 64-byte digest. *)
Definition digest (msg : list Z) : list Z :=
  flat_map (be_bytes 8) (state_words (digest_state msg)).

End Sha512.

(** Strings as byte sequences, and lowercase hexadecimal output. *)
Module Bytes.

Definition of_string (s : string) : list Z :=
  map (fun c => Z.of_N (N_of_ascii c)) (list_ascii_of_string s).

Definition hex_digit (d : Z) : ascii :=
  match d with
  | 0 => "0" | 1 => "1" | 2 => "2" | 3 => "3" | 4 => "4" | 5 => "5"
  | 6 => "6" | 7 => "7" | 8 => "8" | 9 => "9" | 10 => "a" | 11 => "b"
  | 12 => "c" | 13 => "d" | 14 => "e" | _ => "f"
  end%char.

(** Two digits per byte, high nibble first, as [digest("hex")] prints. *)
Fixpoint to_hex (bs : list Z) : string :=
  match bs with
  | [] => EmptyString
  | b :: bs' =>
      String (hex_digit ((b / 16) mod 16))
             (String (hex_digit (b mod 16)) (to_hex bs'))
  end.

End Bytes.

Module Hmac.

Definition block_size : nat := 128.

(** RFC 2104: a key longer than the block is hashed first; the key is then
    padded with zero bytes to the block size. *)
Definition block_key (key : list Z) : list Z :=
  let k := if (block_size <? List.length key)%nat then Sha512.digest key else key in
  k ++ repeat 0 (block_size - List.length k).

Definition xor_pad (c : Z) (k : list Z) : list Z := map (Z.lxor c) k.

Definition hmac_sha512 (key msg : list Z) : list Z :=
  let k := block_key key in
  Sha512.digest (xor_pad 0x5c k ++ Sha512.digest (xor_pad 0x36 k ++ msg)).

End Hmac.

(** [createHmac("sha512", key).update(data).digest("hex")]. *)
Definition createHmac_sha512_hex (key data : string) : string :=
  Bytes.to_hex (Hmac.hmac_sha512 (Bytes.of_string key) (Bytes.of_string data)).


(* ================================================================== *)
(** * UTF-8 and the Unicode case data                                  *)
(* ================================================================== *)

Module Utf8.

(** A decoded string: Unicode scalar values, and the bytes that belong to no
    well-formed UTF-8 sequence (the encoding of a JavaScript string has
    none). *)
Inductive item :=
  | Scalar (cp : Z)
  | Stray (b : ascii).

Definition byte (b : ascii) : Z := Z.of_N (N_of_ascii b).

Definition continuation (b : ascii) : bool :=
  ((128 <=? byte b) && (byte b <=? 191))%Z.

Definition two (b1 b2 : ascii) : option Z :=
  if ((194 <=? byte b1) && (byte b1 <=? 223))%Z && continuation b2
  then Some ((byte b1 - 192) * 64 + (byte b2 - 128))%Z
  else None.

Definition three (b1 b2 b3 : ascii) : option Z :=
  let cp := ((byte b1 - 224) * 4096 + (byte b2 - 128) * 64 + (byte b3 - 128))%Z in
  if ((224 <=? byte b1) && (byte b1 <=? 239))%Z && continuation b2 && continuation b3
     && ((2048 <=? cp) && negb ((55296 <=? cp) && (cp <=? 57343)))%Z
  then Some cp
  else None.

Definition four (b1 b2 b3 b4 : ascii) : option Z :=
  let cp := ((byte b1 - 240) * 262144 + (byte b2 - 128) * 4096
             + (byte b3 - 128) * 64 + (byte b4 - 128))%Z in
  if ((240 <=? byte b1) && (byte b1 <=? 244))%Z && continuation b2 && continuation b3
     && continuation b4 && ((65536 <=? cp) && (cp <=? 1114111))%Z
  then Some cp
  else None.

Fixpoint decode (s : string) : list item :=
  match s with
  | EmptyString => []
  | String b1 r1 =>
      if (byte b1 <? 128)%Z then Scalar (byte b1) :: decode r1
      else
        match r1 with
        | String b2 r2 =>
            match two b1 b2 with
            | Some cp => Scalar cp :: decode r2
            | None =>
                match r2 with
                | String b3 r3 =>
                    match three b1 b2 b3 with
                    | Some cp => Scalar cp :: decode r3
                    | None =>
                        match r3 with
                        | String b4 r4 =>
                            match four b1 b2 b3 b4 with
                            | Some cp => Scalar cp :: decode r4
                            | None => Stray b1 :: decode r1
                            end
                        | EmptyString => Stray b1 :: decode r1
                        end
                    end
                | EmptyString => Stray b1 :: decode r1
                end
            end
        | EmptyString => Stray b1 :: decode r1
        end
  end.

Definition char (n : Z) : ascii := ascii_of_N (Z.to_N n).

Definition encode_scalar (cp : Z) : string :=
  if (cp <? 128)%Z then String (char cp) ""
  else if (cp <? 2048)%Z
  then String (char (192 + cp / 64)) (String (char (128 + cp mod 64)) "")
  else if (cp <? 65536)%Z
  then String (char (224 + cp / 4096))
         (String (char (128 + (cp / 64) mod 64))
            (String (char (128 + cp mod 64)) ""))
  else String (char (240 + cp / 262144))
         (String (char (128 + (cp / 4096) mod 64))
            (String (char (128 + (cp / 64) mod 64))
               (String (char (128 + cp mod 64)) ""))).

Definition encode_item (i : item) : string :=
  match i with
  | Scalar cp => encode_scalar cp
  | Stray b => String b ""
  end.

Fixpoint encode (l : list item) : string :=
  match l with
  | [] => ""
  | i :: l' => encode_item i +:+ encode l'
  end.

End Utf8.

(** The case data of the Unicode Character Database, version 14.0. *)
Module Unicode.

(** The simple lowercase mappings of UnicodeData.txt, as ranges
    [(first, last, kind, delta)] in increasing order: with kind 0 every
    code point of the range maps to itself plus [delta]; with kind 1 the
    range alternates capital and small letters, and every second code point,
    from the first on, maps to its successor. *)
Definition lowercase : list (Z * Z * Z * Z) :=
  [
    (65, 90, 0, 32); (192, 214, 0, 32); (216, 222, 0, 32); (256, 302, 1, 1);
    (306, 310, 1, 1); (313, 327, 1, 1); (330, 374, 1, 1); (376, 376, 0, -121);
    (377, 381, 1, 1); (385, 385, 0, 210); (386, 388, 1, 1); (390, 390, 0, 206);
    (391, 391, 0, 1); (393, 394, 0, 205); (395, 395, 0, 1); (398, 398, 0, 79);
    (399, 399, 0, 202); (400, 400, 0, 203); (401, 401, 0, 1); (403, 403, 0, 205);
    (404, 404, 0, 207); (406, 406, 0, 211); (407, 407, 0, 209); (408, 408, 0, 1);
    (412, 412, 0, 211); (413, 413, 0, 213); (415, 415, 0, 214); (416, 420, 1, 1);
    (422, 422, 0, 218); (423, 423, 0, 1); (425, 425, 0, 218); (428, 428, 0, 1);
    (430, 430, 0, 218); (431, 431, 0, 1); (433, 434, 0, 217); (435, 437, 1, 1);
    (439, 439, 0, 219); (440, 440, 0, 1); (444, 444, 0, 1); (452, 452, 0, 2);
    (453, 453, 0, 1); (455, 455, 0, 2); (456, 456, 0, 1); (458, 458, 0, 2);
    (459, 475, 1, 1); (478, 494, 1, 1); (497, 497, 0, 2); (498, 500, 1, 1);
    (502, 502, 0, -97); (503, 503, 0, -56); (504, 542, 1, 1); (544, 544, 0, -130);
    (546, 562, 1, 1); (570, 570, 0, 10795); (571, 571, 0, 1); (573, 573, 0, -163);
    (574, 574, 0, 10792); (577, 577, 0, 1); (579, 579, 0, -195); (580, 580, 0, 69);
    (581, 581, 0, 71); (582, 590, 1, 1); (880, 882, 1, 1); (886, 886, 0, 1);
    (895, 895, 0, 116); (902, 902, 0, 38); (904, 906, 0, 37); (908, 908, 0, 64);
    (910, 911, 0, 63); (913, 929, 0, 32); (931, 939, 0, 32); (975, 975, 0, 8);
    (984, 1006, 1, 1); (1012, 1012, 0, -60); (1015, 1015, 0, 1); (1017, 1017, 0, -7);
    (1018, 1018, 0, 1); (1021, 1023, 0, -130); (1024, 1039, 0, 80); (1040, 1071, 0, 32);
    (1120, 1152, 1, 1); (1162, 1214, 1, 1); (1216, 1216, 0, 15); (1217, 1229, 1, 1);
    (1232, 1326, 1, 1); (1329, 1366, 0, 48); (4256, 4293, 0, 7264); (4295, 4295, 0, 7264);
    (4301, 4301, 0, 7264); (5024, 5103, 0, 38864); (5104, 5109, 0, 8); (7312, 7354, 0, -3008);
    (7357, 7359, 0, -3008); (7680, 7828, 1, 1); (7838, 7838, 0, -7615); (7840, 7934, 1, 1);
    (7944, 7951, 0, -8); (7960, 7965, 0, -8); (7976, 7983, 0, -8); (7992, 7999, 0, -8);
    (8008, 8013, 0, -8); (8025, 8025, 0, -8); (8027, 8027, 0, -8); (8029, 8029, 0, -8);
    (8031, 8031, 0, -8); (8040, 8047, 0, -8); (8072, 8079, 0, -8); (8088, 8095, 0, -8);
    (8104, 8111, 0, -8); (8120, 8121, 0, -8); (8122, 8123, 0, -74); (8124, 8124, 0, -9);
    (8136, 8139, 0, -86); (8140, 8140, 0, -9); (8152, 8153, 0, -8); (8154, 8155, 0, -100);
    (8168, 8169, 0, -8); (8170, 8171, 0, -112); (8172, 8172, 0, -7); (8184, 8185, 0, -128);
    (8186, 8187, 0, -126); (8188, 8188, 0, -9); (8486, 8486, 0, -7517); (8490, 8490, 0, -8383);
    (8491, 8491, 0, -8262); (8498, 8498, 0, 28); (8544, 8559, 0, 16); (8579, 8579, 0, 1);
    (9398, 9423, 0, 26); (11264, 11311, 0, 48); (11360, 11360, 0, 1); (11362, 11362, 0, -10743);
    (11363, 11363, 0, -3814); (11364, 11364, 0, -10727); (11367, 11371, 1, 1); (11373, 11373, 0, -10780);
    (11374, 11374, 0, -10749); (11375, 11375, 0, -10783); (11376, 11376, 0, -10782); (11378, 11378, 0, 1);
    (11381, 11381, 0, 1); (11390, 11391, 0, -10815); (11392, 11490, 1, 1); (11499, 11501, 1, 1);
    (11506, 11506, 0, 1); (42560, 42604, 1, 1); (42624, 42650, 1, 1); (42786, 42798, 1, 1);
    (42802, 42862, 1, 1); (42873, 42875, 1, 1); (42877, 42877, 0, -35332); (42878, 42886, 1, 1);
    (42891, 42891, 0, 1); (42893, 42893, 0, -42280); (42896, 42898, 1, 1); (42902, 42920, 1, 1);
    (42922, 42922, 0, -42308); (42923, 42923, 0, -42319); (42924, 42924, 0, -42315); (42925, 42925, 0, -42305);
    (42926, 42926, 0, -42308); (42928, 42928, 0, -42258); (42929, 42929, 0, -42282); (42930, 42930, 0, -42261);
    (42931, 42931, 0, 928); (42932, 42946, 1, 1); (42948, 42948, 0, -48); (42949, 42949, 0, -42307);
    (42950, 42950, 0, -35384); (42951, 42953, 1, 1); (42960, 42960, 0, 1); (42966, 42968, 1, 1);
    (42997, 42997, 0, 1); (65313, 65338, 0, 32); (66560, 66599, 0, 40); (66736, 66771, 0, 40);
    (66928, 66938, 0, 39); (66940, 66954, 0, 39); (66956, 66962, 0, 39); (66964, 66965, 0, 39);
    (68736, 68786, 0, 64); (71840, 71871, 0, 32); (93760, 93791, 0, 32); (125184, 125217, 0, 34) ].

(** Case_Ignorable (DerivedCoreProperties.txt), as ranges. *)
Definition case_ignorable : list (Z * Z) :=
  [
    (39, 39); (46, 46); (58, 58); (94, 94); (96, 96); (168, 168);
    (173, 173); (175, 175); (180, 180); (183, 184); (688, 879); (884, 885);
    (890, 890); (900, 901); (903, 903); (1155, 1161); (1369, 1369); (1375, 1375);
    (1425, 1469); (1471, 1471); (1473, 1474); (1476, 1477); (1479, 1479); (1524, 1524);
    (1536, 1541); (1552, 1562); (1564, 1564); (1600, 1600); (1611, 1631); (1648, 1648);
    (1750, 1757); (1759, 1768); (1770, 1773); (1807, 1807); (1809, 1809); (1840, 1866);
    (1958, 1968); (2027, 2037); (2042, 2042); (2045, 2045); (2070, 2093); (2137, 2139);
    (2184, 2184); (2192, 2193); (2200, 2207); (2249, 2306); (2362, 2362); (2364, 2364);
    (2369, 2376); (2381, 2381); (2385, 2391); (2402, 2403); (2417, 2417); (2433, 2433);
    (2492, 2492); (2497, 2500); (2509, 2509); (2530, 2531); (2558, 2558); (2561, 2562);
    (2620, 2620); (2625, 2626); (2631, 2632); (2635, 2637); (2641, 2641); (2672, 2673);
    (2677, 2677); (2689, 2690); (2748, 2748); (2753, 2757); (2759, 2760); (2765, 2765);
    (2786, 2787); (2810, 2815); (2817, 2817); (2876, 2876); (2879, 2879); (2881, 2884);
    (2893, 2893); (2901, 2902); (2914, 2915); (2946, 2946); (3008, 3008); (3021, 3021);
    (3072, 3072); (3076, 3076); (3132, 3132); (3134, 3136); (3142, 3144); (3146, 3149);
    (3157, 3158); (3170, 3171); (3201, 3201); (3260, 3260); (3263, 3263); (3270, 3270);
    (3276, 3277); (3298, 3299); (3328, 3329); (3387, 3388); (3393, 3396); (3405, 3405);
    (3426, 3427); (3457, 3457); (3530, 3530); (3538, 3540); (3542, 3542); (3633, 3633);
    (3636, 3642); (3654, 3662); (3761, 3761); (3764, 3772); (3782, 3782); (3784, 3789);
    (3864, 3865); (3893, 3893); (3895, 3895); (3897, 3897); (3953, 3966); (3968, 3972);
    (3974, 3975); (3981, 3991); (3993, 4028); (4038, 4038); (4141, 4144); (4146, 4151);
    (4153, 4154); (4157, 4158); (4184, 4185); (4190, 4192); (4209, 4212); (4226, 4226);
    (4229, 4230); (4237, 4237); (4253, 4253); (4348, 4348); (4957, 4959); (5906, 5908);
    (5938, 5939); (5970, 5971); (6002, 6003); (6068, 6069); (6071, 6077); (6086, 6086);
    (6089, 6099); (6103, 6103); (6109, 6109); (6155, 6159); (6211, 6211); (6277, 6278);
    (6313, 6313); (6432, 6434); (6439, 6440); (6450, 6450); (6457, 6459); (6679, 6680);
    (6683, 6683); (6742, 6742); (6744, 6750); (6752, 6752); (6754, 6754); (6757, 6764);
    (6771, 6780); (6783, 6783); (6823, 6823); (6832, 6862); (6912, 6915); (6964, 6964);
    (6966, 6970); (6972, 6972); (6978, 6978); (7019, 7027); (7040, 7041); (7074, 7077);
    (7080, 7081); (7083, 7085); (7142, 7142); (7144, 7145); (7149, 7149); (7151, 7153);
    (7212, 7219); (7222, 7223); (7288, 7293); (7376, 7378); (7380, 7392); (7394, 7400);
    (7405, 7405); (7412, 7412); (7416, 7417); (7468, 7530); (7544, 7544); (7579, 7679);
    (8125, 8125); (8127, 8129); (8141, 8143); (8157, 8159); (8173, 8175); (8189, 8190);
    (8203, 8207); (8216, 8217); (8228, 8228); (8231, 8231); (8234, 8238); (8288, 8292);
    (8294, 8303); (8305, 8305); (8319, 8319); (8336, 8348); (8400, 8432); (11388, 11389);
    (11503, 11505); (11631, 11631); (11647, 11647); (11744, 11775); (11823, 11823); (12293, 12293);
    (12330, 12333); (12337, 12341); (12347, 12347); (12441, 12446); (12540, 12542); (40981, 40981);
    (42232, 42237); (42508, 42508); (42607, 42610); (42612, 42621); (42623, 42623); (42652, 42655);
    (42736, 42737); (42752, 42785); (42864, 42864); (42888, 42890); (42994, 42996); (43000, 43001);
    (43010, 43010); (43014, 43014); (43019, 43019); (43045, 43046); (43052, 43052); (43204, 43205);
    (43232, 43249); (43263, 43263); (43302, 43309); (43335, 43345); (43392, 43394); (43443, 43443);
    (43446, 43449); (43452, 43453); (43471, 43471); (43493, 43494); (43561, 43566); (43569, 43570);
    (43573, 43574); (43587, 43587); (43596, 43596); (43632, 43632); (43644, 43644); (43696, 43696);
    (43698, 43700); (43703, 43704); (43710, 43711); (43713, 43713); (43741, 43741); (43756, 43757);
    (43763, 43764); (43766, 43766); (43867, 43871); (43881, 43883); (44005, 44005); (44008, 44008);
    (44013, 44013); (64286, 64286); (64434, 64450); (65024, 65039); (65043, 65043); (65056, 65071);
    (65106, 65106); (65109, 65109); (65279, 65279); (65287, 65287); (65294, 65294); (65306, 65306);
    (65342, 65342); (65344, 65344); (65392, 65392); (65438, 65439); (65507, 65507); (65529, 65531);
    (66045, 66045); (66272, 66272); (66422, 66426); (67456, 67461); (67463, 67504); (67506, 67514);
    (68097, 68099); (68101, 68102); (68108, 68111); (68152, 68154); (68159, 68159); (68325, 68326);
    (68900, 68903); (69291, 69292); (69446, 69456); (69506, 69509); (69633, 69633); (69688, 69702);
    (69744, 69744); (69747, 69748); (69759, 69761); (69811, 69814); (69817, 69818); (69821, 69821);
    (69826, 69826); (69837, 69837); (69888, 69890); (69927, 69931); (69933, 69940); (70003, 70003);
    (70016, 70017); (70070, 70078); (70089, 70092); (70095, 70095); (70191, 70193); (70196, 70196);
    (70198, 70199); (70206, 70206); (70367, 70367); (70371, 70378); (70400, 70401); (70459, 70460);
    (70464, 70464); (70502, 70508); (70512, 70516); (70712, 70719); (70722, 70724); (70726, 70726);
    (70750, 70750); (70835, 70840); (70842, 70842); (70847, 70848); (70850, 70851); (71090, 71093);
    (71100, 71101); (71103, 71104); (71132, 71133); (71219, 71226); (71229, 71229); (71231, 71232);
    (71339, 71339); (71341, 71341); (71344, 71349); (71351, 71351); (71453, 71455); (71458, 71461);
    (71463, 71467); (71727, 71735); (71737, 71738); (71995, 71996); (71998, 71998); (72003, 72003);
    (72148, 72151); (72154, 72155); (72160, 72160); (72193, 72202); (72243, 72248); (72251, 72254);
    (72263, 72263); (72273, 72278); (72281, 72283); (72330, 72342); (72344, 72345); (72752, 72758);
    (72760, 72765); (72767, 72767); (72850, 72871); (72874, 72880); (72882, 72883); (72885, 72886);
    (73009, 73014); (73018, 73018); (73020, 73021); (73023, 73029); (73031, 73031); (73104, 73105);
    (73109, 73109); (73111, 73111); (73459, 73460); (78896, 78904); (92912, 92916); (92976, 92982);
    (92992, 92995); (94031, 94031); (94095, 94111); (94176, 94177); (94179, 94180); (110576, 110579);
    (110581, 110587); (110589, 110590); (113821, 113822); (113824, 113827); (118528, 118573); (118576, 118598);
    (119143, 119145); (119155, 119170); (119173, 119179); (119210, 119213); (119362, 119364); (121344, 121398);
    (121403, 121452); (121461, 121461); (121476, 121476); (121499, 121503); (121505, 121519); (122880, 122886);
    (122888, 122904); (122907, 122913); (122915, 122916); (122918, 122922); (123184, 123197); (123566, 123566);
    (123628, 123631); (125136, 125142); (125252, 125259); (127995, 127999); (917505, 917505); (917536, 917631);
    (917760, 917999) ].

(** Cased and not Case_Ignorable, as ranges. *)
Definition cased_letter : list (Z * Z) :=
  [
    (65, 90); (97, 122); (170, 170); (181, 181); (186, 186); (192, 214);
    (216, 246); (248, 442); (444, 447); (452, 659); (661, 687); (880, 883);
    (886, 887); (891, 893); (895, 895); (902, 902); (904, 906); (908, 908);
    (910, 929); (931, 1013); (1015, 1153); (1162, 1327); (1329, 1366); (1376, 1416);
    (4256, 4293); (4295, 4295); (4301, 4301); (4304, 4346); (4349, 4351); (5024, 5109);
    (5112, 5117); (7296, 7304); (7312, 7354); (7357, 7359); (7424, 7467); (7531, 7543);
    (7545, 7578); (7680, 7957); (7960, 7965); (7968, 8005); (8008, 8013); (8016, 8023);
    (8025, 8025); (8027, 8027); (8029, 8029); (8031, 8061); (8064, 8116); (8118, 8124);
    (8126, 8126); (8130, 8132); (8134, 8140); (8144, 8147); (8150, 8155); (8160, 8172);
    (8178, 8180); (8182, 8188); (8450, 8450); (8455, 8455); (8458, 8467); (8469, 8469);
    (8473, 8477); (8484, 8484); (8486, 8486); (8488, 8488); (8490, 8493); (8495, 8500);
    (8505, 8505); (8508, 8511); (8517, 8521); (8526, 8526); (8544, 8575); (8579, 8580);
    (9398, 9449); (11264, 11387); (11390, 11492); (11499, 11502); (11506, 11507); (11520, 11557);
    (11559, 11559); (11565, 11565); (42560, 42605); (42624, 42651); (42786, 42863); (42865, 42887);
    (42891, 42894); (42896, 42954); (42960, 42961); (42963, 42963); (42965, 42969); (42997, 42998);
    (43002, 43002); (43824, 43866); (43872, 43880); (43888, 43967); (64256, 64262); (64275, 64279);
    (65313, 65338); (65345, 65370); (66560, 66639); (66736, 66771); (66776, 66811); (66928, 66938);
    (66940, 66954); (66956, 66962); (66964, 66965); (66967, 66977); (66979, 66993); (66995, 67001);
    (67003, 67004); (68736, 68786); (68800, 68850); (71840, 71903); (93760, 93823); (119808, 119892);
    (119894, 119964); (119966, 119967); (119970, 119970); (119973, 119974); (119977, 119980); (119982, 119993);
    (119995, 119995); (119997, 120003); (120005, 120069); (120071, 120074); (120077, 120084); (120086, 120092);
    (120094, 120121); (120123, 120126); (120128, 120132); (120134, 120134); (120138, 120144); (120146, 120485);
    (120488, 120512); (120514, 120538); (120540, 120570); (120572, 120596); (120598, 120628); (120630, 120654);
    (120656, 120686); (120688, 120712); (120714, 120744); (120746, 120770); (120772, 120779); (122624, 122633);
    (122635, 122654); (125184, 125251); (127280, 127305); (127312, 127337); (127344, 127369) ].

Fixpoint within (cp : Z) (ranges : list (Z * Z)) : bool :=
  match ranges with
  | [] => false
  | (first, last) :: ranges' =>
      if (cp <? first)%Z then false
      else if (cp <=? last)%Z then true
      else within cp ranges'
  end.

Fixpoint mapped (cp : Z) (ranges : list (Z * Z * Z * Z)) : Z :=
  match ranges with
  | [] => cp
  | (first, last, kind, delta) :: ranges' =>
      if (cp <? first)%Z then cp
      else if (cp <=? last)%Z
      then if (kind =? 0)%Z then cp + delta
           else if Z.even (cp - first) then cp + 1 else cp
      else mapped cp ranges'
  end.

(** toLowercase of one code point out of context: the simple mapping, and
    the one unconditional mapping of SpecialCasing.txt, of U+0130. *)
Definition lower (cp : Z) : list Z :=
  if (cp =? 304)%Z then [105; 775] else [mapped cp lowercase].

Definition ignorable (cp : Z) : bool := within cp case_ignorable.
Definition cased (cp : Z) : bool := within cp cased_letter.

End Unicode.

(* ================================================================== *)
(** * JavaScript values                                                *)
(* ================================================================== *)

Module Js.

(** Truthiness of a string: only the empty string is falsy. *)
Definition truthy (s : string) : bool := negb (String.eqb s "").

(** Truthiness of an optional string: [undefined] and [""] are falsy. *)
Definition truthy_opt (o : option string) : bool :=
  match o with Some s => truthy s | None => false end.

(** [o || d] for an optional string [o]. *)
Definition or_else (o : option string) (d : string) : string :=
  match o with
  | Some s => if truthy s then s else d
  | None => d
  end.

(** [n || 0] for a [number | null]. *)
Definition or_zero (o : option Z) : Z :=
  match o with Some n => n | None => 0 end.

(** The double nearest to an integer, ties to even: what an arithmetic
    operation on numbers returns when its exact result is that integer. *)
Definition to_double (n : Z) : Z :=
  let a := Z.abs n in
  if (a <? 2 ^ 53)%Z then n
  else
    let e := Z.log2 a - 52 in
    let q := a / 2 ^ e in
    let r := a mod 2 ^ e in
    let half := 2 ^ (e - 1) in
    let q' := if (r <? half)%Z then q
              else if (half <? r)%Z then q + 1
              else if Z.even q then q else q + 1 in
    Z.sgn n * (q' * 2 ^ e).

(** [a + b], [a - b] and [Math.max(a, b)] on integer-valued numbers. *)
Definition add (a b : Z) : Z := to_double (a + b).
Definition sub (a b : Z) : Z := to_double (a - b).
Definition max (a b : Z) : Z := Z.max a b.

(** Whether the next code point that is not case-ignorable is cased. *)
Fixpoint before_cased (l : list Utf8.item) : bool :=
  match l with
  | Utf8.Scalar cp :: l' =>
      if Unicode.ignorable cp then before_cased l' else Unicode.cased cp
  | _ => false
  end.

(** The Unicode toLowercase algorithm. [after_cased] tells whether the last
    code point before that is not case-ignorable is cased: a capital sigma
    (U+03A3) in that position and not followed by a cased letter is final,
    and becomes U+03C2 instead of U+03C3. *)
Fixpoint lower_items (after_cased : bool) (l : list Utf8.item) : list Utf8.item :=
  match l with
  | [] => []
  | Utf8.Stray b :: l' => Utf8.Stray b :: lower_items false l'
  | Utf8.Scalar cp :: l' =>
      (if (cp =? 931)%Z
       then [Utf8.Scalar (if after_cased && negb (before_cased l') then 962 else 963)]
       else Utf8.Scalar <$> Unicode.lower cp)
      ++ lower_items (if Unicode.ignorable cp then after_cased else Unicode.cased cp) l'
  end.

(** [s.toLowerCase()]. *)
Definition toLowerCase (s : string) : string :=
  Utf8.encode (lower_items false (Utf8.decode s)).

(** [Array.prototype.join]. *)
Definition join (sep : string) (l : list string) : string := String.concat sep l.

End Js.

(* ================================================================== *)
(** * types.ts                                                         *)
(* ================================================================== *)

Inductive PayUSubscriptionStatus :=
  | created | authenticated | active | pending | halted
  | cancelled | completed | expired | paused.

Definition status_name (st : PayUSubscriptionStatus) : string :=
  match st with
  | created => "created" | authenticated => "authenticated"
  | active => "active" | pending => "pending" | halted => "halted"
  | cancelled => "cancelled" | completed => "completed"
  | expired => "expired" | paused => "paused"
  end.

Inductive PayUMandateType := card | upi | netbanking.

Definition Date := Z.

(** The stored subscription record. [metadata] is kept as an opaque text. *)
Module Subscription.
Record t := mk {
  id : string;
  plan : string;
  referenceId : string;
  payuCustomerId : option string;
  payuSubscriptionId : string;
  payuMandateType : option PayUMandateType;
  payuTransactionId : option string;
  payuMihpayid : option string;
  status : PayUSubscriptionStatus;
  currentPeriodStart : option Date;
  currentPeriodEnd : option Date;
  cancelledAt : option Date;
  endedAt : option Date;
  pausedAt : option Date;
  totalCount : option Z;
  paidCount : option Z;
  remainingCount : option Z;
  quantity : option Z;
  seats : option Z;
  trialStart : option Date;
  trialEnd : option Date;
  metadata : option string;
  createdAt : Date;
  updatedAt : Date }.
End Subscription.

(** [PayUWebhookEvent]; the optional [si] details are never set or read by
    the webhook code and are left out. *)
Module Event.
Record t := mk {
  mihpayid : string;
  status : string;
  txnid : string;
  amount : string;
  productinfo : string;
  firstname : string;
  email : string;
  phone : string;
  hash : string;
  key : string;
  mode : string;
  unmappedstatus : string;
  field9 : string;
  error : string;
  bank_ref_num : string;
  addedon : string;
  payment_source : string;
  udf1 : option string;
  udf2 : option string;
  udf3 : option string;
  udf4 : option string;
  udf5 : option string;
  udf6 : option string;
  udf7 : option string;
  udf8 : option string;
  udf9 : option string;
  udf10 : option string;
  notificationType : option string }.
End Event.

Module Plan.
Record t := mk {
  planId : string;
  name : string;
  annualPlanId : option string;
  amount : string;
  billingCycle : string;
  billingInterval : Z;
  totalCount : Z }.
End Plan.

(* ================================================================== *)
(** * utils.ts: the hash engine and the status checkers                *)
(* ================================================================== *)

(** Parameter object of [generatePayUHash]. *)
Module HashParams.
Record t := mk {
  key : string;
  txnid : string;
  amount : string;
  productinfo : string;
  firstname : string;
  email : string;
  udf1 : option string;
  udf2 : option string;
  udf3 : option string;
  udf4 : option string;
  udf5 : option string;
  udf6 : option string;
  udf7 : option string;
  udf8 : option string;
  udf9 : option string;
  udf10 : option string }.
End HashParams.

(** Parameter object of [verifyPayUHash]: the same fields and [status]. *)
Module VerifyParams.
Record t := mk {
  key : string;
  txnid : string;
  amount : string;
  productinfo : string;
  firstname : string;
  email : string;
  status : string;
  udf1 : option string;
  udf2 : option string;
  udf3 : option string;
  udf4 : option string;
  udf5 : option string;
  udf6 : option string;
  udf7 : option string;
  udf8 : option string;
  udf9 : option string;
  udf10 : option string }.

(** The fields a verification object shares with a generation object. *)
Definition hashParams (p : t) : HashParams.t :=
  HashParams.mk (key p) (txnid p) (amount p) (productinfo p) (firstname p)
    (email p) (udf1 p) (udf2 p) (udf3 p) (udf4 p) (udf5 p) (udf6 p)
    (udf7 p) (udf8 p) (udf9 p) (udf10 p).
End VerifyParams.

Module Utils.

(** The array joined by [generatePayUHash]. *)
Definition hashFields (params : HashParams.t) (salt : string) : list string :=
  [ HashParams.key params;
    HashParams.txnid params;
    HashParams.amount params;
    HashParams.productinfo params;
    HashParams.firstname params;
    HashParams.email params;
    Js.or_else (HashParams.udf1 params) "";
    Js.or_else (HashParams.udf2 params) "";
    Js.or_else (HashParams.udf3 params) "";
    Js.or_else (HashParams.udf4 params) "";
    Js.or_else (HashParams.udf5 params) "";
    Js.or_else (HashParams.udf6 params) "";
    Js.or_else (HashParams.udf7 params) "";
    Js.or_else (HashParams.udf8 params) "";
    Js.or_else (HashParams.udf9 params) "";
    Js.or_else (HashParams.udf10 params) "";
    salt ].

Definition hashString (params : HashParams.t) (salt : string) : string :=
  Js.join "|" (hashFields params salt).

Definition generatePayUHash (params : HashParams.t) (salt : string) : string :=
  createHmac_sha512_hex "" (hashString params salt).

(** The array joined by [verifyPayUHash]. *)
Definition reverseHashFields (params : VerifyParams.t) (salt : string)
  : list string :=
  [ salt;
    VerifyParams.status params;
    "";
    "";
    "";
    "";
    "";
    "";
    "";
    "";
    "";
    Js.or_else (VerifyParams.udf10 params) "";
    Js.or_else (VerifyParams.udf9 params) "";
    Js.or_else (VerifyParams.udf8 params) "";
    Js.or_else (VerifyParams.udf7 params) "";
    Js.or_else (VerifyParams.udf6 params) "";
    Js.or_else (VerifyParams.udf5 params) "";
    Js.or_else (VerifyParams.udf4 params) "";
    Js.or_else (VerifyParams.udf3 params) "";
    Js.or_else (VerifyParams.udf2 params) "";
    Js.or_else (VerifyParams.udf1 params) "";
    VerifyParams.email params;
    VerifyParams.firstname params;
    VerifyParams.productinfo params;
    VerifyParams.amount params;
    VerifyParams.txnid params;
    VerifyParams.key params ].

Definition reverseHashString (params : VerifyParams.t) (salt : string) : string :=
  Js.join "|" (reverseHashFields params salt).

Definition verifyPayUHash (params : VerifyParams.t) (salt : string)
           (receivedHash : string) : bool :=
  let computedHash := createHmac_sha512_hex "" (reverseHashString params salt) in
  String.eqb computedHash receivedHash.

Definition generateCommandHash (key command var1 salt : string) : string :=
  let hashString := key +:+ "|" +:+ command +:+ "|" +:+ var1 +:+ "|" +:+ salt in
  createHmac_sha512_hex "" hashString.

Definition isActive (st : PayUSubscriptionStatus) : bool :=
  match st with active => true | _ => false end.

Definition isCancelled (st : PayUSubscriptionStatus) : bool :=
  match st with cancelled => true | _ => false end.

Definition isTerminal (st : PayUSubscriptionStatus) : bool :=
  match st with
  | cancelled | completed | expired => true
  | _ => false
  end.

Definition toSubscriptionStatus (s : string) : PayUSubscriptionStatus :=
  let validStatuses :=
    [created; authenticated; active; pending; halted; cancelled; completed;
     expired; paused] in
  match find (fun st => String.eqb (status_name st) s) validStatuses with
  | Some st => st
  | None => created
  end.

(** The other status checkers. *)
Definition isAuthenticated (st : PayUSubscriptionStatus) : bool :=
  match st with authenticated => true | _ => false end.

Definition isPaused (st : PayUSubscriptionStatus) : bool :=
  match st with paused => true | _ => false end.

Definition isUsable (st : PayUSubscriptionStatus) : bool :=
  match st with active | authenticated => true | _ => false end.

Definition hasPaymentIssue (st : PayUSubscriptionStatus) : bool :=
  match st with pending | halted => true | _ => false end.

End Utils.

(* ================================================================== *)
(** * metadata.ts: the UDF slots                                       *)
(* ================================================================== *)

Module Metadata.

(** [paramsToUdf]: the loop over [udf1] .. [udf10] keeps the truthy slots.
    [params] is the property lookup of the object passed in. *)
Definition paramsToUdf (params : string -> option string) : gmap string string :=
  fold_left
    (fun (udf : gmap string string) (i : nat) =>
       let key := "udf" +:+ pretty i in
       if Js.truthy_opt (params key)
       then match params key with
            | Some v => <[key := v]> udf
            | None => udf
            end
       else udf)
    (seq 1 10) ∅.

Record SubscriptionInternalUdf := {
  userId : option string;
  subscriptionId : option string;
  referenceId : option string }.

(** [subscriptionUdf.get]. *)
Definition subscriptionUdf_get (udf : option (gmap string string))
  : SubscriptionInternalUdf :=
  match udf with
  | None => {| userId := None; subscriptionId := None; referenceId := None |}
  | Some u =>
      {| userId := u !! "udf2";
         subscriptionId := u !! "udf4";
         referenceId := u !! "udf5" |}
  end.

(** [defu(object, defaults)] of the defu package, for objects whose values
    are strings: the result starts as a copy of [defaults], and every key of
    [object] whose value is not [undefined] is assigned over it. [object] is
    the object literal, key by key. *)
Definition defu (object : list (string * option string))
           (defaults : gmap string string) : gmap string string :=
  fold_left
    (fun (acc : gmap string string) (kv : string * option string) =>
       match snd kv with
       | Some v => <[fst kv := v]> acc
       | None => acc
       end)
    object defaults.

(** [CustomerInternalUdf]. *)
Inductive CustomerInternalUdf :=
  | CustomerUser (userId : string)
  | CustomerOrganization (organizationId : string).

Definition customerType (c : CustomerInternalUdf) : string :=
  match c with
  | CustomerUser _ => "user"
  | CustomerOrganization _ => "organization"
  end.

(** [customerUdf.set]; [userUdf || {}] is the empty map when absent. *)
Definition customerUdf_set (internalFields : CustomerInternalUdf)
           (userUdf : option (gmap string string)) : gmap string string :=
  let internal :=
    [ ("udf1", Some (customerType internalFields));
      ("udf2", match internalFields with
               | CustomerUser userId => Some userId
               | CustomerOrganization _ => None
               end);
      ("udf3", match internalFields with
               | CustomerOrganization organizationId => Some organizationId
               | CustomerUser _ => None
               end) ] in
  defu internal (default ∅ userUdf).

Record CustomerUdfFields := {
  customer_userId : option string;
  customer_organizationId : option string;
  customer_customerType : option string }.

(** [customerUdf.get]. *)
Definition customerUdf_get (udf : option (gmap string string)) : CustomerUdfFields :=
  match udf with
  | None =>
      {| customer_userId := None; customer_organizationId := None;
         customer_customerType := None |}
  | Some u =>
      {| customer_userId := u !! "udf2";
         customer_organizationId := u !! "udf3";
         customer_customerType := u !! "udf1" |}
  end.

(** The argument of [subscriptionUdf.set], whose three fields are strings. *)
Record SubscriptionUdfFields := {
  set_userId : string;
  set_subscriptionId : string;
  set_referenceId : string }.

(** [subscriptionUdf.set]. *)
Definition subscriptionUdf_set (internalFields : SubscriptionUdfFields)
           (userUdf : option (gmap string string)) : gmap string string :=
  let internal :=
    [ ("udf2", Some (set_userId internalFields));
      ("udf4", Some (set_subscriptionId internalFields));
      ("udf5", Some (set_referenceId internalFields)) ] in
  defu internal (default ∅ userUdf).

(** [udfToParams]: the same loop as [paramsToUdf], reading an object. *)
Definition udfToParams (udf : gmap string string) : gmap string string :=
  fold_left
    (fun (params : gmap string string) (i : nat) =>
       let key := "udf" +:+ pretty i in
       if Js.truthy_opt (udf !! key)
       then match udf !! key with
            | Some v => <[key := v]> params
            | None => params
            end
       else params)
    (seq 1 10) ∅.

End Metadata.

(** Property lookup on a webhook event, for the [Record<string, string>] view
    that [findSubscriptionByUdf] takes of it. *)
Definition Event_entries (e : Event.t) : list (string * option string) :=
  [ ("mihpayid", Some (Event.mihpayid e)); ("status", Some (Event.status e));
    ("txnid", Some (Event.txnid e)); ("amount", Some (Event.amount e));
    ("productinfo", Some (Event.productinfo e));
    ("firstname", Some (Event.firstname e)); ("email", Some (Event.email e));
    ("phone", Some (Event.phone e)); ("hash", Some (Event.hash e));
    ("key", Some (Event.key e)); ("mode", Some (Event.mode e));
    ("unmappedstatus", Some (Event.unmappedstatus e));
    ("field9", Some (Event.field9 e)); ("error", Some (Event.error e));
    ("bank_ref_num", Some (Event.bank_ref_num e));
    ("addedon", Some (Event.addedon e));
    ("payment_source", Some (Event.payment_source e));
    ("udf1", Event.udf1 e); ("udf2", Event.udf2 e); ("udf3", Event.udf3 e);
    ("udf4", Event.udf4 e); ("udf5", Event.udf5 e); ("udf6", Event.udf6 e);
    ("udf7", Event.udf7 e); ("udf8", Event.udf8 e); ("udf9", Event.udf9 e);
    ("udf10", Event.udf10 e);
    ("notificationType", Event.notificationType e) ].

Definition Event_prop (e : Event.t) (key : string) : option string :=
  match find (fun kv => String.eqb (fst kv) key) (Event_entries e) with
  | Some (_, v) => v
  | None => None
  end.

(* ================================================================== *)
(** * The collaborators of the webhook code                            *)
(* ================================================================== *)

(** What a [throw] carries:
    - an [Error] with its [message];
    - the [APIError] that [createAPIError(status, message)] builds:
      [new APIError(status, { body: { message, code: message } })] hands no
      message to [Error], so that its own [message] is the empty string and
      the text given is in its body;
    - a value that is not an [Error], with the text [String(err)];
    - a value whose conversion to a string throws [inner]: an object
      without [toString], or an [Error] whose [message] has none. *)
Inductive Thrown :=
  | ThrownError (message : string)
  | ThrownAPIError (status message : string)
  | ThrownValue (text : string)
  | ThrownUnprintable (inner : Thrown).

Inductive Result (A : Type) :=
  | Ok (a : A)
  | Throw (err : Thrown).
Arguments Ok {A} a.
Arguments Throw {A} err.

(** [err instanceof Error ? err.message : String(err)], inside the template
    literal of a catch block. *)
Definition errText (err : Thrown) : Result string :=
  match err with
  | ThrownError m => Ok m
  | ThrownAPIError _ _ => Ok ""
  | ThrownValue t => Ok t
  | ThrownUnprintable inner => Throw inner
  end.

Definition raised_by {A} (r : Result A) : option Thrown :=
  match r with Ok _ => None | Throw e => Some e end.

(** A value written by [adapter.update]. *)
Inductive Value :=
  | VString (s : string)
  | VNumber (n : Z)
  | VDate (d : Date)
  | VNull.

Record Where := { field : string; value : string }.

Record FindOneArgs := {
  find_model : string;
  find_where : list Where }.

Record UpdateArgs := {
  update_model : string;
  update_where : list Where;
  update_fields : list (string * Value) }.

Record SubscriptionCallbackData := {
  cb_subscription : Subscription.t;
  cb_plan : option Plan.t;
  cb_event : Event.t }.

Record PaymentFailureData := {
  failure_event : Event.t;
  failure_error : string }.

(** The user callbacks of [SubscriptionOptions] that take a
    [SubscriptionCallbackData]. *)
Inductive Hook :=
  | OnSubscriptionActivated | OnSubscriptionCharged | OnSubscriptionPending
  | OnSubscriptionHalted | OnSubscriptionCompleted | OnSubscriptionCancelled
  | OnSubscriptionPaused | OnSubscriptionResumed | OnPaymentSuccess
  | OnMandateRevoked | OnMandateModified.

(** The calls the webhook code makes on its collaborators. *)
Inductive Call :=
  | CFindOne (args : FindOneArgs)
  | CUpdate (args : UpdateArgs)
  | CPlans
  | CCallback (h : Hook) (data : SubscriptionCallbackData)
  | CPaymentFailure (data : PaymentFailureData)
  | CWarn (msg : string)
  | CError (msg : string).

(** A journal entry: a call, and what it threw if it threw. *)
Record Entry := { call : Call; raised : option Thrown }.

(** An external call on a world [W]: it may change the world, and it returns
    or throws (a rejected promise, awaited, throws). *)
Definition Action (W A : Type) : Type := W -> Result A * W.

Module Adapter.
Record t (W : Type) := mk {
  findOne : FindOneArgs -> Action W (option Subscription.t);
  update : UpdateArgs -> Action W unit }.
Arguments mk {W}.
Arguments findOne {W}.
Arguments update {W}.
End Adapter.

(** The logger; its methods return nothing and are taken not to throw. *)
Module Logger.
Record t (W : Type) := mk {
  warn : string -> W -> W;
  error : string -> W -> W;
  info : string -> W -> W }.
Arguments mk {W}.
Arguments warn {W}.
Arguments error {W}.
Arguments info {W}.
End Logger.

Record HookContext (W : Type) := {
  adapter : Adapter.t W;
  logger : Logger.t W }.
Arguments adapter {W}.
Arguments logger {W}.

(** [plans?: PayUPlan[] | (() => Promise<PayUPlan[]> | PayUPlan[])]. *)
Inductive Plans (W : Type) :=
  | PlansArray (l : list Plan.t)
  | PlansFunction (f : Action W (list Plan.t)).
Arguments PlansArray {W}.
Arguments PlansFunction {W}.

Module SubscriptionOptions.
Record t (W : Type) := mk {
  enabled : bool;
  plans : option (Plans W);
  onSubscriptionActivated : option (SubscriptionCallbackData -> Action W unit);
  onSubscriptionCharged : option (SubscriptionCallbackData -> Action W unit);
  onSubscriptionPending : option (SubscriptionCallbackData -> Action W unit);
  onSubscriptionHalted : option (SubscriptionCallbackData -> Action W unit);
  onSubscriptionCompleted : option (SubscriptionCallbackData -> Action W unit);
  onSubscriptionCancelled : option (SubscriptionCallbackData -> Action W unit);
  onSubscriptionPaused : option (SubscriptionCallbackData -> Action W unit);
  onSubscriptionResumed : option (SubscriptionCallbackData -> Action W unit);
  onPaymentSuccess : option (SubscriptionCallbackData -> Action W unit);
  onPaymentFailure : option (PaymentFailureData -> Action W unit);
  onMandateRevoked : option (SubscriptionCallbackData -> Action W unit);
  onMandateModified : option (SubscriptionCallbackData -> Action W unit) }.
Arguments mk {W}.
Arguments enabled {W}.
Arguments plans {W}.
Arguments onSubscriptionActivated {W}.
Arguments onSubscriptionCharged {W}.
Arguments onSubscriptionPending {W}.
Arguments onSubscriptionHalted {W}.
Arguments onSubscriptionCompleted {W}.
Arguments onSubscriptionCancelled {W}.
Arguments onSubscriptionPaused {W}.
Arguments onSubscriptionResumed {W}.
Arguments onPaymentSuccess {W}.
Arguments onPaymentFailure {W}.
Arguments onMandateRevoked {W}.
Arguments onMandateModified {W}.
End SubscriptionOptions.

Record PayUOptions (W : Type) := {
  merchantKey : string;
  merchantSalt : string;
  subscription : option (SubscriptionOptions.t W) }.
Arguments merchantKey {W}.
Arguments merchantSalt {W}.
Arguments subscription {W}.

(** [new Date()] reads the clock of the world. *)
Class Clock (W : Type) := newDate : W -> Date * W.

(* ================================================================== *)
(** * The monad of the handlers                                        *)
(* ================================================================== *)

(** A handler runs on the world and keeps a journal of the calls it makes.
    The state reached before a [throw] is kept, as in JavaScript. *)
Record St (W : Type) := { world : W; journal : list Entry }.
Arguments world {W}.
Arguments journal {W}.

Definition M (W A : Type) : Type := St W -> Result A * St W.

Section Monad.
Context {W : Type}.

Definition ret {A} (a : A) : M W A := fun st => (Ok a, st).

Definition bind {A B} (m : M W A) (k : A -> M W B) : M W B :=
  fun st =>
    match m st with
    | (Ok a, st') => k a st'
    | (Throw e, st') => (Throw e, st')
    end.

Definition throw {A} (e : Thrown) : M W A := fun st => (Throw e, st).

(** An expression that evaluates to [r] and touches no collaborator. *)
Definition eval {A} (r : Result A) : M W A := fun st => (r, st).

(** [try { m } catch (err) { h err }]. *)
Definition try_catch {A} (m : M W A) (h : Thrown -> M W A) : M W A :=
  fun st =>
    match m st with
    | (Ok a, st') => (Ok a, st')
    | (Throw e, st') => h e st'
    end.

Definition record (c : Call) (r : option Thrown) (w : W) (st : St W) : St W :=
  {| world := w; journal := journal st ++ [{| call := c; raised := r |}] |}.

(** [await act], journalled as the call [c]. *)
Definition perform {A} (c : Call) (act : Action W A) : M W A :=
  fun st =>
    let '(r, w) := act (world st) in
    (r, record c (raised_by r) w st).

(** A logger call. *)
Definition logging (c : Call) (f : W -> W) : M W unit :=
  fun st => (Ok tt, record c None (f (world st)) st).

(** [cb?.(data)]. *)
Definition invoke {D} (c : Call) (cb : option (D -> Action W unit)) (data : D)
  : M W unit :=
  match cb with
  | Some f => perform c (f data)
  | None => ret tt
  end.

Definition now `{Clock W} : M W Date :=
  fun st =>
    let '(d, w) := newDate (world st) in
    (Ok d, {| world := w; journal := journal st |}).

End Monad.

Declare Scope hook_scope.
Delimit Scope hook_scope with hook.
Notation "x <- m ;; k" := (bind m (fun x => k))
  (at level 100, m at next level, right associativity) : hook_scope.
Notation "m ;; k" := (bind m (fun _ => k))
  (at level 100, right associativity) : hook_scope.

(* ================================================================== *)
(** * hooks.ts: the webhook handlers                                   *)
(* ================================================================== *)

Local Open Scope hook_scope.

Section Hooks.
Context {W : Type} `{Clock W}.

Definition perform_findOne (a : Adapter.t W) (args : FindOneArgs)
  : M W (option Subscription.t) :=
  perform (CFindOne args) (Adapter.findOne a args).

Definition perform_update (a : Adapter.t W) (args : UpdateArgs) : M W unit :=
  perform (CUpdate args) (Adapter.update a args).

Definition logging_warn (ctx : HookContext W) (msg : string) : M W unit :=
  logging (CWarn msg) (Logger.warn (logger ctx) msg).

Definition logging_error (ctx : HookContext W) (msg : string) : M W unit :=
  logging (CError msg) (Logger.error (logger ctx) msg).

Definition findSubscriptionByTxnId (a : Adapter.t W) (txnid : string)
  : M W (option Subscription.t) :=
  perform_findOne a
    {| find_model := "subscription";
       find_where := [ {| field := "payuTransactionId"; value := txnid |} ] |}.

Definition findSubscriptionByUdf (a : Adapter.t W) (event : Event.t)
  : M W (option Subscription.t) :=
  let udf := Metadata.paramsToUdf (Event_prop event) in
  let subUdf := Metadata.subscriptionUdf_get (Some udf) in
  if Js.truthy_opt (Metadata.subscriptionId subUdf)
  then perform_findOne a
         {| find_model := "subscription";
            find_where :=
              [ {| field := "id";
                   value := Js.or_else (Metadata.subscriptionId subUdf) "" |} ] |}
  else ret None.

Definition findSubscription (a : Adapter.t W) (event : Event.t)
  : M W (option Subscription.t) :=
  byTxn <- findSubscriptionByTxnId a (Event.txnid event) ;;
  match byTxn with
  | Some s => ret (Some s)
  | None => findSubscriptionByUdf a event
  end.

(** The plan lookup that every handler repeats:
    [plans ? (typeof plans === "function" ? await plans() : plans)
               .find((p) => p.name === sub.plan) : undefined]. *)
Definition resolvePlan (so : SubscriptionOptions.t W) (sub : Subscription.t)
  : M W (option Plan.t) :=
  match SubscriptionOptions.plans so with
  | Some (PlansFunction f) =>
      l <- perform CPlans f ;;
      ret (find (fun p => String.eqb (Plan.name p) (Subscription.plan sub)) l)
  | Some (PlansArray l) =>
      ret (find (fun p => String.eqb (Plan.name p) (Subscription.plan sub)) l)
  | None => ret None
  end.

Definition callbackData (sub : Subscription.t) (plan : option Plan.t)
           (event : Event.t) : SubscriptionCallbackData :=
  {| cb_subscription := sub; cb_plan := plan; cb_event := event |}.

(** [remainingCount] as the success and charged handlers compute it. *)
Definition newRemainingCount (sub : Subscription.t) : Value :=
  match Subscription.totalCount sub with
  | Some _ =>
      VNumber (Js.max (Js.sub (Js.or_zero (Subscription.totalCount sub))
                              (Js.add (Js.or_zero (Subscription.paidCount sub)) 1))
                      0)
  | None => VNull
  end.

Definition onPaymentSuccess (ctx : HookContext W) (options : PayUOptions W)
           (event : Event.t) : M W unit :=
  match subscription options with
  | None => ret tt
  | Some so =>
  if negb (SubscriptionOptions.enabled so) then ret tt else
  if negb (Js.truthy (Event.txnid event)) then ret tt else
  try_catch
    (sub <- findSubscription (adapter ctx) event ;;
     match sub with
     | Some sub =>
       d1 <- now ;;
       perform_update (adapter ctx)
         {| update_model := "subscription";
            update_where := [ {| field := "id"; value := Subscription.id sub |} ];
            update_fields :=
              [ ("status", VString "active");
                ("payuMihpayid", VString (Event.mihpayid event));
                ("paidCount", VNumber (Js.add (Js.or_zero (Subscription.paidCount sub)) 1));
                ("remainingCount", newRemainingCount sub);
                ("updatedAt", VDate d1) ] |} ;;
       plan <- resolvePlan so sub ;;
       invoke (CCallback OnPaymentSuccess (callbackData sub plan event))
              (SubscriptionOptions.onPaymentSuccess so) (callbackData sub plan event)
     | None =>
       logging_warn ctx
         ("PayU: payment success for txnid " +:+ Event.txnid event
          +:+ " but subscription not found")
     end)
    (fun err =>
       text <- eval (errText err) ;;
       logging_error ctx ("PayU onPaymentSuccess error: " +:+ text))
  end.

(** [onPaymentFailure]: the callback is outside the [if (sub)]. *)
Definition onPaymentFailure (ctx : HookContext W) (options : PayUOptions W)
           (event : Event.t) : M W unit :=
  match subscription options with
  | None => ret tt
  | Some so =>
  if negb (SubscriptionOptions.enabled so) then ret tt else
  try_catch
    (sub <- findSubscription (adapter ctx) event ;;
     match sub with
     | Some sub =>
         d1 <- now ;;
         perform_update (adapter ctx)
           {| update_model := "subscription";
              update_where := [ {| field := "id"; value := Subscription.id sub |} ];
              update_fields :=
                [ ("status", VString "pending");
                  ("updatedAt", VDate d1) ] |}
     | None => ret tt
     end ;;
     let data :=
       {| failure_event := event;
          failure_error :=
            if Js.truthy (Event.error event) then Event.error event
            else if Js.truthy (Event.field9 event) then Event.field9 event
            else "Payment failed" |} in
     invoke (CPaymentFailure data) (SubscriptionOptions.onPaymentFailure so) data)
    (fun err =>
       text <- eval (errText err) ;;
       logging_error ctx ("PayU onPaymentFailure error: " +:+ text))
  end.

Definition onSubscriptionActivated (ctx : HookContext W) (options : PayUOptions W)
           (event : Event.t) : M W unit :=
  match subscription options with
  | None => ret tt
  | Some so =>
  if negb (SubscriptionOptions.enabled so) then ret tt else
  if negb (Js.truthy (Event.txnid event)) then ret tt else
  try_catch
    (sub <- findSubscription (adapter ctx) event ;;
     match sub with
     | Some sub =>
       d1 <- now ;;
       d2 <- now ;;
       perform_update (adapter ctx)
         {| update_model := "subscription";
            update_where := [ {| field := "id"; value := Subscription.id sub |} ];
            update_fields :=
              [ ("status", VString "active");
                ("payuMihpayid", VString (Event.mihpayid event));
                ("currentStart", VDate d1);
                ("updatedAt", VDate d2) ] |} ;;
       plan <- resolvePlan so sub ;;
       invoke (CCallback OnSubscriptionActivated (callbackData sub plan event))
              (SubscriptionOptions.onSubscriptionActivated so) (callbackData sub plan event)
     | None =>
       logging_warn ctx
         ("PayU: subscription activated for txnid " +:+ Event.txnid event
          +:+ " but subscription not found")
     end)
    (fun err =>
       text <- eval (errText err) ;;
       logging_error ctx ("PayU onSubscriptionActivated error: " +:+ text))
  end.

Definition onSubscriptionCharged (ctx : HookContext W) (options : PayUOptions W)
           (event : Event.t) : M W unit :=
  match subscription options with
  | None => ret tt
  | Some so =>
  if negb (SubscriptionOptions.enabled so) then ret tt else
  if negb (Js.truthy (Event.txnid event)) then ret tt else
  try_catch
    (sub <- findSubscription (adapter ctx) event ;;
     match sub with
     | Some sub =>
       d1 <- now ;;
       perform_update (adapter ctx)
         {| update_model := "subscription";
            update_where := [ {| field := "id"; value := Subscription.id sub |} ];
            update_fields :=
              [ ("status", VString "active");
                ("paidCount", VNumber (Js.add (Js.or_zero (Subscription.paidCount sub)) 1));
                ("remainingCount", newRemainingCount sub);
                ("payuMihpayid", VString (Event.mihpayid event));
                ("updatedAt", VDate d1) ] |} ;;
       plan <- resolvePlan so sub ;;
       invoke (CCallback OnSubscriptionCharged (callbackData sub plan event))
              (SubscriptionOptions.onSubscriptionCharged so) (callbackData sub plan event)
     | None =>
       logging_warn ctx
         ("PayU: subscription charged for txnid " +:+ Event.txnid event
          +:+ " but subscription not found")
     end)
    (fun err =>
       text <- eval (errText err) ;;
       logging_error ctx ("PayU onSubscriptionCharged error: " +:+ text))
  end.

Definition onSubscriptionPending (ctx : HookContext W) (options : PayUOptions W)
           (event : Event.t) : M W unit :=
  match subscription options with
  | None => ret tt
  | Some so =>
  if negb (SubscriptionOptions.enabled so) then ret tt else
  try_catch
    (sub <- findSubscription (adapter ctx) event ;;
     match sub with
     | Some sub =>
       d1 <- now ;;
       perform_update (adapter ctx)
         {| update_model := "subscription";
            update_where := [ {| field := "id"; value := Subscription.id sub |} ];
            update_fields :=
              [ ("status", VString "pending");
                ("updatedAt", VDate d1) ] |} ;;
       plan <- resolvePlan so sub ;;
       invoke (CCallback OnSubscriptionPending (callbackData sub plan event))
              (SubscriptionOptions.onSubscriptionPending so) (callbackData sub plan event)
     | None => ret tt
     end)
    (fun err =>
       text <- eval (errText err) ;;
       logging_error ctx ("PayU onSubscriptionPending error: " +:+ text))
  end.

Definition onSubscriptionHalted (ctx : HookContext W) (options : PayUOptions W)
           (event : Event.t) : M W unit :=
  match subscription options with
  | None => ret tt
  | Some so =>
  if negb (SubscriptionOptions.enabled so) then ret tt else
  try_catch
    (sub <- findSubscription (adapter ctx) event ;;
     match sub with
     | Some sub =>
       d1 <- now ;;
       perform_update (adapter ctx)
         {| update_model := "subscription";
            update_where := [ {| field := "id"; value := Subscription.id sub |} ];
            update_fields :=
              [ ("status", VString "halted");
                ("updatedAt", VDate d1) ] |} ;;
       plan <- resolvePlan so sub ;;
       invoke (CCallback OnSubscriptionHalted (callbackData sub plan event))
              (SubscriptionOptions.onSubscriptionHalted so) (callbackData sub plan event)
     | None => ret tt
     end)
    (fun err =>
       text <- eval (errText err) ;;
       logging_error ctx ("PayU onSubscriptionHalted error: " +:+ text))
  end.

Definition onSubscriptionCompleted (ctx : HookContext W) (options : PayUOptions W)
           (event : Event.t) : M W unit :=
  match subscription options with
  | None => ret tt
  | Some so =>
  if negb (SubscriptionOptions.enabled so) then ret tt else
  try_catch
    (sub <- findSubscription (adapter ctx) event ;;
     match sub with
     | Some sub =>
       d1 <- now ;;
       d2 <- now ;;
       perform_update (adapter ctx)
         {| update_model := "subscription";
            update_where := [ {| field := "id"; value := Subscription.id sub |} ];
            update_fields :=
              [ ("status", VString "completed");
                ("endedAt", VDate d1);
                ("remainingCount", VNumber 0);
                ("updatedAt", VDate d2) ] |} ;;
       plan <- resolvePlan so sub ;;
       invoke (CCallback OnSubscriptionCompleted (callbackData sub plan event))
              (SubscriptionOptions.onSubscriptionCompleted so) (callbackData sub plan event)
     | None => ret tt
     end)
    (fun err =>
       text <- eval (errText err) ;;
       logging_error ctx ("PayU onSubscriptionCompleted error: " +:+ text))
  end.

Definition onSubscriptionCancelled (ctx : HookContext W) (options : PayUOptions W)
           (event : Event.t) : M W unit :=
  match subscription options with
  | None => ret tt
  | Some so =>
  if negb (SubscriptionOptions.enabled so) then ret tt else
  try_catch
    (sub <- findSubscription (adapter ctx) event ;;
     match sub with
     | Some sub =>
       d1 <- now ;;
       d2 <- now ;;
       d3 <- now ;;
       perform_update (adapter ctx)
         {| update_model := "subscription";
            update_where := [ {| field := "id"; value := Subscription.id sub |} ];
            update_fields :=
              [ ("status", VString "cancelled");
                ("cancelledAt", VDate d1);
                ("endedAt", VDate d2);
                ("updatedAt", VDate d3) ] |} ;;
       plan <- resolvePlan so sub ;;
       invoke (CCallback OnSubscriptionCancelled (callbackData sub plan event))
              (SubscriptionOptions.onSubscriptionCancelled so) (callbackData sub plan event)
     | None =>
       logging_warn ctx
         ("PayU: subscription cancelled for txnid " +:+ Event.txnid event
          +:+ " but subscription not found")
     end)
    (fun err =>
       text <- eval (errText err) ;;
       logging_error ctx ("PayU onSubscriptionCancelled error: " +:+ text))
  end.

Definition onSubscriptionPaused (ctx : HookContext W) (options : PayUOptions W)
           (event : Event.t) : M W unit :=
  match subscription options with
  | None => ret tt
  | Some so =>
  if negb (SubscriptionOptions.enabled so) then ret tt else
  try_catch
    (sub <- findSubscription (adapter ctx) event ;;
     match sub with
     | Some sub =>
       d1 <- now ;;
       d2 <- now ;;
       perform_update (adapter ctx)
         {| update_model := "subscription";
            update_where := [ {| field := "id"; value := Subscription.id sub |} ];
            update_fields :=
              [ ("status", VString "paused");
                ("pausedAt", VDate d1);
                ("updatedAt", VDate d2) ] |} ;;
       plan <- resolvePlan so sub ;;
       invoke (CCallback OnSubscriptionPaused (callbackData sub plan event))
              (SubscriptionOptions.onSubscriptionPaused so) (callbackData sub plan event)
     | None => ret tt
     end)
    (fun err =>
       text <- eval (errText err) ;;
       logging_error ctx ("PayU onSubscriptionPaused error: " +:+ text))
  end.

Definition onSubscriptionResumed (ctx : HookContext W) (options : PayUOptions W)
           (event : Event.t) : M W unit :=
  match subscription options with
  | None => ret tt
  | Some so =>
  if negb (SubscriptionOptions.enabled so) then ret tt else
  try_catch
    (sub <- findSubscription (adapter ctx) event ;;
     match sub with
     | Some sub =>
       d1 <- now ;;
       perform_update (adapter ctx)
         {| update_model := "subscription";
            update_where := [ {| field := "id"; value := Subscription.id sub |} ];
            update_fields :=
              [ ("status", VString "active");
                ("pausedAt", VNull);
                ("updatedAt", VDate d1) ] |} ;;
       plan <- resolvePlan so sub ;;
       invoke (CCallback OnSubscriptionResumed (callbackData sub plan event))
              (SubscriptionOptions.onSubscriptionResumed so) (callbackData sub plan event)
     | None => ret tt
     end)
    (fun err =>
       text <- eval (errText err) ;;
       logging_error ctx ("PayU onSubscriptionResumed error: " +:+ text))
  end.

Definition onMandateRevoked (ctx : HookContext W) (options : PayUOptions W)
           (event : Event.t) : M W unit :=
  match subscription options with
  | None => ret tt
  | Some so =>
  if negb (SubscriptionOptions.enabled so) then ret tt else
  try_catch
    (sub <- findSubscription (adapter ctx) event ;;
     match sub with
     | Some sub =>
       d1 <- now ;;
       d2 <- now ;;
       d3 <- now ;;
       perform_update (adapter ctx)
         {| update_model := "subscription";
            update_where := [ {| field := "id"; value := Subscription.id sub |} ];
            update_fields :=
              [ ("status", VString "cancelled");
                ("cancelledAt", VDate d1);
                ("endedAt", VDate d2);
                ("updatedAt", VDate d3) ] |} ;;
       plan <- resolvePlan so sub ;;
       invoke (CCallback OnMandateRevoked (callbackData sub plan event))
              (SubscriptionOptions.onMandateRevoked so) (callbackData sub plan event)
     | None => ret tt
     end)
    (fun err =>
       text <- eval (errText err) ;;
       logging_error ctx ("PayU onMandateRevoked error: " +:+ text))
  end.

Definition onMandateModified (ctx : HookContext W) (options : PayUOptions W)
           (event : Event.t) : M W unit :=
  match subscription options with
  | None => ret tt
  | Some so =>
  if negb (SubscriptionOptions.enabled so) then ret tt else
  try_catch
    (sub <- findSubscription (adapter ctx) event ;;
     match sub with
     | Some sub =>
       d1 <- now ;;
       perform_update (adapter ctx)
         {| update_model := "subscription";
            update_where := [ {| field := "id"; value := Subscription.id sub |} ];
            update_fields :=
              [ ("updatedAt", VDate d1) ] |} ;;
       plan <- resolvePlan so sub ;;
       invoke (CCallback OnMandateModified (callbackData sub plan event))
              (SubscriptionOptions.onMandateModified so) (callbackData sub plan event)
     | None => ret tt
     end)
    (fun err =>
       text <- eval (errText err) ;;
       logging_error ctx ("PayU onMandateModified error: " +:+ text))
  end.

End Hooks.

(* ================================================================== *)
(** * routes.ts: the webhook endpoint                                  *)
(* ================================================================== *)

Module PAYU_ERROR_CODES.
Definition WEBHOOK_HASH_NOT_FOUND : string := "PayU webhook hash not found".
Definition FAILED_TO_VERIFY_WEBHOOK : string := "Failed to verify PayU webhook hash".
Definition UNAUTHORIZED : string := "Unauthorized access".
Definition SUBSCRIPTION_NOT_FOUND : string := "Subscription not found".
Definition SUBSCRIPTION_PLAN_NOT_FOUND : string := "Subscription plan not found".
Definition REFERENCE_ID_NOT_ALLOWED : string := "Reference id is not allowed".
Definition SUBSCRIPTION_NOT_ACTIVE : string := "Subscription is not active".
Definition SUBSCRIPTION_ALREADY_PAUSED : string := "Subscription is already paused".
Definition SUBSCRIPTION_NOT_PAUSED : string := "Subscription is not paused to resume".
Definition ORGANIZATION_ON_ACTIVE_SUBSCRIPTION : string :=
  "Organization has an active subscription and cannot be deleted".
End PAYU_ERROR_CODES.

Definition createAPIError (status message : string) : Thrown :=
  ThrownAPIError status message.

(** [ctx.json({ success: true })]. *)
Record Response := { success : bool }.

(** [x === s] for an optional string [x]. *)
Definition is_string (x : option string) (s : string) : bool :=
  match x with Some v => String.eqb v s | None => false end.

Section Routes.
Context {W : Type} `{Clock W}.

(** The parameter object the endpoint hands to [verifyPayUHash]. *)
Definition webhookVerifyParams (options : PayUOptions W)
           (body : gmap string string) : VerifyParams.t :=
  {| VerifyParams.key := Js.or_else (body !! "key") (merchantKey options);
     VerifyParams.txnid := Js.or_else (body !! "txnid") "";
     VerifyParams.amount := Js.or_else (body !! "amount") "";
     VerifyParams.productinfo := Js.or_else (body !! "productinfo") "";
     VerifyParams.firstname := Js.or_else (body !! "firstname") "";
     VerifyParams.email := Js.or_else (body !! "email") "";
     VerifyParams.status := Js.or_else (body !! "status") "";
     VerifyParams.udf1 := body !! "udf1";
     VerifyParams.udf2 := body !! "udf2";
     VerifyParams.udf3 := body !! "udf3";
     VerifyParams.udf4 := body !! "udf4";
     VerifyParams.udf5 := body !! "udf5";
     VerifyParams.udf6 := body !! "udf6";
     VerifyParams.udf7 := body !! "udf7";
     VerifyParams.udf8 := body !! "udf8";
     VerifyParams.udf9 := body !! "udf9";
     VerifyParams.udf10 := body !! "udf10" |}.

(** The [PayUWebhookEvent] the endpoint builds from the body. *)
Definition webhookEvent (body : gmap string string) (hash : string) : Event.t :=
  {| Event.mihpayid := Js.or_else (body !! "mihpayid") "";
     Event.status := Js.or_else (body !! "status") "";
     Event.txnid := Js.or_else (body !! "txnid") "";
     Event.amount := Js.or_else (body !! "amount") "";
     Event.productinfo := Js.or_else (body !! "productinfo") "";
     Event.firstname := Js.or_else (body !! "firstname") "";
     Event.email := Js.or_else (body !! "email") "";
     Event.phone := Js.or_else (body !! "phone") "";
     Event.hash := hash;
     Event.key := Js.or_else (body !! "key") "";
     Event.mode := Js.or_else (body !! "mode") "";
     Event.unmappedstatus := Js.or_else (body !! "unmappedstatus") "";
     Event.field9 := Js.or_else (body !! "field9") "";
     Event.error :=
       Js.or_else (body !! "error_Message") (Js.or_else (body !! "error") "");
     Event.bank_ref_num := Js.or_else (body !! "bank_ref_num") "";
     Event.addedon := Js.or_else (body !! "addedon") "";
     Event.payment_source := Js.or_else (body !! "payment_source") "";
     Event.udf1 := body !! "udf1";
     Event.udf2 := body !! "udf2";
     Event.udf3 := body !! "udf3";
     Event.udf4 := body !! "udf4";
     Event.udf5 := body !! "udf5";
     Event.udf6 := body !! "udf6";
     Event.udf7 := body !! "udf7";
     Event.udf8 := body !! "udf8";
     Event.udf9 := body !! "udf9";
     Event.udf10 := body !! "udf10";
     Event.notificationType := body !! "notificationType" |}.

(** The handler of [POST /payu/webhook]; [body] is [None] when the request
    carries no body. *)
Definition webhook (ctx : HookContext W) (options : PayUOptions W)
           (body : option (gmap string string)) : M W Response :=
  match body with
  | None =>
      throw (createAPIError "BAD_REQUEST" PAYU_ERROR_CODES.WEBHOOK_HASH_NOT_FOUND)
  | Some body =>
  match body !! "hash" with
  | None =>
      throw (createAPIError "BAD_REQUEST" PAYU_ERROR_CODES.WEBHOOK_HASH_NOT_FOUND)
  | Some hash =>
  if negb (Js.truthy hash)
  then throw (createAPIError "BAD_REQUEST" PAYU_ERROR_CODES.WEBHOOK_HASH_NOT_FOUND)
  else
  let isValid :=
    Utils.verifyPayUHash (webhookVerifyParams options body)
                         (merchantSalt options) hash in
  if negb isValid
  then throw (createAPIError "UNAUTHORIZED" PAYU_ERROR_CODES.FAILED_TO_VERIFY_WEBHOOK)
  else
  let event := webhookEvent body hash in
  let status := Js.toLowerCase <$> (body !! "status") in
  let notifType := Js.toLowerCase <$> (body !! "notificationType") in
  (if is_string notifType "mandate_revoked" || is_string notifType "si_cancelled"
   then onMandateRevoked ctx options event
   else if is_string notifType "mandate_modified" || is_string notifType "si_modified"
   then onMandateModified ctx options event
   else if is_string status "success" || is_string status "captured"
   then onPaymentSuccess ctx options event ;;
        onSubscriptionActivated ctx options event
   else if is_string status "failure" || is_string status "failed"
   then onPaymentFailure ctx options event
   else if is_string status "pending"
   then onSubscriptionPending ctx options event
   else if is_string status "cancelled"
   then onSubscriptionCancelled ctx options event
   else if is_string status "halted"
   then onSubscriptionHalted ctx options event
   else if is_string status "completed"
   then onSubscriptionCompleted ctx options event
   else if is_string status "paused"
   then onSubscriptionPaused ctx options event
   else if is_string status "resumed" || is_string status "active"
   then onSubscriptionResumed ctx options event
   else ret tt) ;;
  ret {| success := true |}
  end
  end.

End Routes.

(* ================================================================== *)
(** * An in-memory persistence collaborator                            *)
(* ================================================================== *)

(** A reference implementation of the adapter contract ([findOne] returns the
    first record that meets every condition, [update] rewrites that record
    field by field) over a list of subscriptions, with a clock that advances
    by one millisecond at each reading. It serves the concrete scenarios. *)
Module Mem.

Record World := { db : list Subscription.t; time : Date }.

#[global] Instance clock : Clock World :=
  fun w => (time w, {| db := db w; time := time w + 1 |}).

Definition set_payuMihpayid x (s : Subscription.t) : Subscription.t :=
  Subscription.mk (Subscription.id s) (Subscription.plan s)
    (Subscription.referenceId s) (Subscription.payuCustomerId s)
    (Subscription.payuSubscriptionId s) (Subscription.payuMandateType s)
    (Subscription.payuTransactionId s) x (Subscription.status s)
    (Subscription.currentPeriodStart s) (Subscription.currentPeriodEnd s)
    (Subscription.cancelledAt s) (Subscription.endedAt s)
    (Subscription.pausedAt s) (Subscription.totalCount s)
    (Subscription.paidCount s) (Subscription.remainingCount s)
    (Subscription.quantity s) (Subscription.seats s)
    (Subscription.trialStart s) (Subscription.trialEnd s)
    (Subscription.metadata s) (Subscription.createdAt s)
    (Subscription.updatedAt s).

Definition set_status x (s : Subscription.t) : Subscription.t :=
  Subscription.mk (Subscription.id s) (Subscription.plan s)
    (Subscription.referenceId s) (Subscription.payuCustomerId s)
    (Subscription.payuSubscriptionId s) (Subscription.payuMandateType s)
    (Subscription.payuTransactionId s) (Subscription.payuMihpayid s) x
    (Subscription.currentPeriodStart s) (Subscription.currentPeriodEnd s)
    (Subscription.cancelledAt s) (Subscription.endedAt s)
    (Subscription.pausedAt s) (Subscription.totalCount s)
    (Subscription.paidCount s) (Subscription.remainingCount s)
    (Subscription.quantity s) (Subscription.seats s)
    (Subscription.trialStart s) (Subscription.trialEnd s)
    (Subscription.metadata s) (Subscription.createdAt s)
    (Subscription.updatedAt s).

Definition set_cancelledAt x (s : Subscription.t) : Subscription.t :=
  Subscription.mk (Subscription.id s) (Subscription.plan s)
    (Subscription.referenceId s) (Subscription.payuCustomerId s)
    (Subscription.payuSubscriptionId s) (Subscription.payuMandateType s)
    (Subscription.payuTransactionId s) (Subscription.payuMihpayid s)
    (Subscription.status s) (Subscription.currentPeriodStart s)
    (Subscription.currentPeriodEnd s) x (Subscription.endedAt s)
    (Subscription.pausedAt s) (Subscription.totalCount s)
    (Subscription.paidCount s) (Subscription.remainingCount s)
    (Subscription.quantity s) (Subscription.seats s)
    (Subscription.trialStart s) (Subscription.trialEnd s)
    (Subscription.metadata s) (Subscription.createdAt s)
    (Subscription.updatedAt s).

Definition set_endedAt x (s : Subscription.t) : Subscription.t :=
  Subscription.mk (Subscription.id s) (Subscription.plan s)
    (Subscription.referenceId s) (Subscription.payuCustomerId s)
    (Subscription.payuSubscriptionId s) (Subscription.payuMandateType s)
    (Subscription.payuTransactionId s) (Subscription.payuMihpayid s)
    (Subscription.status s) (Subscription.currentPeriodStart s)
    (Subscription.currentPeriodEnd s) (Subscription.cancelledAt s) x
    (Subscription.pausedAt s) (Subscription.totalCount s)
    (Subscription.paidCount s) (Subscription.remainingCount s)
    (Subscription.quantity s) (Subscription.seats s)
    (Subscription.trialStart s) (Subscription.trialEnd s)
    (Subscription.metadata s) (Subscription.createdAt s)
    (Subscription.updatedAt s).

Definition set_pausedAt x (s : Subscription.t) : Subscription.t :=
  Subscription.mk (Subscription.id s) (Subscription.plan s)
    (Subscription.referenceId s) (Subscription.payuCustomerId s)
    (Subscription.payuSubscriptionId s) (Subscription.payuMandateType s)
    (Subscription.payuTransactionId s) (Subscription.payuMihpayid s)
    (Subscription.status s) (Subscription.currentPeriodStart s)
    (Subscription.currentPeriodEnd s) (Subscription.cancelledAt s)
    (Subscription.endedAt s) x (Subscription.totalCount s)
    (Subscription.paidCount s) (Subscription.remainingCount s)
    (Subscription.quantity s) (Subscription.seats s)
    (Subscription.trialStart s) (Subscription.trialEnd s)
    (Subscription.metadata s) (Subscription.createdAt s)
    (Subscription.updatedAt s).

Definition set_paidCount x (s : Subscription.t) : Subscription.t :=
  Subscription.mk (Subscription.id s) (Subscription.plan s)
    (Subscription.referenceId s) (Subscription.payuCustomerId s)
    (Subscription.payuSubscriptionId s) (Subscription.payuMandateType s)
    (Subscription.payuTransactionId s) (Subscription.payuMihpayid s)
    (Subscription.status s) (Subscription.currentPeriodStart s)
    (Subscription.currentPeriodEnd s) (Subscription.cancelledAt s)
    (Subscription.endedAt s) (Subscription.pausedAt s)
    (Subscription.totalCount s) x (Subscription.remainingCount s)
    (Subscription.quantity s) (Subscription.seats s)
    (Subscription.trialStart s) (Subscription.trialEnd s)
    (Subscription.metadata s) (Subscription.createdAt s)
    (Subscription.updatedAt s).

Definition set_remainingCount x (s : Subscription.t) : Subscription.t :=
  Subscription.mk (Subscription.id s) (Subscription.plan s)
    (Subscription.referenceId s) (Subscription.payuCustomerId s)
    (Subscription.payuSubscriptionId s) (Subscription.payuMandateType s)
    (Subscription.payuTransactionId s) (Subscription.payuMihpayid s)
    (Subscription.status s) (Subscription.currentPeriodStart s)
    (Subscription.currentPeriodEnd s) (Subscription.cancelledAt s)
    (Subscription.endedAt s) (Subscription.pausedAt s)
    (Subscription.totalCount s) (Subscription.paidCount s) x
    (Subscription.quantity s) (Subscription.seats s)
    (Subscription.trialStart s) (Subscription.trialEnd s)
    (Subscription.metadata s) (Subscription.createdAt s)
    (Subscription.updatedAt s).

Definition set_updatedAt x (s : Subscription.t) : Subscription.t :=
  Subscription.mk (Subscription.id s) (Subscription.plan s)
    (Subscription.referenceId s) (Subscription.payuCustomerId s)
    (Subscription.payuSubscriptionId s) (Subscription.payuMandateType s)
    (Subscription.payuTransactionId s) (Subscription.payuMihpayid s)
    (Subscription.status s) (Subscription.currentPeriodStart s)
    (Subscription.currentPeriodEnd s) (Subscription.cancelledAt s)
    (Subscription.endedAt s) (Subscription.pausedAt s)
    (Subscription.totalCount s) (Subscription.paidCount s)
    (Subscription.remainingCount s) (Subscription.quantity s)
    (Subscription.seats s) (Subscription.trialStart s)
    (Subscription.trialEnd s) (Subscription.metadata s)
    (Subscription.createdAt s) x.

Definition matches (s : Subscription.t) (c : Where) : bool :=
  if String.eqb (field c) "id" then String.eqb (Subscription.id s) (value c)
  else if String.eqb (field c) "payuTransactionId"
  then is_string (Subscription.payuTransactionId s) (value c)
  else if String.eqb (field c) "referenceId"
  then String.eqb (Subscription.referenceId s) (value c)
  else false.

Definition selects (model : string) (conds : list Where) (s : Subscription.t)
  : bool :=
  String.eqb model "subscription" && forallb (matches s) conds.

Definition date_field (v : Value) : option Date :=
  match v with VDate d => Some d | _ => None end.

Definition number_field (v : Value) : option Z :=
  match v with VNumber n => Some n | _ => None end.

Definition string_field (v : Value) : option string :=
  match v with VString x => Some x | _ => None end.

(** Writing one field; a field the record does not have is dropped. *)
Definition write (s : Subscription.t) (fv : string * Value) : Subscription.t :=
  let '(f, v) := fv in
  if String.eqb f "status"
  then match v with
       | VString x => set_status (Utils.toSubscriptionStatus x) s
       | _ => s
       end
  else if String.eqb f "payuMihpayid" then set_payuMihpayid (string_field v) s
  else if String.eqb f "cancelledAt" then set_cancelledAt (date_field v) s
  else if String.eqb f "endedAt" then set_endedAt (date_field v) s
  else if String.eqb f "pausedAt" then set_pausedAt (date_field v) s
  else if String.eqb f "paidCount" then set_paidCount (number_field v) s
  else if String.eqb f "remainingCount" then set_remainingCount (number_field v) s
  else if String.eqb f "updatedAt"
  then match v with VDate d => set_updatedAt d s | _ => s end
  else s.

Fixpoint rewrite_first (sel : Subscription.t -> bool)
         (f : Subscription.t -> Subscription.t) (l : list Subscription.t)
  : list Subscription.t :=
  match l with
  | [] => []
  | s :: l' => if sel s then f s :: l' else s :: rewrite_first sel f l'
  end.

Definition findOne (args : FindOneArgs) : Action World (option Subscription.t) :=
  fun w => (Ok (find (selects (find_model args) (find_where args)) (db w)), w).

Definition update (args : UpdateArgs) : Action World unit :=
  fun w =>
    (Ok tt,
     {| db := rewrite_first (selects (update_model args) (update_where args))
                (fun s => fold_left write (update_fields args) s) (db w);
        time := time w |}).

Definition memAdapter : Adapter.t World := Adapter.mk findOne update.

(** A logger that keeps nothing. *)
Definition memLogger : Logger.t World :=
  Logger.mk (fun _ w => w) (fun _ w => w) (fun _ w => w).

Definition ctx : HookContext World := {| adapter := memAdapter; logger := memLogger |}.

(** A user callback that returns normally. *)
Definition quiet {D : Type} : D -> Action World unit := fun _ w => (Ok tt, w).

Definition start (subs : list Subscription.t) (t : Date) : St World :=
  {| world := {| db := subs; time := t |}; journal := [] |}.

End Mem.

(* ================================================================== *)
(** * utils.ts: the plan lookups                                       *)
(* ================================================================== *)

Section PlanLookup.
Context {W : Type}.

(** [getPlans]. *)
Definition getPlans (subscriptionOptions : option (SubscriptionOptions.t W))
  : M W (list Plan.t) :=
  match subscriptionOptions with
  | Some so =>
      if SubscriptionOptions.enabled so
      then match SubscriptionOptions.plans so with
           | Some (PlansFunction f) => perform CPlans f
           | Some (PlansArray l) => ret l
           | None => ret []
           end
      else throw (ThrownError "Subscriptions are not enabled in the PayU options.")
  | None => throw (ThrownError "Subscriptions are not enabled in the PayU options.")
  end.

(** [getPlanByName]: the names are compared in lower case. *)
Definition getPlanByName (options : PayUOptions W) (name : string)
  : M W (option Plan.t) :=
  res <- getPlans (subscription options) ;;
  ret (find (fun plan =>
               String.eqb (Js.toLowerCase (Plan.name plan)) (Js.toLowerCase name))
            res).

(** [getPlanByPlanId]. *)
Definition getPlanByPlanId (options : PayUOptions W) (planId : string)
  : M W (option Plan.t) :=
  res <- getPlans (subscription options) ;;
  ret (find (fun plan =>
               String.eqb (Plan.planId plan) planId
               || is_string (Plan.annualPlanId plan) planId)
            res).

End PlanLookup.

(* ================================================================== *)
(** * middleware.ts                                                    *)
(* ================================================================== *)

(** [ctx.context.session?.user]. *)
Record User := { user_id : string }.

(** What the middleware and the routes below read of an endpoint context:
    the adapter, the session's user, and [referenceId] in the body and in
    the query. *)
Record EndpointContext (W : Type) := {
  ep_adapter : Adapter.t W;
  ep_user : option User;
  ep_body_referenceId : option string;
  ep_query_referenceId : option string }.
Arguments ep_adapter {W}.
Arguments ep_user {W}.
Arguments ep_body_referenceId {W}.
Arguments ep_query_referenceId {W}.

(** The argument of [authorizeReference]. *)
Record AuthorizeParams := {
  auth_action : string;
  auth_organizationId : string;
  auth_userId : string;
  auth_role : option string }.

(** [OrganizationOptions], for the fields the middleware reads. *)
Record OrganizationOptions (W : Type) := {
  org_enabled : bool;
  authorizeReference : option (AuthorizeParams -> Action W bool) }.
Arguments org_enabled {W}.
Arguments authorizeReference {W}.

(** [PayUOptions] with its [organization] field. *)
Record RouteOptions (W : Type) := {
  payu : PayUOptions W;
  organization : option (OrganizationOptions W) }.
Arguments payu {W}.
Arguments organization {W}.

Inductive ReferenceType := ReferenceUser | ReferenceOrganization.

Record Reference := {
  ref_referenceId : string;
  ref_type : ReferenceType;
  ref_userId : string }.

Section Middleware.
Context {W : Type}.

(** An awaited call that is not on the adapter, the logger or a webhook
    callback: it acts on the world and is not journalled. *)
Definition await {A} (act : Action W A) : M W A :=
  fun st =>
    let '(r, w) := act (world st) in
    (r, {| world := w; journal := journal st |}).

(** [payuSessionMiddleware]. *)
Definition payuSessionMiddleware (ctx : EndpointContext W) : M W User :=
  match ep_user ctx with
  | None => throw (createAPIError "UNAUTHORIZED" PAYU_ERROR_CODES.UNAUTHORIZED)
  | Some user => ret user
  end.

(** [referenceMiddleware(options)]. *)
Definition referenceMiddleware (options : RouteOptions W)
           (ctx : EndpointContext W) : M W Reference :=
  user <- payuSessionMiddleware ctx ;;
  let referenceId :=
    match ep_body_referenceId ctx with
    | Some r => r
    | None =>
        match ep_query_referenceId ctx with
        | Some r => r
        | None => user_id user
        end
    end in
  if String.eqb referenceId (user_id user)
  then ret {| ref_referenceId := referenceId; ref_type := ReferenceUser;
              ref_userId := user_id user |}
  else
    match organization options with
    | Some org =>
        if org_enabled org
        then
          (match authorizeReference org with
           | Some authorize =>
               allowed <- await (authorize
                                   {| auth_action := "list-subscriptions";
                                      auth_organizationId := referenceId;
                                      auth_userId := user_id user;
                                      auth_role := None |}) ;;
               if negb allowed
               then throw (createAPIError "FORBIDDEN"
                             PAYU_ERROR_CODES.REFERENCE_ID_NOT_ALLOWED)
               else ret tt
           | None => ret tt
           end) ;;
          ret {| ref_referenceId := referenceId;
                 ref_type := ReferenceOrganization;
                 ref_userId := user_id user |}
        else throw (createAPIError "FORBIDDEN"
                      PAYU_ERROR_CODES.REFERENCE_ID_NOT_ALLOWED)
    | None => throw (createAPIError "FORBIDDEN"
                       PAYU_ERROR_CODES.REFERENCE_ID_NOT_ALLOWED)
    end.

End Middleware.

(* ================================================================== *)
(** * routes.ts: pause, resume and the plan endpoints                  *)
(* ================================================================== *)

(** [ctx.json({ plans })] and [ctx.json({ plan })]. *)
Record PlansResponse := { plans_json : list Plan.t }.
Record PlanResponse := { plan_json : Plan.t }.

(** [ctx.json({ subscriptions })] and [ctx.json({ subscription })]. *)
Record SubscriptionsResponse := { subscriptions_json : list Subscription.t }.
Record SubscriptionResponse := { subscription_json : Subscription.t }.

Section MoreRoutes.
Context {W : Type} `{Clock W}.

(** [pauseSubscription]. *)
Definition pauseSubscription (options : RouteOptions W)
           (ctx : EndpointContext W) : M W Response :=
  ref <- referenceMiddleware options ctx ;;
  subscription <- perform_findOne (ep_adapter ctx)
    {| find_model := "subscription";
       find_where :=
         [ {| field := "referenceId"; value := ref_referenceId ref |};
           {| field := "status"; value := "active" |} ] |} ;;
  match subscription with
  | None =>
      throw (createAPIError "NOT_FOUND" PAYU_ERROR_CODES.SUBSCRIPTION_NOT_FOUND)
  | Some subscription =>
      if negb (Utils.isActive (Subscription.status subscription))
      then throw (createAPIError "BAD_REQUEST"
                    PAYU_ERROR_CODES.SUBSCRIPTION_NOT_ACTIVE)
      else if Utils.isPaused (Subscription.status subscription)
      then throw (createAPIError "BAD_REQUEST"
                    PAYU_ERROR_CODES.SUBSCRIPTION_ALREADY_PAUSED)
      else
        d1 <- now ;;
        d2 <- now ;;
        perform_update (ep_adapter ctx)
          {| update_model := "subscription";
             update_where :=
               [ {| field := "id"; value := Subscription.id subscription |} ];
             update_fields :=
               [ ("status", VString "paused");
                 ("pausedAt", VDate d1);
                 ("updatedAt", VDate d2) ] |} ;;
        ret {| success := true |}
  end.

(** [resumeSubscription]. *)
Definition resumeSubscription (options : RouteOptions W)
           (ctx : EndpointContext W) : M W Response :=
  ref <- referenceMiddleware options ctx ;;
  subscription <- perform_findOne (ep_adapter ctx)
    {| find_model := "subscription";
       find_where :=
         [ {| field := "referenceId"; value := ref_referenceId ref |};
           {| field := "status"; value := "paused" |} ] |} ;;
  match subscription with
  | None =>
      throw (createAPIError "NOT_FOUND" PAYU_ERROR_CODES.SUBSCRIPTION_NOT_FOUND)
  | Some subscription =>
      if negb (Utils.isPaused (Subscription.status subscription))
      then throw (createAPIError "BAD_REQUEST"
                    PAYU_ERROR_CODES.SUBSCRIPTION_NOT_PAUSED)
      else
        d1 <- now ;;
        perform_update (ep_adapter ctx)
          {| update_model := "subscription";
             update_where :=
               [ {| field := "id"; value := Subscription.id subscription |} ];
             update_fields :=
               [ ("status", VString "active");
                 ("pausedAt", VNull);
                 ("updatedAt", VDate d1) ] |} ;;
        ret {| success := true |}
  end.

(** [listPlans]. *)
Definition listPlans (options : RouteOptions W) (ctx : EndpointContext W)
  : M W PlansResponse :=
  payuSessionMiddleware ctx ;;
  match subscription (payu options) with
  | Some so =>
      if negb (SubscriptionOptions.enabled so)
      then ret {| plans_json := [] |}
      else
        plans <- getPlans (subscription (payu options)) ;;
        ret {| plans_json := plans |}
  | None => ret {| plans_json := [] |}
  end.

(** [getPlan]. *)
Definition getPlan (options : RouteOptions W) (ctx : EndpointContext W)
           (planId : string) : M W PlanResponse :=
  payuSessionMiddleware ctx ;;
  plan <- getPlanByPlanId (payu options) planId ;;
  match plan with
  | None =>
      throw (createAPIError "NOT_FOUND"
               PAYU_ERROR_CODES.SUBSCRIPTION_PLAN_NOT_FOUND)
  | Some plan => ret {| plan_json := plan |}
  end.

(** [listSubscriptions]: one [findOne], wrapped in an array. *)
Definition listSubscriptions (options : RouteOptions W)
           (ctx : EndpointContext W) : M W SubscriptionsResponse :=
  ref <- referenceMiddleware options ctx ;;
  subscriptions <- perform_findOne (ep_adapter ctx)
    {| find_model := "subscription";
       find_where :=
         [ {| field := "referenceId"; value := ref_referenceId ref |} ] |} ;;
  ret {| subscriptions_json :=
           match subscriptions with
           | Some s => [s]
           | None => []
           end |}.

(** [getSubscription], on the [subscriptionId] of the query. *)
Definition getSubscription (ctx : EndpointContext W) (subscriptionId : string)
  : M W SubscriptionResponse :=
  payuSessionMiddleware ctx ;;
  subscription <- perform_findOne (ep_adapter ctx)
    {| find_model := "subscription";
       find_where := [ {| field := "id"; value := subscriptionId |} ] |} ;;
  match subscription with
  | None =>
      throw (createAPIError "NOT_FOUND" PAYU_ERROR_CODES.SUBSCRIPTION_NOT_FOUND)
  | Some subscription => ret {| subscription_json := subscription |}
  end.

End MoreRoutes.

(* ================================================================== *)
(** * index.ts: the organization deletion hook                         *)
(* ================================================================== *)

Section Plugin.
Context {W : Type}.

(** [beforeDeletePayUOrg], on the id of the organization. *)
Definition beforeDeletePayUOrg (a : Adapter.t W) (organizationId : string)
  : M W unit :=
  subscription <- perform_findOne a
    {| find_model := "subscription";
       find_where := [ {| field := "referenceId"; value := organizationId |} ] |} ;;
  match subscription with
  | Some subscription =>
      if Utils.isActive (Subscription.status subscription)
      then throw (createAPIError "BAD_REQUEST"
                    PAYU_ERROR_CODES.ORGANIZATION_ON_ACTIVE_SUBSCRIPTION)
      else ret tt
  | None => ret tt
  end.

(** The [beforeDeleteOrganization] hook the plugin installs: the hook that
    was there first, then the check above. *)
Definition beforeDeleteOrganization
           (existing : option (string -> Action W unit))
           (a : Adapter.t W) (organizationId : string) : M W unit :=
  match existing with
  | Some hook => await (hook organizationId)
  | None => ret tt
  end ;;
  beforeDeletePayUOrg a organizationId.

End Plugin.

(* ================================================================== *)
(** * Vocabulary of the properties                                     *)
(* ================================================================== *)

(** The definitions below are used to state the properties of the model;
    [W] is the world the collaborators act on. *)
Section Vocabulary.
Context {W : Type} `{Clock W}.

(** ** The hash engine *)

(** The digits [digest("hex")] prints. *)
Definition is_lower_hex (c : ascii) : bool :=
  existsb (Ascii.eqb c) (list_ascii_of_string "0123456789abcdef").

(** What [join] puts before and after an element of the array. *)
Definition lead (sep : string) (pre : list string) : string :=
  fold_right (fun s acc => s +:+ sep +:+ acc) "" pre.

Definition trail (sep : string) (post : list string) : string :=
  fold_right (fun s acc => sep +:+ s +:+ acc) "" post.

(** The number of separators in a string. *)
Fixpoint pipes (s : string) : nat :=
  match s with
  | EmptyString => 0
  | String c s' => ((if Ascii.eqb c "|" then 1 else 0) + pipes s')%nat
  end.

(** Scenario of the test suite: one metadata slot set, the others absent. *)
Definition johnVerify : VerifyParams.t :=
  {| VerifyParams.key := "testKey";
     VerifyParams.txnid := "txn123";
     VerifyParams.amount := "100";
     VerifyParams.productinfo := "TestProduct";
     VerifyParams.firstname := "John";
     VerifyParams.email := "john@test.com";
     VerifyParams.status := "success";
     VerifyParams.udf1 := Some "custom1";
     VerifyParams.udf2 := None; VerifyParams.udf3 := None;
     VerifyParams.udf4 := None; VerifyParams.udf5 := None;
     VerifyParams.udf6 := None; VerifyParams.udf7 := None;
     VerifyParams.udf8 := None; VerifyParams.udf9 := None;
     VerifyParams.udf10 := None |}.

Definition john : HashParams.t := VerifyParams.hashParams johnVerify.

(** The reverse message with five placeholders after the status, as the
    README formula [salt|status||||||udf10|...|udf1|email|...|key] has it. *)
Definition reverseHashFields_five (params : VerifyParams.t) (salt : string)
  : list string :=
  [ salt; VerifyParams.status params; ""; ""; ""; ""; "";
    default "" (VerifyParams.udf10 params);
    default "" (VerifyParams.udf9 params);
    default "" (VerifyParams.udf8 params);
    default "" (VerifyParams.udf7 params);
    default "" (VerifyParams.udf6 params);
    default "" (VerifyParams.udf5 params);
    default "" (VerifyParams.udf4 params);
    default "" (VerifyParams.udf3 params);
    default "" (VerifyParams.udf2 params);
    default "" (VerifyParams.udf1 params);
    VerifyParams.email params; VerifyParams.firstname params;
    VerifyParams.productinfo params; VerifyParams.amount params;
    VerifyParams.txnid params; VerifyParams.key params ].

(** The fields of the outbound message, in the order of the array. *)
Inductive Field :=
  | FKey | FTxnid | FAmount | FProductinfo | FFirstname | FEmail
  | FUdf1 | FUdf2 | FUdf3 | FUdf4 | FUdf5 | FUdf6 | FUdf7 | FUdf8 | FUdf9
  | FUdf10
  | FSalt.

Definition allFields : list Field :=
  [ FKey; FTxnid; FAmount; FProductinfo; FFirstname; FEmail;
    FUdf1; FUdf2; FUdf3; FUdf4; FUdf5; FUdf6; FUdf7; FUdf8; FUdf9; FUdf10;
    FSalt ].

(** The position of a field in the array. *)
Definition position (f : Field) : nat :=
  match f with
  | FKey => 0 | FTxnid => 1 | FAmount => 2 | FProductinfo => 3
  | FFirstname => 4 | FEmail => 5
  | FUdf1 => 6 | FUdf2 => 7 | FUdf3 => 8 | FUdf4 => 9 | FUdf5 => 10
  | FUdf6 => 11 | FUdf7 => 12 | FUdf8 => 13 | FUdf9 => 14 | FUdf10 => 15
  | FSalt => 16
  end.

(** What a field contributes to the message: its string, and for a
    metadata slot the empty string when the slot is absent. *)
Definition effective (f : Field) (params : HashParams.t) (salt : string) : string :=
  match f with
  | FKey => HashParams.key params
  | FTxnid => HashParams.txnid params
  | FAmount => HashParams.amount params
  | FProductinfo => HashParams.productinfo params
  | FFirstname => HashParams.firstname params
  | FEmail => HashParams.email params
  | FUdf1 => default "" (HashParams.udf1 params)
  | FUdf2 => default "" (HashParams.udf2 params)
  | FUdf3 => default "" (HashParams.udf3 params)
  | FUdf4 => default "" (HashParams.udf4 params)
  | FUdf5 => default "" (HashParams.udf5 params)
  | FUdf6 => default "" (HashParams.udf6 params)
  | FUdf7 => default "" (HashParams.udf7 params)
  | FUdf8 => default "" (HashParams.udf8 params)
  | FUdf9 => default "" (HashParams.udf9 params)
  | FUdf10 => default "" (HashParams.udf10 params)
  | FSalt => salt
  end.

(** ** Journals *)

(** An entry of a call that returned. *)
Definition quiet (e : Entry) : Prop := raised e = None.

(** The entries a computation adds agree with its outcome: nothing raised
    when it returns, and the raising call is the last entry when it throws. *)
Definition faithful {A} (r : Result A) (es : list Entry) : Prop :=
  match r with
  | Ok _ => Forall quiet es
  | Throw err =>
      exists es0 c,
        es = (es0 ++ [{| call := c; raised := Some err |}])%list
        /\ Forall quiet es0
  end.

Definition disciplined {A} (m : M W A) : Prop :=
  forall st, exists es,
    journal (m st).2 = (journal st ++ es)%list /\ faithful (m st).1 es.

(** The text of a thrown value in the log line of a catch block: the
    message of an [Error], which is empty for the [APIError] of
    [createAPIError], and [String(err)] for another value; a value whose
    conversion throws has none. *)
Definition printed (err : Thrown) : option string :=
  match err with
  | ThrownError message => Some message
  | ThrownAPIError _ _ => Some ""
  | ThrownValue text => Some text
  | ThrownUnprintable _ => None
  end.

(** An entry that did not raise a value without a text. *)
Definition tame (e : Entry) : Prop :=
  forall inner, raised e <> Some (ThrownUnprintable inner).

(** Every entry that raised a value with a text is directly followed by
    an error log that ends with that text. *)
Definition logs_error (err : Thrown) (e : Entry) : Prop :=
  exists prefix text,
    printed err = Some text
    /\ e = {| call := CError (prefix +:+ text); raised := None |}.

Definition logged (es : list Entry) : Prop :=
  forall pre e post err,
    es = (pre ++ e :: post)%list -> raised e = Some err -> printed err <> None ->
    exists e' post', post = e' :: post' /\ logs_error err e'.

(** The one way out of a handler: its last call raised a value without a
    text, and what leaves is the exception of the conversion. *)
Definition contained {A} (r : Result A) (es : list Entry) : Prop :=
  match r with
  | Ok _ => Forall tame es
  | Throw inner =>
      exists es0 c,
        es = (es0 ++ [{| call := c; raised := Some (ThrownUnprintable inner) |}])%list
        /\ Forall tame es0
  end.

(** A handler is tidy when its entries are logged and nothing leaves it
    but the exception of such a conversion. *)
Definition tidy {A} (h : M W A) : Prop :=
  forall st, exists es,
    journal (h st).2 = (journal st ++ es)%list
    /\ logged es /\ contained (h st).1 es.

(** Every entry a computation adds satisfies [Q]. *)
Definition emits {A} (Q : Entry -> Prop) (m : M W A) : Prop :=
  forall st, exists es,
    journal (m st).2 = (journal st ++ es)%list /\ Forall Q es.

(** ** Classification of an event *)

(** The classes of the dispatch algorithm. *)
Inductive Classification :=
  | MandateRevoked | MandateModified
  | PaymentSuccess | PaymentFailure
  | SubscriptionPending | SubscriptionCancelled | SubscriptionHalted
  | SubscriptionCompleted | SubscriptionPaused | SubscriptionResumed
  | NoMatch.

(** The handlers run for each classification. *)
Definition dispatch (ctx : HookContext W) (options : PayUOptions W)
           (event : Event.t) (c : Classification) : M W unit :=
  match c with
  | MandateRevoked => onMandateRevoked ctx options event
  | MandateModified => onMandateModified ctx options event
  | PaymentSuccess =>
      onPaymentSuccess ctx options event ;;
      onSubscriptionActivated ctx options event
  | PaymentFailure => onPaymentFailure ctx options event
  | SubscriptionPending => onSubscriptionPending ctx options event
  | SubscriptionCancelled => onSubscriptionCancelled ctx options event
  | SubscriptionHalted => onSubscriptionHalted ctx options event
  | SubscriptionCompleted => onSubscriptionCompleted ctx options event
  | SubscriptionPaused => onSubscriptionPaused ctx options event
  | SubscriptionResumed => onSubscriptionResumed ctx options event
  | NoMatch => ret tt
  end.

(** The classification as the endpoint computes it: the first row of a
    table whose name is the lower-cased string. *)
Definition notificationTable : list (string * Classification) :=
  [ ("mandate_revoked", MandateRevoked); ("si_cancelled", MandateRevoked);
    ("mandate_modified", MandateModified); ("si_modified", MandateModified) ].

Definition statusTable : list (string * Classification) :=
  [ ("success", PaymentSuccess); ("captured", PaymentSuccess);
    ("failure", PaymentFailure); ("failed", PaymentFailure);
    ("pending", SubscriptionPending);
    ("cancelled", SubscriptionCancelled);
    ("halted", SubscriptionHalted);
    ("completed", SubscriptionCompleted);
    ("paused", SubscriptionPaused);
    ("resumed", SubscriptionResumed); ("active", SubscriptionResumed) ].

Definition recognize (table : list (string * Classification)) (x : option string)
  : option Classification :=
  match x with
  | Some v =>
      snd <$> find (fun row => String.eqb (Js.toLowerCase v) (fst row)) table
  | None => None
  end.

(** The notification type decides when it is recognized; the status
    decides otherwise. *)
Definition classify (notificationType status : option string) : Classification :=
  match recognize notificationTable notificationType with
  | Some c => c
  | None =>
      match recognize statusTable status with
      | Some c => c
      | None => NoMatch
      end
  end.

(** The classification as the specification words it, without a case
    conversion. A name of small letters is spelled by a string that has,
    for each letter in turn, the letter, its capital or, for [k], the Kelvin
    sign U+212A (the bytes E2 84 AA in UTF-8). *)
Definition small (c : ascii) : bool :=
  ((97 <=? Utf8.byte c) && (Utf8.byte c <=? 122))%Z.

Definition capital (c : ascii) : ascii :=
  if small c then Utf8.char (Utf8.byte c - 32) else c.

Definition after_kelvin (x : string) : option string :=
  match x with
  | String b1 (String b2 (String b3 rest)) =>
      if Ascii.eqb b1 (Utf8.char 226) && Ascii.eqb b2 (Utf8.char 132)
         && Ascii.eqb b3 (Utf8.char 170)
      then Some rest else None
  | _ => None
  end.

Fixpoint spelled (name x : string) : bool :=
  match name with
  | EmptyString => String.eqb x ""
  | String c name' =>
      match x with
      | String d x' =>
          (Ascii.eqb d c || Ascii.eqb d (capital c)) && spelled name' x'
          || Ascii.eqb c "k"
             && match after_kelvin x with
                | Some rest => spelled name' rest
                | None => false
                end
      | EmptyString => false
      end
  end.

(** A field that is present and spells one of the names. *)
Definition named (names : list string) (x : option string) : bool :=
  match x with
  | Some v => existsb (fun name => spelled name v) names
  | None => false
  end.

(** An ordered match, first on the notification type, then on the status. *)
Definition classification (notificationType status : option string)
  : Classification :=
  if named ["mandate_revoked"; "si_cancelled"] notificationType then MandateRevoked
  else if named ["mandate_modified"; "si_modified"] notificationType
  then MandateModified
  else if named ["success"; "captured"] status then PaymentSuccess
  else if named ["failure"; "failed"] status then PaymentFailure
  else if named ["pending"] status then SubscriptionPending
  else if named ["cancelled"] status then SubscriptionCancelled
  else if named ["halted"] status then SubscriptionHalted
  else if named ["completed"] status then SubscriptionCompleted
  else if named ["paused"] status then SubscriptionPaused
  else if named ["resumed"; "active"] status then SubscriptionResumed
  else NoMatch.

(** A name without capitals and within ASCII. *)
Definition plain (name : string) : bool :=
  forallb (fun c => (Utf8.byte c <? 128)%Z
                    && negb ((65 <=? Utf8.byte c) && (Utf8.byte c <=? 90))%Z)
          (list_ascii_of_string name).

(** A body whose hash is present and verifies against the merchant salt. *)
Definition verified (options : PayUOptions W) (body : gmap string string)
           (hash : string) : Prop :=
  body !! "hash" = Some hash /\ hash <> "" /\
  Utils.verifyPayUHash (webhookVerifyParams options body)
                       (merchantSalt options) hash = true.

(** ** Lookups and updates *)

(** The name of metadata slot [i]. *)
Definition udfKey (i : nat) : string := "udf" +:+ pretty i.

(** The two questions the lookup asks of the adapter. *)
Definition byTransactionId (txnid : string) : FindOneArgs :=
  {| find_model := "subscription";
     find_where := [ {| field := "payuTransactionId"; value := txnid |} ] |}.

Definition bySubscriptionId (id : string) : FindOneArgs :=
  {| find_model := "subscription";
     find_where := [ {| field := "id"; value := id |} ] |}.

(** The clock reading of [new Date()] in a world, and the world after it. *)
Definition reading (w : W) : Date := (newDate w).1.
Definition tick (w : W) : W := (newDate w).2.


(** The counters after one more payment, in the arithmetic of numbers. *)
Definition paidAfter (sub : Subscription.t) : Z :=
  Js.add (Js.or_zero (Subscription.paidCount sub)) 1.

Definition remainingAfter (sub : Subscription.t) : Value :=
  match Subscription.totalCount sub with
  | Some total => VNumber (Js.max (Js.sub total (paidAfter sub)) 0)
  | None => VNull
  end.

(** An update of one subscription, selected by its id. *)
Definition updateOf (sub : Subscription.t) (fields : list (string * Value))
  : UpdateArgs :=
  {| update_model := "subscription";
     update_where := [ {| field := "id"; value := Subscription.id sub |} ];
     update_fields := fields |}.

(** The update object of the payment-success handler. *)
Definition paymentSuccessUpdate (sub : Subscription.t) (event : Event.t)
           (d : Date) : UpdateArgs :=
  updateOf sub
    [ ("status", VString "active");
      ("payuMihpayid", VString (Event.mihpayid event));
      ("paidCount", VNumber (paidAfter sub));
      ("remainingCount", remainingAfter sub);
      ("updatedAt", VDate d) ].

(** The update object of the charged handler: the same fields, in the
    order of that handler. *)
Definition chargedUpdate (sub : Subscription.t) (event : Event.t)
           (d : Date) : UpdateArgs :=
  updateOf sub
    [ ("status", VString "active");
      ("paidCount", VNumber (paidAfter sub));
      ("remainingCount", remainingAfter sub);
      ("payuMihpayid", VString (Event.mihpayid event));
      ("updatedAt", VDate d) ].

(** The update object of the activation handler, from two successive clock
    readings. *)
Definition activatedUpdate (sub : Subscription.t) (event : Event.t) (w : W)
  : UpdateArgs :=
  updateOf sub
    [ ("status", VString "active");
      ("payuMihpayid", VString (Event.mihpayid event));
      ("currentStart", VDate (reading w));
      ("updatedAt", VDate (reading (tick w))) ].

(** The update object of the pending, halted and payment-failure handlers. *)
Definition statusUpdate (status : string) (sub : Subscription.t) (d : Date)
  : UpdateArgs :=
  updateOf sub [ ("status", VString status); ("updatedAt", VDate d) ].

Definition completedUpdate (sub : Subscription.t) (w : W) : UpdateArgs :=
  updateOf sub
    [ ("status", VString "completed");
      ("endedAt", VDate (reading w));
      ("remainingCount", VNumber 0);
      ("updatedAt", VDate (reading (tick w))) ].

(** The update object of the cancellation handler and of the
    revoked-mandate handler, from three successive clock readings. *)
Definition cancelledUpdate (sub : Subscription.t) (w : W) : UpdateArgs :=
  updateOf sub
    [ ("status", VString "cancelled");
      ("cancelledAt", VDate (reading w));
      ("endedAt", VDate (reading (tick w)));
      ("updatedAt", VDate (reading (tick (tick w)))) ].

(** The update objects of pausing and of resuming. *)
Definition pausedUpdate (sub : Subscription.t) (w : W) : UpdateArgs :=
  {| update_model := "subscription";
     update_where := [ {| field := "id"; value := Subscription.id sub |} ];
     update_fields :=
       [ ("status", VString "paused");
         ("pausedAt", VDate (reading w));
         ("updatedAt", VDate (reading (tick w))) ] |}.

Definition resumedUpdate (sub : Subscription.t) (w : W) : UpdateArgs :=
  {| update_model := "subscription";
     update_where := [ {| field := "id"; value := Subscription.id sub |} ];
     update_fields :=
       [ ("status", VString "active");
         ("pausedAt", VNull);
         ("updatedAt", VDate (reading w)) ] |}.

Definition modifiedUpdate (sub : Subscription.t) (d : Date) : UpdateArgs :=
  updateOf sub [ ("updatedAt", VDate d) ].

(** The failure data the payment-failure handler hands to the callback. *)
Definition paymentFailureData (event : Event.t) : PaymentFailureData :=
  {| failure_event := event;
     failure_error :=
       if String.eqb (Event.error event) ""
       then (if String.eqb (Event.field9 event) "" then "Payment failed"
             else Event.field9 event)
       else Event.error event |}.

(** The value an update object gives to a field. *)
Definition fieldOf (name : string) (u : UpdateArgs) : option Value :=
  snd <$> find (fun fv => String.eqb (fst fv) name) (update_fields u).


(** ** The calls on the collaborators *)

(** The definitions below apply the adapter, the plan function, the
    callbacks and the logger themselves, on the world they find, and keep
    the journal as the handlers do. *)

(** The state after an awaited call that left the world [w]. *)
Definition moved (w : W) (st : St W) : St W :=
  {| world := w; journal := journal st |}.

(** The state after the call [c] gave [answer]. *)
Definition called {A} (c : Call) (answer : Result A * W) (st : St W) : St W :=
  record c (raised_by answer.1) answer.2 st.

(** The catch block of a handler: [logger.error] is given the prefix of
    the handler and the text of what was thrown; a thrown value whose
    conversion throws leaves the handler with that exception, unlogged. *)
Definition caught (ctx : HookContext W) (prefix : string) (err : Thrown)
           (st : St W) : Result unit * St W :=
  let logs msg :=
    (Ok tt, record (CError msg) None (Logger.error (logger ctx) msg (world st)) st) in
  match err with
  | ThrownError message => logs (prefix +:+ message)
  | ThrownAPIError _ _ => logs prefix
  | ThrownValue text => logs (prefix +:+ text)
  | ThrownUnprintable inner => (Throw inner, st)
  end.

(** The lookup: by transaction id, then by slot 4. *)
Definition sought (a : Adapter.t W) (event : Event.t) (st : St W)
  : Result (option Subscription.t) * St W :=
  let q := byTransactionId (Event.txnid event) in
  let first := Adapter.findOne a q (world st) in
  let st1 := called (CFindOne q) first st in
  match first.1 with
  | Ok None =>
      match Event.udf4 event with
      | Some id =>
          if String.eqb id "" then (Ok None, st1)
          else
            let second := Adapter.findOne a (bySubscriptionId id) (world st1) in
            (second.1, called (CFindOne (bySubscriptionId id)) second st1)
      | None => (Ok None, st1)
      end
  | answer => (answer, st1)
  end.

(** The plan of a subscription: the first plan of that name. *)
Definition planned (so : SubscriptionOptions.t W) (sub : Subscription.t)
           (st : St W) : Result (option Plan.t) * St W :=
  let named := find (fun p => String.eqb (Plan.name p) (Subscription.plan sub)) in
  match SubscriptionOptions.plans so with
  | Some (PlansFunction f) =>
      let answer := f (world st) in
      (match answer.1 with
       | Ok l => Ok (named l)
       | Throw err => Throw err
       end,
       called CPlans answer st)
  | Some (PlansArray l) => (Ok (named l), st)
  | None => (Ok None, st)
  end.

(** The callback of each hook. *)
Definition callback_of (so : SubscriptionOptions.t W) (h : Hook)
  : option (SubscriptionCallbackData -> Action W unit) :=
  match h with
  | OnSubscriptionActivated => SubscriptionOptions.onSubscriptionActivated so
  | OnSubscriptionCharged => SubscriptionOptions.onSubscriptionCharged so
  | OnSubscriptionPending => SubscriptionOptions.onSubscriptionPending so
  | OnSubscriptionHalted => SubscriptionOptions.onSubscriptionHalted so
  | OnSubscriptionCompleted => SubscriptionOptions.onSubscriptionCompleted so
  | OnSubscriptionCancelled => SubscriptionOptions.onSubscriptionCancelled so
  | OnSubscriptionPaused => SubscriptionOptions.onSubscriptionPaused so
  | OnSubscriptionResumed => SubscriptionOptions.onSubscriptionResumed so
  | OnPaymentSuccess => SubscriptionOptions.onPaymentSuccess so
  | OnMandateRevoked => SubscriptionOptions.onMandateRevoked so
  | OnMandateModified => SubscriptionOptions.onMandateModified so
  end.

(** After the update: the plan is looked up and the callback of the hook,
    when there is one, is applied to the subscription, the plan and the
    event; what either throws is caught. *)
Definition notified (ctx : HookContext W) (so : SubscriptionOptions.t W)
           (sub : Subscription.t) (event : Event.t) (h : Hook)
           (prefix : string) (st : St W) : Result unit * St W :=
  let looked := planned so sub st in
  match looked.1 with
  | Throw err => caught ctx prefix err looked.2
  | Ok plan =>
      match callback_of so h with
      | None => (Ok tt, looked.2)
      | Some f =>
          let data := callbackData sub plan event in
          let answer := f data (world looked.2) in
          let st' := called (CCallback h data) answer looked.2 in
          match answer.1 with
          | Ok _ => (Ok tt, st')
          | Throw err => caught ctx prefix err st'
          end
      end
  end.

(** The update [u] is handed to the adapter; when it returns the callback
    is notified, and what it throws is caught. *)
Definition updated (ctx : HookContext W) (so : SubscriptionOptions.t W)
           (sub : Subscription.t) (event : Event.t) (u : UpdateArgs)
           (h : Hook) (prefix : string) (st : St W) : Result unit * St W :=
  let answer := Adapter.update (adapter ctx) u (world st) in
  let st' := called (CUpdate u) answer st in
  match answer.1 with
  | Ok _ => notified ctx so sub event h prefix st'
  | Throw err => caught ctx prefix err st'
  end.

(** A handler from its lookup on: [build] gives the update object of the
    subscription found and the world after the clock readings; [missing]
    is the head of the warning of a handler that warns when nothing is
    found. *)
Definition handled (ctx : HookContext W) (so : SubscriptionOptions.t W)
           (event : Event.t) (build : Subscription.t -> W -> UpdateArgs * W)
           (h : Hook) (prefix : string) (missing : option string) (st : St W)
  : Result unit * St W :=
  let looked := sought (adapter ctx) event st in
  match looked.1 with
  | Throw err => caught ctx prefix err looked.2
  | Ok None =>
      match missing with
      | Some head =>
          let msg := head +:+ Event.txnid event +:+ " but subscription not found" in
          (Ok tt,
           record (CWarn msg) None (Logger.warn (logger ctx) msg (world looked.2))
                  looked.2)
      | None => (Ok tt, looked.2)
      end
  | Ok (Some sub) =>
      let built := build sub (world looked.2) in
      updated ctx so sub event built.1 h prefix (moved built.2 looked.2)
  end.

(** The payment-failure callback, applied to the failure data. *)
Definition failure_notified (ctx : HookContext W) (so : SubscriptionOptions.t W)
           (event : Event.t) (st : St W) : Result unit * St W :=
  match SubscriptionOptions.onPaymentFailure so with
  | None => (Ok tt, st)
  | Some f =>
      let data := paymentFailureData event in
      let answer := f data (world st) in
      let st' := called (CPaymentFailure data) answer st in
      match answer.1 with
      | Ok _ => (Ok tt, st')
      | Throw err => caught ctx "PayU onPaymentFailure error: " err st'
      end
  end.

(** The payment-failure handler from its lookup on: the callback is
    notified whether a subscription is found or not. *)
Definition failure_handled (ctx : HookContext W) (so : SubscriptionOptions.t W)
           (event : Event.t) (st : St W) : Result unit * St W :=
  let looked := sought (adapter ctx) event st in
  match looked.1 with
  | Throw err => caught ctx "PayU onPaymentFailure error: " err looked.2
  | Ok None => failure_notified ctx so event looked.2
  | Ok (Some sub) =>
      let w := world looked.2 in
      let u := statusUpdate "pending" sub (reading w) in
      let answer := Adapter.update (adapter ctx) u (tick w) in
      let st' := called (CUpdate u) answer (moved (tick w) looked.2) in
      match answer.1 with
      | Ok _ => failure_notified ctx so event st'
      | Throw err => caught ctx "PayU onPaymentFailure error: " err st'
      end
  end.

(** ** Entries *)



(** An update whose [status] is [cancelled], for the entries that are
    updates. *)
Definition cancels (e : Entry) : Prop :=
  match call e with
  | CUpdate u => fieldOf "status" u = Some (VString "cancelled")
  | _ => True
  end.

End Vocabulary.

(* ================================================================== *)
(** * Scenarios on the in-memory collaborator                          *)
(* ================================================================== *)

Module Scenario.

(** The subscription of the test suite: 3 of 12 charges paid. *)
Definition monthly : Subscription.t :=
  {| Subscription.id := "sub_123";
     Subscription.plan := "Monthly";
     Subscription.referenceId := "user_123";
     Subscription.payuCustomerId := Some "cust_123";
     Subscription.payuSubscriptionId := "payu_sub_123";
     Subscription.payuMandateType := Some card;
     Subscription.payuTransactionId := Some "txn_123";
     Subscription.payuMihpayid := None;
     Subscription.status := active;
     Subscription.currentPeriodStart := Some 1000;
     Subscription.currentPeriodEnd := None;
     Subscription.cancelledAt := None;
     Subscription.endedAt := None;
     Subscription.pausedAt := None;
     Subscription.totalCount := Some 12;
     Subscription.paidCount := Some 3;
     Subscription.remainingCount := Some 9;
     Subscription.quantity := Some 1;
     Subscription.seats := None;
     Subscription.trialStart := None;
     Subscription.trialEnd := None;
     Subscription.metadata := None;
     Subscription.createdAt := 1000;
     Subscription.updatedAt := 1000 |}.

(** A second subscription, of another user and another transaction. *)
Definition other : Subscription.t :=
  Subscription.mk "sub_456" "Monthly" "user_456" None "payu_sub_456"
    (Some upi) (Some "txn_456") None created None None None None None
    (Some 12) (Some 0) (Some 12) (Some 1) None None None None 2000 2000.



Definition monthlyPlan : Plan.t :=
  {| Plan.planId := "plan_monthly"; Plan.name := "Monthly";
     Plan.annualPlanId := None; Plan.amount := "499";
     Plan.billingCycle := "MONTHLY"; Plan.billingInterval := 1;
     Plan.totalCount := 12 |}.

(** Subscriptions enabled, one plan, every callback set and returning. *)
Definition subscriptionOptions : SubscriptionOptions.t Mem.World :=
  SubscriptionOptions.mk true (Some (PlansArray [monthlyPlan]))
    (Some Mem.quiet) (Some Mem.quiet) (Some Mem.quiet)
    (Some Mem.quiet) (Some Mem.quiet) (Some Mem.quiet)
    (Some Mem.quiet) (Some Mem.quiet) (Some Mem.quiet)
    (Some Mem.quiet) (Some Mem.quiet) (Some Mem.quiet).

Definition options : PayUOptions Mem.World :=
  {| merchantKey := "testKey";
     merchantSalt := "testSalt";
     subscription := Some subscriptionOptions |}.

(** What [throw Object.create(null)] throws: the conversion of the value
    to a string is a [TypeError]. *)
Definition bare : Thrown :=
  ThrownUnprintable (ThrownError "Cannot convert object to primitive value").

(** A callback that throws such a value. *)
Definition throwing {D : Type} : D -> Action Mem.World unit :=
  fun _ w => (Throw bare, w).

(** The options with such a payment-success callback, and with such a
    payment-failure callback. *)
Definition throwingOptions : PayUOptions Mem.World :=
  {| merchantKey := "testKey";
     merchantSalt := "testSalt";
     subscription :=
       Some (SubscriptionOptions.mk true (Some (PlansArray [monthlyPlan]))
               None None None None None None None None
               (Some throwing) (Some throwing) None None) |}.

(** A plan whose name starts with a capital outside ASCII, U+00C9. *)
Definition ecolePlan : Plan.t :=
  {| Plan.planId := "plan_ecole";
     Plan.name := String (Utf8.char 195) (String (Utf8.char 137) "cole");
     Plan.annualPlanId := None; Plan.amount := "99";
     Plan.billingCycle := "MONTHLY"; Plan.billingInterval := 1;
     Plan.totalCount := 12 |}.

Definition ecoleOptions : PayUOptions Mem.World :=
  {| merchantKey := "testKey";
     merchantSalt := "testSalt";
     subscription :=
       Some (SubscriptionOptions.mk true (Some (PlansArray [monthlyPlan; ecolePlan]))
               None None None None None None None None None None None None) |}.


(** The event of the test suite. *)
Definition event : Event.t :=
  {| Event.mihpayid := "mih_123"; Event.status := "success";
     Event.txnid := "txn_123"; Event.amount := "499";
     Event.productinfo := "Monthly"; Event.firstname := "user_123";
     Event.email := "test@test.com"; Event.phone := "9999999999";
     Event.hash := "test_hash"; Event.key := "testKey"; Event.mode := "CC";
     Event.unmappedstatus := "captured"; Event.field9 := "";
     Event.error := ""; Event.bank_ref_num := "ref123";
     Event.addedon := "2024-01-15"; Event.payment_source := "payu";
     Event.udf1 := None; Event.udf2 := None; Event.udf3 := None;
     Event.udf4 := None; Event.udf5 := None; Event.udf6 := None;
     Event.udf7 := None; Event.udf8 := None; Event.udf9 := None;
     Event.udf10 := None; Event.notificationType := None |}.

Definition withUdf4 (id : string) (e : Event.t) : Event.t :=
  Event.mk (Event.mihpayid e) (Event.status e) (Event.txnid e)
    (Event.amount e) (Event.productinfo e) (Event.firstname e)
    (Event.email e) (Event.phone e) (Event.hash e) (Event.key e)
    (Event.mode e) (Event.unmappedstatus e) (Event.field9 e)
    (Event.error e) (Event.bank_ref_num e) (Event.addedon e)
    (Event.payment_source e) (Event.udf1 e) (Event.udf2 e) (Event.udf3 e)
    (Some id) (Event.udf5 e) (Event.udf6 e) (Event.udf7 e) (Event.udf8 e)
    (Event.udf9 e) (Event.udf10 e) (Event.notificationType e).


(** The fields of a callback body, apart from the status, the
    notification type and the hash. *)
Definition fields : list (string * string) :=
  [ ("mihpayid", "mih_123"); ("txnid", "txn_123"); ("amount", "499");
    ("productinfo", "Monthly"); ("firstname", "user_123");
    ("email", "test@test.com"); ("key", "testKey") ].

Definition body (status : string) (notificationType : option string)
           (hash : string) : gmap string string :=
  let base := list_to_map (("status", status) :: ("hash", hash) :: fields) in
  match notificationType with
  | Some n => <["notificationType" := n]> base
  | None => base
  end.

(** An adapter whose database is down. *)
Definition brokenAdapter : Adapter.t Mem.World :=
  Adapter.mk (fun _ w => (Throw (ThrownError "DB error"), w))
             (fun _ w => (Throw (ThrownError "DB error"), w)).

Definition brokenCtx : HookContext Mem.World :=
  {| adapter := brokenAdapter; logger := Mem.memLogger |}.

Definition revokedHash : string :=
  "2ef9862d50ee581e8d479c7719dbe429be51a8d60d6f4a9ae0a47623e9925fbc0a23da71294f21a418722dcc0777369b5e249c33e7d781fa94c77cc84f646a48".

Definition successHash : string :=
  "dc04f36970dc73135cde399b91085d6a50de94022fc38e84822337f2907f13cc4090e4e29e9f4644d7586340fefd5139fd1da893d22afb0bbe91548428c61688".

Definition refundedHash : string :=
  "20acc9449daa057ea23c0c0703641db1923233f33912a841e4c21b343f5c0c998eb4642f4ad9ea23995dde7b3344e99a25995810012a17d1ec64bfcb37cb9e3c".

Definition failureHash : string :=
  "f1c0f98214f804748d1524858395809a862d8fe1e7af36d3e30afc467f7552ce3334c2df24bc3fde3c489feb951512067ecd1bc3ce8434a0a4e8a49152445ed5".

(** A mandate revocation that also carries [status=active]. *)
Definition revokedBody : gmap string string :=
  body "active" (Some "mandate_revoked") revokedHash.

(** The same revocation, its notification type in capitals and with the
    Kelvin sign for the letter K. *)
Definition kelvinSign : string :=
  String (Utf8.char 226) (String (Utf8.char 132) (String (Utf8.char 170) "")).

Definition kelvinBody : gmap string string :=
  body "active" (Some ("MANDATE_REVO" +:+ kelvinSign +:+ "ED")) revokedHash.

Definition failureBody : gmap string string := body "failure" None failureHash.

Definition successBody : gmap string string := body "success" None successHash.

(** A status the endpoint does not know. *)
Definition refundedBody : gmap string string := body "refunded" None refundedHash.

End Scenario.

Definition found (st : St Mem.World) : St Mem.World :=
  record (CFindOne (byTransactionId "txn_123")) None (world st) st.



(* ================================================================== *)
(** * Vocabulary of the further properties                             *)
(* ================================================================== *)

(** The ten slot names of metadata.ts. *)
Definition udfSlots : list string :=
  ["udf1"; "udf2"; "udf3"; "udf4"; "udf5"; "udf6"; "udf7"; "udf8"; "udf9"; "udf10"].

Section PlanVocabulary.
Context {W : Type} `{Clock W}.

(** [options.subscription?.enabled]. *)
Definition subscriptionsEnabled (options : PayUOptions W) : bool :=
  match subscription options with
  | Some so => SubscriptionOptions.enabled so
  | None => false
  end.

(** The error of [getPlans] when subscriptions are off. *)
Definition notEnabled : Thrown :=
  ThrownError "Subscriptions are not enabled in the PayU options.".

(** Two strings that differ at most in the case of their letters. *)
Definition same_letters (a b : string) : Prop :=
  Js.toLowerCase a = Js.toLowerCase b.

End PlanVocabulary.

Section WebhookVocabulary.
Context {W : Type} `{Clock W}.

(** The fields of the body that the webhook hands to [verifyPayUHash]. *)
Definition hashedFields : list string :=
  ["hash"; "key"; "txnid"; "amount"; "productinfo"; "firstname"; "email";
   "status"; "udf1"; "udf2"; "udf3"; "udf4"; "udf5"; "udf6"; "udf7"; "udf8";
   "udf9"; "udf10"].

(** The two errors of the webhook endpoint. *)
Definition hashNotFound : Thrown :=
  createAPIError "BAD_REQUEST" PAYU_ERROR_CODES.WEBHOOK_HASH_NOT_FOUND.

Definition hashRefused : Thrown :=
  createAPIError "UNAUTHORIZED" PAYU_ERROR_CODES.FAILED_TO_VERIFY_WEBHOOK.

(** The update objects among the entries. *)
Definition updates (es : list Entry) : list UpdateArgs :=
  omap (fun e => match call e with CUpdate u => Some u | _ => None end) es.

Definition reads (e : Entry) : Prop := updates [e] = [].

(** A computation that adds at most [n] updates to the journal. *)
Definition writes_at_most {A} (n : nat) (m : M W A) : Prop :=
  forall st, exists es,
    journal (m st).2 = (journal st ++ es)%list
    /\ (List.length (updates es) <= n)%nat.

(** The lookups are the two of [findSubscription]; an update is on one
    subscription, by its id, and refreshes [updatedAt]. *)
Definition well_aimed (e : Entry) : Prop :=
  match call e with
  | CFindOne q => exists v, q = byTransactionId v \/ q = bySubscriptionId v
  | CUpdate u =>
      update_model u = "subscription"
      /\ (exists id, update_where u = [ {| field := "id"; value := id |} ])
      /\ exists d, fieldOf "updatedAt" u = Some (VDate d)
  | _ => True
  end.

(** The status each classification writes. *)
Definition statusWritten (c : Classification) : option PayUSubscriptionStatus :=
  match c with
  | MandateRevoked | SubscriptionCancelled => Some cancelled
  | PaymentSuccess | SubscriptionResumed => Some active
  | PaymentFailure | SubscriptionPending => Some pending
  | SubscriptionHalted => Some halted
  | SubscriptionCompleted => Some completed
  | SubscriptionPaused => Some paused
  | MandateModified | NoMatch => None
  end.

(** The field names of the update objects of each classification. *)
Definition fieldsWritten (c : Classification) : list (list string) :=
  match c with
  | MandateRevoked | SubscriptionCancelled =>
      [ ["status"; "cancelledAt"; "endedAt"; "updatedAt"] ]
  | MandateModified => [ ["updatedAt"] ]
  | PaymentSuccess =>
      [ ["status"; "payuMihpayid"; "paidCount"; "remainingCount"; "updatedAt"];
        ["status"; "payuMihpayid"; "currentStart"; "updatedAt"] ]
  | PaymentFailure | SubscriptionPending | SubscriptionHalted =>
      [ ["status"; "updatedAt"] ]
  | SubscriptionCompleted =>
      [ ["status"; "endedAt"; "remainingCount"; "updatedAt"] ]
  | SubscriptionPaused | SubscriptionResumed =>
      [ ["status"; "pausedAt"; "updatedAt"] ]
  | NoMatch => []
  end.

Definition writes_as (c : Classification) (e : Entry) : Prop :=
  match call e with
  | CUpdate u =>
      fieldOf "status" u
      = (fun s => VString (status_name s)) <$> statusWritten c
      /\ In (fst <$> update_fields u) (fieldsWritten c)
  | _ => True
  end.

(** A lookup that returned. *)
Definition is_lookup (e : Entry) : bool :=
  match call e, raised e with
  | CFindOne _, None => true
  | _, _ => false
  end.

(** A handler that returns and leaves nothing in the journal but lookups:
    no write, no callback and no log line. *)
Definition silent (h : M W unit) : Prop :=
  forall st, exists st' es,
    h st = (Ok tt, st') /\ journal st' = (journal st ++ es)%list
    /\ forallb is_lookup es = true.

(** A handler that returns after lookups and, last, the warning that the
    subscription of [txnid] was not found. *)
Definition warns (txnid : string) (h : M W unit) : Prop :=
  forall st, exists st' es head,
    h st = (Ok tt, st')
    /\ journal st' =
       (journal st ++ es ++
        [ {| call := CWarn (head +:+ txnid +:+ " but subscription not found");
             raised := None |} ])%list
    /\ forallb is_lookup es = true.

End WebhookVocabulary.

Section RouteVocabulary.
Context {W : Type} `{Clock W}.

(** The errors of the middleware and of the routes. *)
Definition unauthorized : Thrown :=
  createAPIError "UNAUTHORIZED" PAYU_ERROR_CODES.UNAUTHORIZED.

Definition forbidden : Thrown :=
  createAPIError "FORBIDDEN" PAYU_ERROR_CODES.REFERENCE_ID_NOT_ALLOWED.

Definition subscriptionNotFound : Thrown :=
  createAPIError "NOT_FOUND" PAYU_ERROR_CODES.SUBSCRIPTION_NOT_FOUND.

Definition notActive : Thrown :=
  createAPIError "BAD_REQUEST" PAYU_ERROR_CODES.SUBSCRIPTION_NOT_ACTIVE.

Definition alreadyPaused : Thrown :=
  createAPIError "BAD_REQUEST" PAYU_ERROR_CODES.SUBSCRIPTION_ALREADY_PAUSED.

Definition notPaused : Thrown :=
  createAPIError "BAD_REQUEST" PAYU_ERROR_CODES.SUBSCRIPTION_NOT_PAUSED.

Definition organizationHasSubscription : Thrown :=
  createAPIError "BAD_REQUEST" PAYU_ERROR_CODES.ORGANIZATION_ON_ACTIVE_SUBSCRIPTION.

(** The reference a request asks for: the body's, else the query's, else
    the user's own id. *)
Definition requested (ctx : EndpointContext W) (user : User) : string :=
  default (default (user_id user) (ep_query_referenceId ctx))
          (ep_body_referenceId ctx).

(** [options.organization?.enabled]. *)
Definition organizationsEnabled (options : RouteOptions W) : bool :=
  match organization options with
  | Some org => org_enabled org
  | None => false
  end.

(** What the middleware asks of [authorizeReference]. *)
Definition authorization (referenceId : string) (user : User) : AuthorizeParams :=
  {| auth_action := "list-subscriptions";
     auth_organizationId := referenceId;
     auth_userId := user_id user;
     auth_role := None |}.

Definition asUser (user : User) : Reference :=
  {| ref_referenceId := user_id user; ref_type := ReferenceUser;
     ref_userId := user_id user |}.

Definition asOrganization (referenceId : string) (user : User) : Reference :=
  {| ref_referenceId := referenceId; ref_type := ReferenceOrganization;
     ref_userId := user_id user |}.

(** The lookups of the pause and resume routes and of the deletion hook. *)
Definition byReferenceAndStatus (referenceId status : string) : FindOneArgs :=
  {| find_model := "subscription";
     find_where :=
       [ {| field := "referenceId"; value := referenceId |};
         {| field := "status"; value := status |} ] |}.

Definition byReference (referenceId : string) : FindOneArgs :=
  {| find_model := "subscription";
     find_where := [ {| field := "referenceId"; value := referenceId |} ] |}.

End RouteVocabulary.

(** Scenarios for the routes. *)
Module Requests.

Definition alice : User := {| user_id := "user_123" |}.

(** An adapter that finds nothing. *)
Definition lostAdapter : Adapter.t Mem.World :=
  Adapter.mk (fun _ w => (Ok None, w)) Mem.update.

Definition lostCtx : HookContext Mem.World :=
  {| adapter := lostAdapter; logger := Mem.memLogger |}.

(** An adapter that answers every lookup with the record [s]. *)
Definition holding (s : Subscription.t) : Adapter.t Mem.World :=
  Adapter.mk (fun _ w => (Ok (Some s), w)) Mem.update.

(** [monthly], paused. *)
Definition pausedRecord : Subscription.t := Mem.set_status paused Scenario.monthly.

(** A request of [alice] for her own subscriptions. *)
Definition signedIn (a : Adapter.t Mem.World) : EndpointContext Mem.World :=
  {| ep_adapter := a; ep_user := Some alice;
     ep_body_referenceId := None; ep_query_referenceId := None |}.

(** A request of [alice] for the organization [org_1]. *)
Definition forOrganization : EndpointContext Mem.World :=
  {| ep_adapter := Mem.memAdapter; ep_user := Some alice;
     ep_body_referenceId := Some "org_1"; ep_query_referenceId := None |}.

(** A request without a session. *)
Definition signedOut : EndpointContext Mem.World :=
  {| ep_adapter := Mem.memAdapter; ep_user := None;
     ep_body_referenceId := Some "org_1"; ep_query_referenceId := None |}.

Definition routeOptions : RouteOptions Mem.World :=
  {| payu := Scenario.options; organization := None |}.

(** Organizations enabled, without [authorizeReference]. *)
Definition openOrganizations : RouteOptions Mem.World :=
  {| payu := Scenario.options;
     organization := Some {| org_enabled := true; authorizeReference := None |} |}.

(** Options without the subscription part. *)
Definition disabledOptions : PayUOptions Mem.World :=
  {| merchantKey := "testKey"; merchantSalt := "testSalt"; subscription := None |}.

Definition disabledRouteOptions : RouteOptions Mem.World :=
  {| payu := disabledOptions; organization := None |}.

(** The internal fields of the second subscription. *)
Definition otherFields : Metadata.SubscriptionUdfFields :=
  {| Metadata.set_userId := "user_456";
     Metadata.set_subscriptionId := "sub_456";
     Metadata.set_referenceId := "user_456" |}.

End Requests.

(* ================================================================== *)
(** * Properties of the hash engine                                    *)
(* ================================================================== *)

Section DigestShape.

Lemma be_bytes_length n x : List.length (Sha512.be_bytes n x) = n.
Proof.
  revert x. induction n as [|n IH]; intros x; simpl; [reflexivity|].
  rewrite List.length_app, IH. simpl. lia.
Qed.

Lemma digest_length msg : List.length (Sha512.digest msg) = 64%nat.
Proof.
  unfold Sha512.digest, Sha512.state_words. simpl.
  repeat rewrite List.length_app. repeat rewrite be_bytes_length.
  reflexivity.
Qed.

Lemma to_hex_length bs :
  String.length (Bytes.to_hex bs) = (2 * List.length bs)%nat.
Proof. induction bs as [|b bs IH]; simpl; [reflexivity|]. rewrite IH. lia. Qed.

Lemma hex_digit_lower d : is_lower_hex (Bytes.hex_digit d) = true.
Proof.
  unfold Bytes.hex_digit.
  repeat (match goal with
          | |- context [match ?x with _ => _ end] => destruct x
          end; try reflexivity).
Qed.

Lemma to_hex_lower bs :
  forallb is_lower_hex (list_ascii_of_string (Bytes.to_hex bs)) = true.
Proof.
  induction bs as [|b bs IH]; simpl; [reflexivity|].
  rewrite !hex_digit_lower. exact IH.
Qed.

(** A digest of [createHmac("sha512", ...)] is 128 lowercase hexadecimal
    digits, that is 512 bits. *)
Lemma createHmac_sha512_hex_shape key data :
  String.length (createHmac_sha512_hex key data) = 128%nat /\
  forallb is_lower_hex
    (list_ascii_of_string (createHmac_sha512_hex key data)) = true.
Proof.
  unfold createHmac_sha512_hex, Hmac.hmac_sha512. split.
  - rewrite to_hex_length, digest_length. reflexivity.
  - apply to_hex_lower.
Qed.

End DigestShape.

(** Known answers: RFC 4231, test cases 2 and 6 (a key longer than a block). *)
Example hmac_sha512_rfc4231_case2 :
  createHmac_sha512_hex "Jefe" "what do ya want for nothing?" =
  "164b7a7bfcf819e2e395fbe73b56e0a387bd64222e831fd610270cd7ea2505549758bf75c05a994a6d034f65f8f0e6fdcaeab1a34d4a6b4b636e070a38bce737".
Proof. vm_compute. reflexivity. Qed.

Example hmac_sha512_rfc4231_case6 :
  Bytes.to_hex
    (Hmac.hmac_sha512 (repeat 0xaa 131)
       (Bytes.of_string "Test Using Larger Than Block-Size Key - Hash Key First")) =
  "80b24263c7c1a3ebb71493c1dd7be8b49b46d1f41b4aeec1121b013783f8f3526b56d037e05f2598bd0fd2215d6a1e5295e64f73f63f0aec8b915a985d786598".
Proof. vm_compute. reflexivity. Qed.

Section StringFacts.

Lemma append_nil t : "" +:+ t = t.
Proof. reflexivity. Qed.

Lemma append_cons c s t : String c s +:+ t = String c (s +:+ t).
Proof. reflexivity. Qed.

Lemma append_empty_r s : s +:+ "" = s.
Proof.
  induction s as [|c s IH]; [reflexivity|].
  rewrite append_cons, IH. reflexivity.
Qed.

Lemma append_assoc s1 s2 s3 : (s1 +:+ s2) +:+ s3 = s1 +:+ s2 +:+ s3.
Proof.
  induction s1 as [|c s1 IH]; [reflexivity|].
  rewrite !append_cons, IH. reflexivity.
Qed.

Lemma append_length s1 s2 :
  String.length (s1 +:+ s2) = (String.length s1 + String.length s2)%nat.
Proof.
  induction s1 as [|c s1 IH]; [reflexivity|].
  rewrite append_cons. simpl. rewrite IH. reflexivity.
Qed.

Lemma append_cancel_l s t1 t2 : s +:+ t1 = s +:+ t2 -> t1 = t2.
Proof.
  induction s as [|c s IH]; intros E; [exact E|].
  rewrite !append_cons in E. injection E as E. exact (IH E).
Qed.

Lemma append_cancel_r t s1 s2 : s1 +:+ t = s2 +:+ t -> s1 = s2.
Proof.
  revert s2. induction s1 as [|c s1 IH]; intros [|c2 s2] E.
  - reflexivity.
  - apply (f_equal String.length) in E.
    rewrite append_nil, append_cons in E. simpl in E.
    rewrite append_length in E. lia.
  - apply (f_equal String.length) in E.
    rewrite append_nil, append_cons in E. simpl in E.
    rewrite append_length in E. lia.
  - rewrite !append_cons in E. injection E as Ec E.
    subst c2. f_equal. exact (IH _ E).
Qed.

Lemma join_cons sep x post : Js.join sep (x :: post) = x +:+ trail sep post.
Proof.
  unfold Js.join. revert x.
  induction post as [|y post IH]; intros x.
  - simpl. symmetry. apply append_empty_r.
  - change (String.concat sep (x :: y :: post))
      with (x +:+ sep +:+ String.concat sep (y :: post)).
    rewrite IH. reflexivity.
Qed.

Lemma join_middle sep pre x post :
  Js.join sep (pre ++ x :: post) = lead sep pre +:+ x +:+ trail sep post.
Proof.
  induction pre as [|p pre IH].
  - apply join_cons.
  - change ((p :: pre) ++ x :: post)%list with (p :: (pre ++ x :: post))%list.
    rewrite join_cons.
    change (lead sep (p :: pre)) with (p +:+ sep +:+ lead sep pre).
    rewrite !append_assoc, <- IH.
    destruct (pre ++ x :: post)%list as [|z l] eqn:E.
    + destruct pre; discriminate E.
    + rewrite join_cons. reflexivity.
Qed.

(** Replacing one element of the array by a different one changes the
    joined string. *)
Lemma join_insert_ne sep (l : list string) (i : nat) (x y : string) :
  l !! i = Some x -> x <> y -> Js.join sep l <> Js.join sep (<[i := y]> l).
Proof.
  intros Hi Hxy E.
  assert (Hlt : (i < List.length l)%nat) by (eapply lookup_lt_Some; eauto).
  rewrite insert_take_drop in E by exact Hlt.
  rewrite <- (take_drop_middle l i x Hi) in E at 1.
  rewrite !join_middle in E.
  apply append_cancel_l, append_cancel_r in E. contradiction.
Qed.

Lemma pipes_append s1 s2 : pipes (s1 +:+ s2) = (pipes s1 + pipes s2)%nat.
Proof.
  induction s1 as [|c s1 IH]; [reflexivity|].
  rewrite append_cons. simpl. rewrite IH. lia.
Qed.

Lemma or_else_empty o : Js.or_else o "" = default "" o.
Proof.
  destruct o as [s|]; cbn; [|reflexivity].
  unfold Js.truthy. destruct (String.eqb_spec s ""); cbn; congruence.
Qed.

End StringFacts.

Section HashEngine.

Example reverseHashString_john :
  Utils.reverseHashString johnVerify "testSalt" =
  "testSalt|success|||||||||||||||||||custom1|john@test.com|John|TestProduct|100|txn123|testKey".
Proof. reflexivity. Qed.

Example hashString_john :
  Utils.hashString john "testSalt" =
  "testKey|txn123|100|TestProduct|John|john@test.com|custom1||||||||||testSalt".
Proof. reflexivity. Qed.

Example generatePayUHash_john :
  Utils.generatePayUHash john "testSalt" =
  "0067197b52b548fcfb8c7fda6508046f4deb7d767ab04cc363960b72b6072f24fbfa34e6745cad10b81910139e6df6eac707664ff77cf94bf25fd21b5c64f900".
Proof. vm_compute. reflexivity. Qed.

(** C1, as stated, fails: the digest of the message with five empty
    placeholders after the status, keyed with the empty string, is rejected
    by [verifyPayUHash] although it is the digest the claim says is
    computed. *)
Lemma verifyPayUHash_five_placeholders_rejected :
  Utils.verifyPayUHash johnVerify "testSalt"
    (createHmac_sha512_hex ""
       (Js.join "|" (reverseHashFields_five johnVerify "testSalt"))) = false.
Proof. vm_compute. reflexivity. Qed.

(** C1, amended: [verifyPayUHash] computes the HMAC-SHA512 digest, keyed
    with the empty string, of the pipe-joined message salt, status, NINE
    empty placeholders, udf10 .. udf1 (empty for an absent slot), email,
    first name, product description, amount, transaction id, merchant key;
    the digest is 128 lowercase hexadecimal digits (512 bits); and
    verification succeeds if and only if this digest is, as a string, the
    digest received. *)
Theorem verifyPayUHash_reverse_digest :
  forall (params : VerifyParams.t) (salt receivedHash : string),
    let message :=
      Js.join "|"
        [ salt; VerifyParams.status params;
          ""; ""; ""; ""; ""; ""; ""; ""; "";
          default "" (VerifyParams.udf10 params);
          default "" (VerifyParams.udf9 params);
          default "" (VerifyParams.udf8 params);
          default "" (VerifyParams.udf7 params);
          default "" (VerifyParams.udf6 params);
          default "" (VerifyParams.udf5 params);
          default "" (VerifyParams.udf4 params);
          default "" (VerifyParams.udf3 params);
          default "" (VerifyParams.udf2 params);
          default "" (VerifyParams.udf1 params);
          VerifyParams.email params; VerifyParams.firstname params;
          VerifyParams.productinfo params; VerifyParams.amount params;
          VerifyParams.txnid params; VerifyParams.key params ] in
    let computedHash := createHmac_sha512_hex "" message in
    (Utils.verifyPayUHash params salt receivedHash = true
     <-> computedHash = receivedHash)
    /\ String.length computedHash = 128%nat
    /\ forallb is_lower_hex (list_ascii_of_string computedHash) = true.
Proof.
  intros params salt receivedHash message computedHash.
  assert (Hm : Utils.reverseHashString params salt = message).
  { unfold Utils.reverseHashString, Utils.reverseHashFields, message.
    rewrite !or_else_empty. reflexivity. }
  split; [|apply createHmac_sha512_hex_shape].
  unfold Utils.verifyPayUHash. rewrite Hm. fold computedHash.
  apply String.eqb_eq.
Qed.

(** C6, as stated, fails: the digest that [generatePayUHash] produces is
    not accepted by [verifyPayUHash] over the same parameters and salt. *)
Lemma verify_of_generate_rejected :
  Utils.verifyPayUHash johnVerify "testSalt"
    (Utils.generatePayUHash (VerifyParams.hashParams johnVerify) "testSalt")
  = false.
Proof. vm_compute. reflexivity. Qed.

Lemma pipes_hashString params salt :
  pipes (Utils.hashString (VerifyParams.hashParams params) salt) =
  (16 + pipes salt
   + pipes (VerifyParams.key params) + pipes (VerifyParams.txnid params)
   + pipes (VerifyParams.amount params)
   + pipes (VerifyParams.productinfo params)
   + pipes (VerifyParams.firstname params)
   + pipes (VerifyParams.email params)
   + pipes (Js.or_else (VerifyParams.udf1 params) "")
   + pipes (Js.or_else (VerifyParams.udf2 params) "")
   + pipes (Js.or_else (VerifyParams.udf3 params) "")
   + pipes (Js.or_else (VerifyParams.udf4 params) "")
   + pipes (Js.or_else (VerifyParams.udf5 params) "")
   + pipes (Js.or_else (VerifyParams.udf6 params) "")
   + pipes (Js.or_else (VerifyParams.udf7 params) "")
   + pipes (Js.or_else (VerifyParams.udf8 params) "")
   + pipes (Js.or_else (VerifyParams.udf9 params) "")
   + pipes (Js.or_else (VerifyParams.udf10 params) ""))%nat.
Proof.
  unfold Utils.hashString, Utils.hashFields, Js.join. simpl.
  rewrite !pipes_append. simpl. lia.
Qed.

Lemma pipes_reverseHashString params salt :
  pipes (Utils.reverseHashString params salt) =
  (26 + pipes (VerifyParams.status params) + pipes salt
   + pipes (VerifyParams.key params) + pipes (VerifyParams.txnid params)
   + pipes (VerifyParams.amount params)
   + pipes (VerifyParams.productinfo params)
   + pipes (VerifyParams.firstname params)
   + pipes (VerifyParams.email params)
   + pipes (Js.or_else (VerifyParams.udf1 params) "")
   + pipes (Js.or_else (VerifyParams.udf2 params) "")
   + pipes (Js.or_else (VerifyParams.udf3 params) "")
   + pipes (Js.or_else (VerifyParams.udf4 params) "")
   + pipes (Js.or_else (VerifyParams.udf5 params) "")
   + pipes (Js.or_else (VerifyParams.udf6 params) "")
   + pipes (Js.or_else (VerifyParams.udf7 params) "")
   + pipes (Js.or_else (VerifyParams.udf8 params) "")
   + pipes (Js.or_else (VerifyParams.udf9 params) "")
   + pipes (Js.or_else (VerifyParams.udf10 params) ""))%nat.
Proof.
  unfold Utils.reverseHashString, Utils.reverseHashFields, Js.join. simpl.
  rewrite !pipes_append. simpl. lia.
Qed.

(** C6, amended: [verifyPayUHash] accepts the digest of its own reverse
    message over the same parameters and salt; the message that
    [generatePayUHash] signs is never that message (it has ten separators
    fewer, at least), so the outbound digest passes verification only if
    the two different messages have the same digest. *)
Theorem verifyPayUHash_round_trip_reverse :
  forall (params : VerifyParams.t) (salt : string),
    Utils.verifyPayUHash params salt
      (createHmac_sha512_hex "" (Utils.reverseHashString params salt)) = true
    /\ Utils.hashString (VerifyParams.hashParams params) salt
       <> Utils.reverseHashString params salt
    /\ (Utils.verifyPayUHash params salt
          (Utils.generatePayUHash (VerifyParams.hashParams params) salt) = true
        <-> createHmac_sha512_hex "" (Utils.reverseHashString params salt)
            = createHmac_sha512_hex ""
                (Utils.hashString (VerifyParams.hashParams params) salt)).
Proof.
  intros params salt. split; [|split].
  - unfold Utils.verifyPayUHash. apply String.eqb_refl.
  - intros E. apply (f_equal pipes) in E.
    rewrite pipes_hashString, pipes_reverseHashString in E. lia.
  - unfold Utils.verifyPayUHash, Utils.generatePayUHash. apply String.eqb_eq.
Qed.

(** C7, as stated, fails: a slot that is absent and a slot that holds the
    empty string are different inputs with the same digest. *)
Lemma generatePayUHash_absent_vs_empty :
  let absent := HashParams.mk "k" "t" "1" "p" "f" "e"
                  None None None None None None None None None None in
  let empty := HashParams.mk "k" "t" "1" "p" "f" "e"
                  (Some "") None None None None None None None None None in
  absent <> empty /\
  Utils.generatePayUHash absent "s" = Utils.generatePayUHash empty "s".
Proof. split; [discriminate|reflexivity]. Qed.

(** Two tuples that differ in two fields can also join to one message. *)
Example hashString_separator_shift :
  Utils.hashString
    (HashParams.mk "a|b" "c" "1" "p" "f" "e"
       None None None None None None None None None None) "s" =
  Utils.hashString
    (HashParams.mk "a" "b|c" "1" "p" "f" "e"
       None None None None None None None None None None) "s".
Proof. reflexivity. Qed.

Lemma field_eq_dec (f g : Field) : {f = g} + {f <> g}.
Proof. decide equality. Qed.

(** The array that is joined lists the effective values of the fields. *)
Lemma hashFields_effective params salt :
  Utils.hashFields params salt = (fun f => effective f params salt) <$> allFields.
Proof. unfold Utils.hashFields. rewrite !or_else_empty. reflexivity. Qed.

Lemma hashFields_one_change params params' salt salt' f :
  (forall g, g <> f -> effective g params salt = effective g params' salt') ->
  Utils.hashFields params' salt'
  = <[position f := effective f params' salt']> (Utils.hashFields params salt).
Proof.
  intros Hsame.
  assert (Hall : forall g, g = f \/ effective g params salt = effective g params' salt').
  { intros g. destruct (field_eq_dec g f) as [E|E]; [left; exact E|right; exact (Hsame g E)]. }
  rewrite !hashFields_effective. unfold allFields.
  pose proof (Hall FKey) as K1. pose proof (Hall FTxnid) as K2.
  pose proof (Hall FAmount) as K3. pose proof (Hall FProductinfo) as K4.
  pose proof (Hall FFirstname) as K5. pose proof (Hall FEmail) as K6.
  pose proof (Hall FUdf1) as U1. pose proof (Hall FUdf2) as U2.
  pose proof (Hall FUdf3) as U3. pose proof (Hall FUdf4) as U4.
  pose proof (Hall FUdf5) as U5. pose proof (Hall FUdf6) as U6.
  pose proof (Hall FUdf7) as U7. pose proof (Hall FUdf8) as U8.
  pose proof (Hall FUdf9) as U9. pose proof (Hall FUdf10) as U10.
  pose proof (Hall FSalt) as S1.
  clear Hall Hsame.
  destruct f;
    repeat match goal with
           | K : _ \/ _ |- _ => destruct K as [K|K]; [try discriminate K|]
           end;
    cbn [fmap list_fmap position]; cbn [insert list_insert];
    repeat match goal with
           | K : effective _ _ _ = effective _ _ _ |- _ => rewrite <- K; clear K
           end;
    reflexivity.
Qed.

(** C7, amended: two inputs of which exactly one field differs in its
    effective value (a metadata slot counting as the empty string when it
    is absent) are joined to different messages; two inputs whose fields
    all have the same effective values, as when a slot changes between
    absent and empty, are joined to the same message and have the same
    digest; the digest is the HMAC-SHA512 of the message. *)
Theorem hashString_single_field_change :
  forall (params params' : HashParams.t) (salt salt' : string),
    (forall f,
       effective f params salt <> effective f params' salt' ->
       (forall g, g <> f -> effective g params salt = effective g params' salt') ->
       Utils.hashString params salt <> Utils.hashString params' salt')
    /\ ((forall g, effective g params salt = effective g params' salt') ->
        Utils.hashString params salt = Utils.hashString params' salt'
        /\ Utils.generatePayUHash params salt = Utils.generatePayUHash params' salt')
    /\ Utils.generatePayUHash params salt
       = createHmac_sha512_hex "" (Utils.hashString params salt).
Proof.
  intros params params' salt salt'. split; [|split].
  - intros f Hne Hsame. unfold Utils.hashString.
    rewrite (hashFields_one_change params params' salt salt' f Hsame).
    apply join_insert_ne with (x := effective f params salt); [|exact Hne].
    rewrite hashFields_effective. destruct f; reflexivity.
  - intros Hsame.
    assert (E : Utils.hashString params salt = Utils.hashString params' salt').
    { unfold Utils.hashString. rewrite !hashFields_effective. f_equal.
      unfold allFields. cbn [fmap list_fmap]. rewrite !Hsame. reflexivity. }
    split; [exact E|]. unfold Utils.generatePayUHash. rewrite E. reflexivity.
  - reflexivity.
Qed.

(** A change of the transaction id, and a change of slot 3 from absent to
    a value, change the message; a change of slot 3 from absent to empty
    does not. *)
Lemma hashString_single_field_change_witness :
  let slot3 v :=
    HashParams.mk "testKey" "txn123" "100" "TestProduct" "John" "john@test.com"
      (Some "custom1") None v None None None None None None None in
  Utils.hashString john "testSalt"
  <> Utils.hashString
       (HashParams.mk "testKey" "txn124" "100" "TestProduct" "John"
          "john@test.com" (Some "custom1") None None None None None None
          None None None) "testSalt"
  /\ Utils.hashString john "testSalt" <> Utils.hashString (slot3 (Some "x")) "testSalt"
  /\ Utils.hashString john "testSalt" = Utils.hashString (slot3 (Some "")) "testSalt".
Proof.
  intros slot3. split; [|split].
  - refine (proj1 (hashString_single_field_change john _ "testSalt" "testSalt")
              FTxnid _ _); [discriminate|].
    intros g Hg. destruct g; first [reflexivity|contradiction Hg; reflexivity].
  - refine (proj1 (hashString_single_field_change john _ "testSalt" "testSalt")
              FUdf3 _ _); [discriminate|].
    intros g Hg. destruct g; first [reflexivity|contradiction Hg; reflexivity].
  - refine (proj1 (proj1 (proj2 (hashString_single_field_change john (slot3 (Some ""))
                                   "testSalt" "testSalt")) _)).
    intros g. destruct g; reflexivity.
Defined.

End HashEngine.

(* ================================================================== *)
(** * Properties of the case conversion                                *)
(* ================================================================== *)

(** Turns the boolean tests among the hypotheses into arithmetic. *)
Ltac tests :=
  repeat match goal with
         | T : (_ && _)%bool = true |- _ => apply andb_true_iff in T as [? ?]
         | T : (_ && _)%bool = false |- _ => apply andb_false_iff in T
         | T : (_ || _)%bool = true |- _ => apply orb_true_iff in T
         | T : (_ || _)%bool = false |- _ => apply orb_false_iff in T as [? ?]
         | T : negb _ = true |- _ => apply negb_true_iff in T
         | T : negb _ = false |- _ => apply negb_false_iff in T
         | T : (_ <=? _)%Z = true |- _ => apply Z.leb_le in T
         | T : (_ <=? _)%Z = false |- _ => apply Z.leb_gt in T
         | T : (_ <? _)%Z = true |- _ => apply Z.ltb_lt in T
         | T : (_ <? _)%Z = false |- _ => apply Z.ltb_ge in T
         | T : (_ =? _)%Z = true |- _ => apply Z.eqb_eq in T
         | T : (_ =? _)%Z = false |- _ => apply Z.eqb_neq in T
         end.

Section CaseConversion.
Local Open Scope Z_scope.

Lemma byte_range b : 0 <= Utf8.byte b < 256.
Proof. unfold Utf8.byte. pose proof (N_ascii_bounded b). lia. Qed.

Lemma char_byte b : Utf8.char (Utf8.byte b) = b.
Proof. unfold Utf8.char, Utf8.byte. rewrite N2Z.id. apply ascii_N_embedding. Qed.

Lemma byte_char n : 0 <= n < 256 -> Utf8.byte (Utf8.char n) = n.
Proof.
  intros Hn. unfold Utf8.char, Utf8.byte. rewrite N_ascii_embedding by lia. lia.
Qed.

Lemma byte_inj b c : Utf8.byte b = Utf8.byte c -> b = c.
Proof. intros E. rewrite <- (char_byte b), <- (char_byte c), E. reflexivity. Qed.

Lemma encode_scalar_ascii v :
  v < 128 -> Utf8.encode_scalar v = String (Utf8.char v) "".
Proof.
  intros Hv. unfold Utf8.encode_scalar.
  destruct (Z.ltb_spec v 128); [reflexivity|lia].
Qed.

(** A scalar value outside ASCII is encoded with a first byte outside
    ASCII. *)
Lemma encode_scalar_high v :
  128 <= v < 4194304 ->
  exists b s, Utf8.encode_scalar v = String b s /\ 128 <= Utf8.byte b.
Proof.
  intros Hv. unfold Utf8.encode_scalar.
  destruct (Z.ltb_spec v 128); [lia|].
  destruct (Z.ltb_spec v 2048).
  { eexists _, _. split; [reflexivity|].
    assert (0 <= v / 64 < 32)
      by (split; [apply Z.div_pos; lia|apply Z.div_lt_upper_bound; lia]).
    rewrite byte_char; lia. }
  destruct (Z.ltb_spec v 65536).
  { eexists _, _. split; [reflexivity|].
    assert (0 <= v / 4096 < 16)
      by (split; [apply Z.div_pos; lia|apply Z.div_lt_upper_bound; lia]).
    rewrite byte_char; lia. }
  eexists _, _. split; [reflexivity|].
  assert (0 <= v / 262144 < 16)
    by (split; [apply Z.div_pos; lia|apply Z.div_lt_upper_bound; lia]).
  rewrite byte_char; lia.
Qed.

Lemma mapped_cons cp first last kind delta ranges :
  Unicode.mapped cp ((first, last, kind, delta) :: ranges) =
  if cp <? first then cp
  else if cp <=? last
       then if kind =? 0 then cp + delta
            else if Z.even (cp - first) then cp + 1 else cp
       else Unicode.mapped cp ranges.
Proof. reflexivity. Qed.

(** Within ASCII the table maps the capitals to the small letters and
    nothing else. *)
Lemma mapped_ascii cp :
  cp < 128 ->
  Unicode.mapped cp Unicode.lowercase =
  if (65 <=? cp) && (cp <=? 90) then cp + 32 else cp.
Proof.
  intros Hcp. unfold Unicode.lowercase. rewrite !mapped_cons.
  destruct (Z.ltb_spec cp 65), (Z.leb_spec cp 90), (Z.leb_spec 65 cp),
    (Z.ltb_spec cp 192); cbn [andb Z.eqb]; try reflexivity; lia.
Qed.

(** Outside ASCII the table maps into ASCII at the Kelvin sign only. *)
Lemma mapped_high_ranges ranges cp :
  forallb (fun r : Z * Z * Z * Z =>
             let '(first, last, kind, delta) := r in
             (last <? 128)
             || (128 <=? first)
                && (if kind =? 0
                    then (first =? 8490) && (last =? 8490)
                         || (128 <=? first + delta) && (last + delta <? 4194304)
                    else last + 1 <? 4194304)) ranges = true ->
  128 <= cp <= 1114111 -> cp <> 8490 ->
  128 <= Unicode.mapped cp ranges < 4194304.
Proof.
  intros Hok Hcp Hk. induction ranges as [|[[[first last] kind] delta] ranges IH].
  - simpl. lia.
  - cbn [forallb] in Hok. apply andb_true_iff in Hok as [Hr Hok].
    rewrite mapped_cons.
    destruct (Z.ltb_spec cp first); [lia|].
    destruct (Z.leb_spec cp last); [|exact (IH Hok)].
    destruct (Z.eqb_spec kind 0); tests.
    + destruct Hr as [Hr|Hr]; tests; [lia|].
      destruct H2 as [Hx|Hx]; tests; lia.
    + destruct Hr as [Hr|Hr]; tests; [lia|].
      destruct (Z.even (cp - first)); lia.
Qed.

Lemma mapped_high cp :
  128 <= cp <= 1114111 -> cp <> 8490 ->
  128 <= Unicode.mapped cp Unicode.lowercase < 4194304.
Proof. apply mapped_high_ranges. vm_compute. reflexivity. Qed.


Lemma after_kelvin_spec b1 b2 b3 rest :
  after_kelvin (String b1 (String b2 (String b3 rest))) =
  if (Utf8.byte b1 =? 226) && (Utf8.byte b2 =? 132) && (Utf8.byte b3 =? 170)
  then Some rest else None.
Proof.
  cbn [after_kelvin].
  assert (Hb : forall b n, 0 <= n < 256 ->
                 Ascii.eqb b (Utf8.char n) = (Utf8.byte b =? n)).
  { intros b n Hn. destruct (Ascii.eqb_spec b (Utf8.char n)) as [->|Hne].
    - rewrite byte_char by exact Hn. symmetry. apply Z.eqb_refl.
    - symmetry. apply Z.eqb_neq. intros E. apply Hne.
      rewrite <- E. symmetry. apply char_byte. }
  rewrite !Hb by lia. reflexivity.
Qed.

(** The first item of a decoded string, and whether the string starts
    with the Kelvin sign. *)
Lemma decode_cons b r :
  (Utf8.byte b < 128
   /\ Utf8.decode (String b r) = Utf8.Scalar (Utf8.byte b) :: Utf8.decode r
   /\ after_kelvin (String b r) = None)
  \/ (128 <= Utf8.byte b
      /\ Utf8.decode (String b r) = Utf8.Stray b :: Utf8.decode r
      /\ after_kelvin (String b r) = None)
  \/ (128 <= Utf8.byte b
      /\ exists cp r',
           Utf8.decode (String b r) = Utf8.Scalar cp :: Utf8.decode r'
           /\ 128 <= cp <= 1114111
           /\ after_kelvin (String b r) = if cp =? 8490 then Some r' else None).
Proof.
  pose proof (byte_range b) as Hb.
  cbn [Utf8.decode]. destruct (Z.ltb_spec (Utf8.byte b) 128) as [Hlow|Hhigh].
  { left. split; [exact Hlow|]. split; [reflexivity|].
    destruct r as [|b2 [|b3 r3]]; try reflexivity.
    rewrite after_kelvin_spec.
    destruct (Z.eqb_spec (Utf8.byte b) 226); [lia|reflexivity]. }
  right.
  destruct r as [|b2 r2]; [left; split; [exact Hhigh|split; reflexivity]|].
  pose proof (byte_range b2) as Hb2.
  destruct (Utf8.two b b2) as [cp|] eqn:E2.
  { right. split; [exact Hhigh|]. exists cp, r2. split; [reflexivity|].
    unfold Utf8.two, Utf8.continuation in E2.
    destruct (_ && _)%bool eqn:C in E2; [|discriminate E2].
    injection E2 as <-. tests. split; [lia|].
    destruct (Z.eqb_spec ((Utf8.byte b - 192) * 64 + (Utf8.byte b2 - 128)) 8490);
      [lia|].
    destruct r2 as [|b3 r3]; [reflexivity|].
    rewrite after_kelvin_spec.
    destruct (Z.eqb_spec (Utf8.byte b) 226); [lia|reflexivity]. }
  destruct r2 as [|b3 r3]; [left; split; [exact Hhigh|split; reflexivity]|].
  pose proof (byte_range b3) as Hb3.
  rewrite after_kelvin_spec.
  destruct (Utf8.three b b2 b3) as [cp|] eqn:E3.
  { right. split; [exact Hhigh|]. exists cp, r3. split; [reflexivity|].
    unfold Utf8.three, Utf8.continuation in E3. cbv zeta in E3.
    destruct (_ && _)%bool eqn:C in E3; [|discriminate E3].
    injection E3 as <-. tests. split; [lia|].
    match goal with
    | |- context [?e =? 8490] => destruct (Z.eqb_spec e 8490)
    end;
      destruct (Z.eqb_spec (Utf8.byte b) 226), (Z.eqb_spec (Utf8.byte b2) 132),
        (Z.eqb_spec (Utf8.byte b3) 170);
      cbn [andb]; first [reflexivity|lia]. }
  assert (Hnot : (Utf8.byte b =? 226) && (Utf8.byte b2 =? 132)
                 && (Utf8.byte b3 =? 170) = false).
  { destruct (Z.eqb_spec (Utf8.byte b) 226) as [K1|]; [|reflexivity].
    destruct (Z.eqb_spec (Utf8.byte b2) 132) as [K2|]; [|reflexivity].
    destruct (Z.eqb_spec (Utf8.byte b3) 170) as [K3|]; [|reflexivity].
    unfold Utf8.three, Utf8.continuation in E3. rewrite K1, K2, K3 in E3.
    discriminate E3. }
  rewrite Hnot.
  destruct r3 as [|b4 r4]; [left; split; [exact Hhigh|split; reflexivity]|].
  pose proof (byte_range b4) as Hb4.
  destruct (Utf8.four b b2 b3 b4) as [cp|] eqn:E4.
  { right. split; [exact Hhigh|]. exists cp, r4. split; [reflexivity|].
    unfold Utf8.four, Utf8.continuation in E4. cbv zeta in E4.
    destruct (_ && _)%bool eqn:C in E4; [|discriminate E4].
    injection E4 as <-. tests. split; [lia|].
    match goal with
    | |- context [?e =? 8490] => destruct (Z.eqb_spec e 8490)
    end; [lia|reflexivity]. }
  left. split; [exact Hhigh|split; reflexivity].
Qed.

(** A small letter is the lower case of itself and of its capital. *)
Lemma lower_ascii_spelling b c :
  Utf8.byte b < 128 -> Utf8.byte c < 128 ->
  (65 <=? Utf8.byte c) && (Utf8.byte c <=? 90) = false ->
  Utf8.char (if (65 <=? Utf8.byte b) && (Utf8.byte b <=? 90)
             then Utf8.byte b + 32 else Utf8.byte b) = c
  <-> Ascii.eqb b c || Ascii.eqb b (capital c) = true.
Proof.
  intros Hb Hc Hcap.
  pose proof (byte_range b) as Rb. pose proof (byte_range c) as Rc.
  assert (Hsmall : small c = true -> Utf8.byte (capital c) = Utf8.byte c - 32).
  { intros Hs. unfold capital. rewrite Hs. unfold small in Hs. tests.
    apply byte_char. lia. }
  assert (Hother : small c = false -> capital c = c).
  { intros Hs. unfold capital. rewrite Hs. reflexivity. }
  split.
  - intros E. apply orb_true_iff.
    destruct ((65 <=? Utf8.byte b) && (Utf8.byte b <=? 90)) eqn:Hup; tests.
    + right. apply Ascii.eqb_eq. apply byte_inj.
      assert (Ec : Utf8.byte c = Utf8.byte b + 32).
      { rewrite <- E. apply byte_char. lia. }
      rewrite Hsmall; [lia|]. unfold small. rewrite Ec.
      apply andb_true_iff. split; [apply Z.leb_le|apply Z.leb_le]; lia.
    + left. apply Ascii.eqb_eq. rewrite <- E. symmetry. apply char_byte.
  - intros E. apply orb_true_iff in E.
    destruct (small c) eqn:Hs.
    + destruct E as [E|E]; apply Ascii.eqb_eq in E; subst b.
      * rewrite Hcap. apply char_byte.
      * rewrite (Hsmall eq_refl). unfold small in Hs. tests.
        destruct (Z.leb_spec 65 (Utf8.byte c - 32)),
          (Z.leb_spec (Utf8.byte c - 32) 90); cbn [andb]; try lia.
        replace (Utf8.byte c - 32 + 32) with (Utf8.byte c) by lia.
        apply char_byte.
    + rewrite (Hother eq_refl) in E.
      assert (Eb : b = c) by (destruct E as [E|E]; apply Ascii.eqb_eq in E; exact E).
      subst b. rewrite Hcap. apply char_byte.
Qed.


Lemma encode_app l1 l2 :
  Utf8.encode (l1 ++ l2) = Utf8.encode l1 +:+ Utf8.encode l2.
Proof.
  induction l1 as [|i l1 IH]; [reflexivity|].
  cbn [app Utf8.encode]. rewrite IH. symmetry. apply append_assoc.
Qed.

Lemma encode_scalar_cons v : exists b s, Utf8.encode_scalar v = String b s.
Proof.
  unfold Utf8.encode_scalar.
  destruct (v <? 128); [|destruct (v <? 2048); [|destruct (v <? 65536)]];
    eexists _, _; reflexivity.
Qed.

(** What the conversion makes of the first item of a string. *)
Lemma lower_items_stray ac b l :
  Utf8.encode (Js.lower_items ac (Utf8.Stray b :: l))
  = String b (Utf8.encode (Js.lower_items false l)).
Proof. reflexivity. Qed.

Lemma lower_items_scalar ac cp l :
  exists ac',
    Utf8.encode (Js.lower_items ac (Utf8.Scalar cp :: l))
    = Utf8.encode (if cp =? 931
                   then [Utf8.Scalar (if ac && negb (Js.before_cased l)
                                      then 962 else 963)]
                   else Utf8.Scalar <$> Unicode.lower cp)
      +:+ Utf8.encode (Js.lower_items ac' l).
Proof. eexists. cbn [Js.lower_items]. apply encode_app. Qed.

Lemma lower_items_nonempty ac i l :
  Utf8.encode (Js.lower_items ac (i :: l)) <> "".
Proof.
  destruct i as [cp|b]; [|discriminate].
  destruct (lower_items_scalar ac cp l) as (ac' & ->).
  destruct (cp =? 931).
  { destruct (ac && negb (Js.before_cased l)); discriminate. }
  unfold Unicode.lower. destruct (cp =? 304); [discriminate|].
  cbn [fmap list_fmap Utf8.encode Utf8.encode_item].
  destruct (encode_scalar_cons (Unicode.mapped cp Unicode.lowercase))
    as (b0 & s0 & ->).
  discriminate.
Qed.

Lemma lower_items_ascii ac cp l :
  0 <= cp < 128 ->
  exists ac',
    Utf8.encode (Js.lower_items ac (Utf8.Scalar cp :: l))
    = String (Utf8.char (if (65 <=? cp) && (cp <=? 90) then cp + 32 else cp))
             (Utf8.encode (Js.lower_items ac' l)).
Proof.
  intros Hcp. destruct (lower_items_scalar ac cp l) as (ac' & ->). exists ac'.
  destruct (Z.eqb_spec cp 931); [lia|].
  unfold Unicode.lower. destruct (Z.eqb_spec cp 304); [lia|].
  rewrite mapped_ascii by lia.
  cbn [fmap list_fmap Utf8.encode Utf8.encode_item].
  rewrite encode_scalar_ascii; [reflexivity|].
  destruct ((65 <=? cp) && (cp <=? 90)) eqn:E; tests; lia.
Qed.

(** Outside ASCII only the Kelvin sign is converted to a string that
    starts within ASCII and goes on within ASCII or ends. *)
Lemma lower_items_high ac cp l :
  128 <= cp <= 1114111 -> cp <> 8490 ->
  exists ac' b s,
    Utf8.encode (Js.lower_items ac (Utf8.Scalar cp :: l))
    = String b s +:+ Utf8.encode (Js.lower_items ac' l)
    /\ (128 <= Utf8.byte b
        \/ exists b' s', s = String b' s' /\ 128 <= Utf8.byte b').
Proof.
  intros Hcp Hk. destruct (lower_items_scalar ac cp l) as (ac' & ->). exists ac'.
  destruct (Z.eqb_spec cp 931).
  { destruct (ac && negb (Js.before_cased l)); eexists _, _;
      (split; [reflexivity|]); left; vm_compute; discriminate. }
  unfold Unicode.lower. destruct (Z.eqb_spec cp 304).
  { eexists _, _. split; [reflexivity|]. right. eexists _, _.
    split; [reflexivity|]. vm_compute. discriminate. }
  cbn [fmap list_fmap Utf8.encode Utf8.encode_item].
  destruct (encode_scalar_high (Unicode.mapped cp Unicode.lowercase)
              (mapped_high cp Hcp Hk)) as (b & s & -> & Hb).
  exists b, (s +:+ ""). split; [reflexivity|]. left. exact Hb.
Qed.

Lemma lower_items_kelvin ac l :
  exists ac',
    Utf8.encode (Js.lower_items ac (Utf8.Scalar 8490 :: l))
    = String "k" (Utf8.encode (Js.lower_items ac' l)).
Proof. destruct (lower_items_scalar ac 8490 l) as (ac' & ->). exists ac'. reflexivity. Qed.

Lemma plain_cons c name :
  plain (String c name) = true ->
  Utf8.byte c < 128
  /\ (65 <=? Utf8.byte c) && (Utf8.byte c <=? 90) = false
  /\ plain name = true.
Proof.
  unfold plain. cbn [list_ascii_of_string forallb]. intros Hp.
  apply andb_true_iff in Hp as [Hc Hp]. apply andb_true_iff in Hc as [Hc Hcap].
  apply Z.ltb_lt in Hc. apply negb_true_iff in Hcap.
  split; [exact Hc|]. split; [exact Hcap|exact Hp].
Qed.

(** The strings that [toLowerCase] converts to a plain name are the
    spellings of the name. *)
Lemma lower_items_spelled name :
  plain name = true ->
  forall ac x,
    Utf8.encode (Js.lower_items ac (Utf8.decode x)) = name
    <-> spelled name x = true.
Proof.
  induction name as [|c name IH]; intros Hp ac x.
  - destruct x as [|b r]; [split; reflexivity|].
    cbn [spelled]. split; [|discriminate].
    intros E. exfalso.
    destruct (decode_cons b r)
      as [(_ & Hd & _)|[(_ & Hd & _)|(_ & cp & r' & Hd & _ & _)]];
      rewrite Hd in E; exact (lower_items_nonempty _ _ _ E).
  - apply plain_cons in Hp as (Hc & Hcap & Hp).
    destruct x as [|b r]; [split; discriminate|].
    pose proof (byte_range b) as Rb. pose proof (byte_range c) as Rc.
    assert (Hhigh : 128 <= Utf8.byte b ->
                    Ascii.eqb b c || Ascii.eqb b (capital c) = false).
    { intros Hb. apply orb_false_iff. split; apply Ascii.eqb_neq; intros ->.
      - lia.
      - unfold capital in Hb. destruct (small c) eqn:Hs; [|lia].
        unfold small in Hs. tests. rewrite byte_char in Hb; lia. }
    cbn [spelled].
    destruct (decode_cons b r)
      as [(Hb & Hd & Hk)|[(Hb & Hd & Hk)|(Hb & cp & r' & Hd & Hcp & Hk)]];
      rewrite Hd, Hk.
    + destruct (lower_items_ascii ac (Utf8.byte b) (Utf8.decode r)) as (ac' & ->);
        [lia|].
      rewrite andb_false_r, orb_false_r, andb_true_iff.
      rewrite <- (lower_ascii_spelling b c Hb Hc Hcap), <- (IH Hp ac' r).
      split; [intros [= E1 E2]; split; assumption|intros [-> ->]; reflexivity].
    + rewrite lower_items_stray, (Hhigh Hb). cbn [andb orb].
      rewrite andb_false_r. split; [|discriminate].
      intros [= -> _]. lia.
    + rewrite (Hhigh Hb). cbn [andb orb].
      destruct (Z.eqb_spec cp 8490) as [->|Hne].
      * destruct (lower_items_kelvin ac (Utf8.decode r')) as (ac' & ->).
        rewrite andb_true_iff, <- (IH Hp ac' r'), Ascii.eqb_eq.
        split; [intros [= <- E]; split; [reflexivity|exact E]
               |intros [-> ->]; reflexivity].
      * rewrite andb_false_r. split; [|discriminate].
        destruct (lower_items_high ac cp (Utf8.decode r') Hcp Hne)
          as (ac' & b0 & s0 & -> & [Hb0|(b' & s' & -> & Hb')]).
        -- intros [= -> _]. lia.
        -- intros [= _ E]. rewrite <- E in Hp.
           apply plain_cons in Hp as (Hp & _). lia.
Qed.

(** [toLowerCase] gives a plain name exactly on the spellings of the
    name. *)
Lemma toLowerCase_spelled name x :
  plain name = true -> Js.toLowerCase x = name <-> spelled name x = true.
Proof. intros Hp. apply (lower_items_spelled name Hp false x). Qed.


Lemma spelled_refl name : spelled name name = true.
Proof.
  induction name as [|c name IH]; [reflexivity|].
  cbn [spelled]. rewrite Ascii.eqb_refl, IH. reflexivity.
Qed.

(** A plain name is its own lower case. *)
Lemma toLowerCase_plain name : plain name = true -> Js.toLowerCase name = name.
Proof. intros Hp. apply (toLowerCase_spelled name name Hp), spelled_refl. Qed.

Lemma eqb_spelled name v :
  plain name = true -> String.eqb (Js.toLowerCase v) name = spelled name v.
Proof.
  intros Hp. destruct (spelled name v) eqn:E.
  - apply String.eqb_eq, toLowerCase_spelled; assumption.
  - apply String.eqb_neq. intros K.
    apply (toLowerCase_spelled name v Hp) in K. congruence.
Qed.

(** The classification that the endpoint computes with [toLowerCase] is
    the classification by spelling. *)
Lemma classify_classification n s : classify n s = classification n s.
Proof.
  unfold classify, classification, recognize, named.
  destruct n as [n|], s as [s|];
    cbn [notificationTable statusTable find fmap option_fmap option_map
         fst snd existsb];
    rewrite ?eqb_spelled by (vm_compute; reflexivity);
    repeat match goal with
           | |- context [spelled ?a ?b] =>
               destruct (spelled a b);
               cbn [fmap option_fmap option_map snd orb]
           end;
    reflexivity.
Qed.

End CaseConversion.

(* ================================================================== *)
(** * What leaves a handler                                            *)
(* ================================================================== *)

Section Discipline.
Context {W : Type} `{Clock W}.

Lemma disciplined_ret {A} (a : A) : disciplined (W := W) (ret a).
Proof. intros st. exists []. simpl. rewrite app_nil_r. split; [reflexivity|constructor]. Qed.

Lemma disciplined_perform {A} c (act : Action W A) : disciplined (perform c act).
Proof.
  intros st. unfold perform. destruct (act (world st)) as [[a|err] w]; simpl.
  - eexists. split; [reflexivity|]. repeat constructor.
  - eexists. split; [reflexivity|]. exists [], c. split; [reflexivity|constructor].
Qed.

Lemma disciplined_logging c (f : W -> W) : disciplined (logging c f).
Proof. intros st. eexists. split; [reflexivity|]. repeat constructor. Qed.

Lemma disciplined_now : disciplined now.
Proof.
  intros st. unfold now. destruct (newDate (world st)) as [d w]; simpl.
  exists []. rewrite app_nil_r. split; [reflexivity|constructor].
Qed.

Lemma disciplined_invoke {D} c (cb : option (D -> Action W unit)) data :
  disciplined (invoke c cb data).
Proof.
  destruct cb; simpl; [apply disciplined_perform|apply disciplined_ret].
Qed.

Lemma disciplined_bind {A B} (m : M W A) (k : A -> M W B) :
  disciplined m -> (forall a, disciplined (k a)) -> disciplined (bind m k).
Proof.
  intros Hm Hk st. unfold bind.
  destruct (Hm st) as (es1 & Hj1 & Hf1).
  destruct (m st) as [[a|err] st1]; simpl in *.
  - destruct (Hk a st1) as (es2 & Hj2 & Hf2).
    exists (es1 ++ es2)%list. rewrite Hj2, Hj1, app_assoc. split; [reflexivity|].
    destruct ((k a st1).1) as [b|err]; simpl in *.
    + apply Forall_app. split; assumption.
    + destruct Hf2 as (es0 & c & -> & Hq).
      exists (es1 ++ es0)%list, c. rewrite app_assoc. split; [reflexivity|].
      apply Forall_app. split; assumption.
  - exists es1. split; assumption.
Qed.

Lemma logged_quiet es : Forall quiet es -> logged es.
Proof.
  intros Hq pre e post err -> He.
  apply Forall_app in Hq as [_ Hq]. inversion Hq as [|? ? Hquiet]; subst.
  unfold quiet in Hquiet. congruence.
Qed.

Lemma logged_app es1 es2 : logged es1 -> logged es2 -> logged (es1 ++ es2).
Proof.
  intros H1 H2 pre e post err E He Hp.
  apply app_eq_inv in E as [(k & E1 & E2)|(k & E1 & E2)].
  - destruct k as [|e0 k]; simpl in E2.
    + exact (H2 [] e post err (eq_sym E2) He Hp).
    + injection E2 as E2 E3. subst e0 post.
      destruct (H1 pre e k err E1 He Hp) as (e' & post' & Hk & Hl).
      subst k. exists e', (post' ++ es2)%list. split; [reflexivity|assumption].
  - exact (H2 k e post err E2 He Hp).
Qed.

Lemma tame_quiet es : Forall quiet es -> Forall tame es.
Proof.
  intros Hq. eapply Forall_impl; [exact Hq|].
  intros e He inner. unfold quiet in He. congruence.
Qed.

Lemma tidy_ret {A} (a : A) : tidy (W := W) (ret a).
Proof.
  intros st. exists []. cbn. rewrite app_nil_r.
  split; [reflexivity|]. split; [apply logged_quiet|]; constructor.
Qed.

Lemma tidy_bind {A B} (h1 : M W A) (h2 : M W B) :
  tidy h1 -> tidy h2 -> tidy (bind h1 (fun _ => h2)).
Proof.
  intros T1 T2 st. unfold bind.
  destruct (T1 st) as (es1 & Hj1 & Hl1 & Hc1).
  destruct (h1 st) as [[a|err] st1]; cbn [fst snd] in *.
  - destruct (T2 st1) as (es2 & Hj2 & Hl2 & Hc2).
    exists (es1 ++ es2)%list. rewrite Hj2, Hj1, app_assoc.
    split; [reflexivity|]. split; [apply logged_app; assumption|].
    destruct ((h2 st1).1) as [b|inner]; cbn [contained] in *.
    + apply Forall_app. split; assumption.
    + destruct Hc2 as (es0 & c & -> & Ht).
      exists (es1 ++ es0)%list, c. rewrite app_assoc. split; [reflexivity|].
      apply Forall_app. split; assumption.
  - exists es1. split; [exact Hj1|]. split; assumption.
Qed.

(** The catch block of the handlers. *)
Lemma catch_caught (ctx : HookContext W) (prefix : string) (err : Thrown) st :
  (text <- eval (errText err) ;; logging_error ctx (prefix +:+ text))%hook st
  = caught ctx prefix err st.
Proof.
  destruct err; cbn; try reflexivity.
  unfold logging_error, logging. rewrite append_empty_r. reflexivity.
Qed.

(** The entries of a body that threw a value with a text, and of the log
    line of the catch block. *)
Lemma logged_caught es0 c err prefix text :
  Forall quiet es0 -> printed err = Some text ->
  let es := (es0 ++ [{| call := c; raised := Some err |}]
                 ++ [{| call := CError (prefix +:+ text); raised := None |}])%list in
  logged es /\ Forall tame es.
Proof.
  intros Hq Hp es. split.
  - apply logged_app; [apply logged_quiet, Hq|].
    intros pre e post err' E He _.
    destruct pre as [|e0 pre]; cbn [app] in E.
    + injection E as <- <-. cbn [raised] in He. injection He as <-.
      eexists _, []. split; [reflexivity|]. exists prefix, text.
      split; [exact Hp|reflexivity].
    + injection E as <- E. destruct pre as [|e1 pre]; cbn [app] in E.
      * injection E as <- <-. discriminate He.
      * injection E as _ E. destruct pre; discriminate E.
  - apply Forall_app. split; [apply tame_quiet, Hq|].
    cbn [app]. constructor.
    + intros inner E. cbn [raised] in E. injection E as ->. discriminate Hp.
    + constructor; [|constructor]. intros inner E. discriminate E.
Qed.

(** [try { m } catch (err) { logger.error(prefix + text(err)) }]. *)
Lemma tidy_try_catch (ctx : HookContext W) (m : M W unit) (prefix : string) :
  disciplined m ->
  tidy (try_catch m
          (fun err =>
             text <- eval (errText err) ;;
             logging_error ctx (prefix +:+ text))%hook).
Proof.
  intros Hm st. unfold try_catch.
  destruct (Hm st) as (es & Hj & Hf).
  destruct (m st) as [[[]|err] st1]; cbn [fst snd] in *.
  - exists es. split; [assumption|].
    split; [apply logged_quiet, Hf|apply tame_quiet, Hf].
  - destruct Hf as (es0 & c & -> & Hq).
    destruct (printed err) as [text|] eqn:Hp.
    + exists (es0 ++ [{| call := c; raised := Some err |}]
                  ++ [{| call := CError (prefix +:+ text); raised := None |}])%list.
      split.
      * destruct err; try discriminate Hp; injection Hp as <-;
          cbn [errText eval bind logging_error logging record journal snd world];
          rewrite Hj, <- !app_assoc; reflexivity.
      * destruct (logged_caught es0 c err prefix text Hq Hp) as [Hl Ht].
        split; [exact Hl|].
        destruct err; try discriminate Hp; exact Ht.
    + destruct err as [| | |inner]; try discriminate Hp.
      exists (es0 ++ [{| call := c; raised := Some (ThrownUnprintable inner) |}])%list.
      split; [exact Hj|]. split.
      * apply logged_app; [apply logged_quiet, Hq|].
        intros pre e post err' E He Hp'.
        destruct pre as [|e0 pre]; cbn [app] in E.
        -- injection E as <- <-. cbn [raised] in He. injection He as <-.
           contradiction Hp'.
        -- injection E as _ E. destruct pre; discriminate E.
      * exists es0, c. split; [reflexivity|apply tame_quiet, Hq].
Qed.

Lemma emits_ret {A} Q (a : A) : emits (W := W) Q (ret a).
Proof. intros st. exists []. simpl. rewrite app_nil_r. split; [reflexivity|constructor]. Qed.

Lemma emits_perform {A} (Q : Entry -> Prop) c (act : Action W A) :
  (forall r, Q {| call := c; raised := r |}) -> emits Q (perform c act).
Proof.
  intros HQ st. unfold perform. destruct (act (world st)) as [r w]; simpl.
  eexists. split; [reflexivity|]. repeat constructor. apply HQ.
Qed.

Lemma emits_logging (Q : Entry -> Prop) c (f : W -> W) :
  Q {| call := c; raised := None |} -> emits Q (logging c f).
Proof. intros HQ st. eexists. split; [reflexivity|]. repeat constructor. exact HQ. Qed.

Lemma emits_now Q : emits Q now.
Proof.
  intros st. unfold now. destruct (newDate (world st)) as [d w]; simpl.
  exists []. rewrite app_nil_r. split; [reflexivity|constructor].
Qed.

Lemma emits_eval {A} Q (r : Result A) : emits (W := W) Q (eval r).
Proof. intros st. exists []. simpl. rewrite app_nil_r. split; [reflexivity|constructor]. Qed.

Lemma emits_invoke {D} (Q : Entry -> Prop) c (cb : option (D -> Action W unit)) data :
  (forall r, Q {| call := c; raised := r |}) -> emits Q (invoke c cb data).
Proof.
  intros HQ. destruct cb; simpl; [apply emits_perform, HQ|apply emits_ret].
Qed.

Lemma emits_bind {A B} Q (m : M W A) (k : A -> M W B) :
  emits Q m -> (forall a, emits Q (k a)) -> emits Q (bind m k).
Proof.
  intros Hm Hk st. unfold bind.
  destruct (Hm st) as (es1 & Hj1 & Hq1).
  destruct (m st) as [[a|err] st1]; simpl in *.
  - destruct (Hk a st1) as (es2 & Hj2 & Hq2).
    exists (es1 ++ es2)%list. rewrite Hj2, Hj1, app_assoc. split; [reflexivity|].
    apply Forall_app. split; assumption.
  - exists es1. split; assumption.
Qed.

Lemma emits_try_catch {A} Q (m : M W A) (h : Thrown -> M W A) :
  emits Q m -> (forall err, emits Q (h err)) -> emits Q (try_catch m h).
Proof.
  intros Hm Hh st. unfold try_catch.
  destruct (Hm st) as (es1 & Hj1 & Hq1).
  destruct (m st) as [[a|err] st1]; simpl in *.
  - exists es1. split; assumption.
  - destruct (Hh err st1) as (es2 & Hj2 & Hq2).
    exists (es1 ++ es2)%list. rewrite Hj2, Hj1, app_assoc. split; [reflexivity|].
    apply Forall_app. split; assumption.
Qed.

Lemma disciplined_findSubscription (a : Adapter.t W) event :
  disciplined (findSubscription a event).
Proof.
  unfold findSubscription, findSubscriptionByTxnId, findSubscriptionByUdf,
    perform_findOne.
  apply disciplined_bind; [apply disciplined_perform|].
  intros [s|]; [apply disciplined_ret|].
  destruct (Js.truthy_opt _); [apply disciplined_perform|apply disciplined_ret].
Qed.

Lemma disciplined_resolvePlan (so : SubscriptionOptions.t W) sub :
  disciplined (resolvePlan so sub).
Proof.
  unfold resolvePlan. destruct (SubscriptionOptions.plans so) as [[l|f]|].
  - apply disciplined_ret.
  - apply disciplined_bind; [apply disciplined_perform|].
    intros l. apply disciplined_ret.
  - apply disciplined_ret.
Qed.

End Discipline.

Ltac discipline :=
  repeat first
    [ apply disciplined_ret
    | apply disciplined_findSubscription
    | apply disciplined_resolvePlan
    | apply disciplined_perform
    | apply disciplined_logging
    | apply disciplined_now
    | apply disciplined_invoke
    | apply disciplined_bind; [|intros ?]
    | match goal with
      | |- disciplined (match ?x with _ => _ end) => destruct x
      end ].

(** Unfolds a handler down to its [try]/[catch], discharging the early
    returns. *)
Ltac enter_handler :=
  match goal with
  | |- context [subscription ?o] =>
      destruct (subscription o) as [?so|]; [|apply tidy_ret];
      destruct (SubscriptionOptions.enabled so); simpl; [|apply tidy_ret];
      try match goal with
          | |- context [Js.truthy ?t] =>
              destruct (Js.truthy t); simpl; [|apply tidy_ret]
          end
  end.

Section HandlersTidy.
Context {W : Type} `{Clock W}.
Variables (ctx : HookContext W) (options : PayUOptions W) (event : Event.t).

Lemma tidy_onPaymentSuccess : tidy (onPaymentSuccess ctx options event).
Proof.
  unfold onPaymentSuccess. enter_handler.
  apply tidy_try_catch. unfold perform_update, logging_warn. discipline.
Qed.

Lemma tidy_onPaymentFailure : tidy (onPaymentFailure ctx options event).
Proof.
  unfold onPaymentFailure. enter_handler.
  apply tidy_try_catch. unfold perform_update, logging_warn. discipline.
Qed.

Lemma tidy_onSubscriptionActivated : tidy (onSubscriptionActivated ctx options event).
Proof.
  unfold onSubscriptionActivated. enter_handler.
  apply tidy_try_catch. unfold perform_update, logging_warn. discipline.
Qed.

Lemma tidy_onSubscriptionCharged : tidy (onSubscriptionCharged ctx options event).
Proof.
  unfold onSubscriptionCharged. enter_handler.
  apply tidy_try_catch. unfold perform_update, logging_warn. discipline.
Qed.

Lemma tidy_onSubscriptionPending : tidy (onSubscriptionPending ctx options event).
Proof.
  unfold onSubscriptionPending. enter_handler.
  apply tidy_try_catch. unfold perform_update, logging_warn. discipline.
Qed.

Lemma tidy_onSubscriptionHalted : tidy (onSubscriptionHalted ctx options event).
Proof.
  unfold onSubscriptionHalted. enter_handler.
  apply tidy_try_catch. unfold perform_update, logging_warn. discipline.
Qed.

Lemma tidy_onSubscriptionCompleted : tidy (onSubscriptionCompleted ctx options event).
Proof.
  unfold onSubscriptionCompleted. enter_handler.
  apply tidy_try_catch. unfold perform_update, logging_warn. discipline.
Qed.

Lemma tidy_onSubscriptionCancelled : tidy (onSubscriptionCancelled ctx options event).
Proof.
  unfold onSubscriptionCancelled. enter_handler.
  apply tidy_try_catch. unfold perform_update, logging_warn. discipline.
Qed.

Lemma tidy_onSubscriptionPaused : tidy (onSubscriptionPaused ctx options event).
Proof.
  unfold onSubscriptionPaused. enter_handler.
  apply tidy_try_catch. unfold perform_update, logging_warn. discipline.
Qed.

Lemma tidy_onSubscriptionResumed : tidy (onSubscriptionResumed ctx options event).
Proof.
  unfold onSubscriptionResumed. enter_handler.
  apply tidy_try_catch. unfold perform_update, logging_warn. discipline.
Qed.

Lemma tidy_onMandateRevoked : tidy (onMandateRevoked ctx options event).
Proof.
  unfold onMandateRevoked. enter_handler.
  apply tidy_try_catch. unfold perform_update, logging_warn. discipline.
Qed.

Lemma tidy_onMandateModified : tidy (onMandateModified ctx options event).
Proof.
  unfold onMandateModified. enter_handler.
  apply tidy_try_catch. unfold perform_update, logging_warn. discipline.
Qed.

End HandlersTidy.

(* ================================================================== *)
(** * Dispatch of a verified event                                     *)
(* ================================================================== *)

Section Dispatch.
Context {W : Type} `{Clock W}.

Lemma truthy_nonempty s : s <> "" -> Js.truthy s = true.
Proof.
  intros Hs. unfold Js.truthy. destruct (String.eqb_spec s ""); [contradiction|reflexivity].
Qed.

(** On a verified body the endpoint runs the handlers of the event's
    classification and then answers. *)
Lemma webhook_runs_dispatch ctx options body hash :
  verified options body hash ->
  webhook ctx options (Some body) =
  (dispatch ctx options (webhookEvent body hash)
     (classify (body !! "notificationType") (body !! "status")) ;;
   ret {| success := true |}).
Proof.
  intros (Hh & Hne & Hv). unfold webhook. rewrite Hh, (truthy_nonempty _ Hne), Hv.
  simpl negb. cbv iota.
  f_equal. unfold dispatch.
  generalize (webhookEvent body hash) as event. intros event.
  generalize (onMandateRevoked ctx options event),
    (onMandateModified ctx options event),
    (onPaymentSuccess ctx options event ;; onSubscriptionActivated ctx options event),
    (onPaymentFailure ctx options event),
    (onSubscriptionPending ctx options event),
    (onSubscriptionCancelled ctx options event),
    (onSubscriptionHalted ctx options event),
    (onSubscriptionCompleted ctx options event),
    (onSubscriptionPaused ctx options event),
    (onSubscriptionResumed ctx options event).
  intros h1 h2 h3 h4 h5 h6 h7 h8 h9 h10.
  unfold classify, recognize, is_string.
  destruct (body !! "notificationType") as [n|];
    destruct (body !! "status") as [s|]; cbn [fmap option_fmap option_map find fst snd notificationTable statusTable orb];
    repeat match goal with
           | |- context [String.eqb ?x ?y] =>
               destruct (String.eqb x y);
               cbn [fmap option_fmap option_map find fst snd orb]
           end; reflexivity.
Qed.

Lemma tidy_dispatch ctx options event c : tidy (dispatch ctx options event c).
Proof.
  destruct c; unfold dispatch.
  - apply tidy_onMandateRevoked.
  - apply tidy_onMandateModified.
  - apply tidy_bind; [apply tidy_onPaymentSuccess|apply tidy_onSubscriptionActivated].
  - apply tidy_onPaymentFailure.
  - apply tidy_onSubscriptionPending.
  - apply tidy_onSubscriptionCancelled.
  - apply tidy_onSubscriptionHalted.
  - apply tidy_onSubscriptionCompleted.
  - apply tidy_onSubscriptionPaused.
  - apply tidy_onSubscriptionResumed.
  - apply tidy_ret.
Qed.

(** On a verified body the entries of the endpoint are logged; it answers
    success, unless the last call of a handler raised a value without a
    text: then the exception of the conversion leaves the endpoint. *)
Lemma webhook_contained ctx options body hash st :
  verified options body hash ->
  exists es,
    journal (webhook ctx options (Some body) st).2 = (journal st ++ es)%list
    /\ logged es
    /\ match (webhook ctx options (Some body) st).1 with
       | Ok r => r = {| success := true |} /\ Forall tame es
       | Throw inner =>
           exists es0 c,
             es = (es0 ++ [{| call := c;
                              raised := Some (ThrownUnprintable inner) |}])%list
             /\ Forall tame es0
       end.
Proof.
  intros Hv. rewrite (webhook_runs_dispatch _ _ _ _ Hv). unfold bind.
  destruct (tidy_dispatch ctx options (webhookEvent body hash)
              (classify (body !! "notificationType") (body !! "status")) st)
    as (es & Hj & Hl & Hc).
  destruct (dispatch _ _ _ _ st) as [[[]|inner] st']; cbn [fst snd ret] in *;
    exists es; (split; [exact Hj|]); (split; [exact Hl|]).
  - split; [reflexivity|exact Hc].
  - exact Hc.
Qed.

End Dispatch.

(* ================================================================== *)
(** * Locating the subscription                                        *)
(* ================================================================== *)

Section Lookup.
Context {W : Type}.

Lemma paramsToUdf_fold (params : string -> option string) (l : list nat)
      (m : gmap string string) (key : string) :
  fold_left
    (fun (udf : gmap string string) (i : nat) =>
       let key := "udf" +:+ pretty i in
       if Js.truthy_opt (params key)
       then match params key with
            | Some v => <[key := v]> udf
            | None => udf
            end
       else udf) l m !! key =
  if bool_decide (key ∈ udfKey <$> l) && Js.truthy_opt (params key)
  then params key else m !! key.
Proof.
  revert m. induction l as [|i l IH]; intros m; [reflexivity|].
  cbn [fold_left]. rewrite IH. clear IH.
  rewrite fmap_cons.
  destruct (decide (key = udfKey i)) as [->|Hne].
  - rewrite (bool_decide_eq_true_2 (udfKey i ∈ udfKey i :: (udfKey <$> l)))
      by apply list_elem_of_here.
    fold (udfKey i). cbn [andb].
    destruct (bool_decide (udfKey i ∈ udfKey <$> l)); cbn [andb];
      destruct (Js.truthy_opt (params (udfKey i))) eqn:Ht; try reflexivity.
    destruct (params (udfKey i)) as [v|]; [|discriminate Ht].
    apply lookup_insert_eq.
  - assert (Hiff : bool_decide (key ∈ udfKey i :: (udfKey <$> l))
                   = bool_decide (key ∈ udfKey <$> l)).
    { apply bool_decide_ext. rewrite elem_of_cons. tauto. }
    rewrite Hiff. fold (udfKey i).
    destruct (bool_decide (key ∈ udfKey <$> l) && Js.truthy_opt (params key));
      [reflexivity|].
    destruct (Js.truthy_opt (params (udfKey i))); [|reflexivity].
    destruct (params (udfKey i)) as [v|]; [|reflexivity].
    apply lookup_insert_ne. congruence.
Qed.

(** The subscription id that [findSubscriptionByUdf] reads is slot 4 of the
    event, when that slot is not empty. *)
Lemma subscriptionId_of_event (event : Event.t) :
  Metadata.subscriptionId
    (Metadata.subscriptionUdf_get (Some (Metadata.paramsToUdf (Event_prop event))))
  = if Js.truthy_opt (Event.udf4 event) then Event.udf4 event else None.
Proof.
  unfold Metadata.subscriptionUdf_get, Metadata.paramsToUdf.
  cbn [Metadata.subscriptionId].
  rewrite paramsToUdf_fold.
  change (Event_prop event "udf4") with (Event.udf4 event).
  rewrite bool_decide_eq_true_2; [reflexivity|].
  vm_compute. repeat first [apply list_elem_of_here | apply list_elem_of_further].
Qed.

Lemma findSubscriptionByUdf_slot4 (a : Adapter.t W) (event : Event.t) :
  findSubscriptionByUdf a event =
  match Event.udf4 event with
  | Some id =>
      if String.eqb id "" then ret None
      else perform (CFindOne (bySubscriptionId id))
                   (Adapter.findOne a (bySubscriptionId id))
  | None => ret None
  end.
Proof.
  unfold findSubscriptionByUdf. rewrite subscriptionId_of_event.
  destruct (Event.udf4 event) as [id|]; [|reflexivity].
  unfold perform_findOne, bySubscriptionId, Js.or_else, Js.truthy_opt, Js.truthy.
  destruct (String.eqb id "") eqn:E; cbn [negb]; rewrite ?E; reflexivity.
Qed.

End Lookup.

(* ================================================================== *)
(** * The handlers, call by call                                       *)
(* ================================================================== *)

Section CallByCall.
Context {W : Type} `{Clock W}.

Lemma bind_returns {A B} (m : M W A) (k : A -> M W B) st a st1 :
  m st = (Ok a, st1) -> bind m k st = k a st1.
Proof. intros E. unfold bind. rewrite E. reflexivity. Qed.

Lemma newRemainingCount_after sub : newRemainingCount sub = remainingAfter sub.
Proof.
  unfold newRemainingCount, remainingAfter.
  destruct (Subscription.totalCount sub); reflexivity.
Qed.

(** The lookup, on the adapter. *)
Lemma findSubscription_sought (a : Adapter.t W) event st :
  findSubscription a event st = sought a event st.
Proof.
  unfold findSubscription, findSubscriptionByTxnId.
  rewrite findSubscriptionByUdf_slot4.
  unfold sought, called, bind, perform_findOne, perform, ret.
  fold (byTransactionId (Event.txnid event)).
  destruct (Adapter.findOne a (byTransactionId (Event.txnid event)) (world st))
    as [[[s|]|err] w]; cbn [fst snd raised_by]; try reflexivity.
  destruct (Event.udf4 event) as [id|]; [|reflexivity].
  destruct (String.eqb id ""); [reflexivity|].
  unfold record. cbn [world].
  destruct (Adapter.findOne a (bySubscriptionId id) w) as [r w']. reflexivity.
Qed.

(** The plan lookup, on the plan function. *)
Lemma resolvePlan_planned (so : SubscriptionOptions.t W) sub st :
  resolvePlan so sub st = planned so sub st.
Proof.
  unfold resolvePlan, planned, called, bind, perform, ret.
  destruct (SubscriptionOptions.plans so) as [[l|f]|]; try reflexivity.
  destruct (f (world st)) as [[l|err] w]; reflexivity.
Qed.

Lemma try_catch_now {A} (k : Date -> M W A) (h : Thrown -> M W A) st :
  try_catch (d <- now ;; k d) h st
  = try_catch (k (reading (world st))) h (moved (tick (world st)) st).
Proof.
  unfold try_catch, bind, now, reading, tick, moved.
  destruct (newDate (world st)) as [d w]. reflexivity.
Qed.

(** The update, the plan lookup and the callback, inside the [try]. *)
Lemma updated_tail (ctx : HookContext W) so sub event u hk prefix
      (h : Thrown -> M W unit) st :
  (forall err st', h err st' = caught ctx prefix err st') ->
  try_catch
    (perform_update (adapter ctx) u ;;
     plan <- resolvePlan so sub ;;
     invoke (CCallback hk (callbackData sub plan event)) (callback_of so hk)
            (callbackData sub plan event)) h st
  = updated ctx so sub event u hk prefix st.
Proof.
  intros Hh. unfold try_catch, bind at 1, perform_update, perform, updated, called.
  destruct (Adapter.update (adapter ctx) u (world st)) as [[[]|err] w];
    cbn [fst snd raised_by]; [|apply Hh].
  unfold bind. rewrite resolvePlan_planned. unfold notified.
  destruct (planned so sub _) as [[plan|err] st2]; cbn [fst snd]; [|apply Hh].
  unfold invoke. destruct (callback_of so hk) as [f|]; [|reflexivity].
  unfold perform, called.
  destruct (f _ (world st2)) as [[[]|err] w2]; cbn [fst snd raised_by];
    [reflexivity|apply Hh].
Qed.

(** A handler from its lookup on. *)
Lemma handled_body (ctx : HookContext W) so event build hk prefix missing
      (k : Subscription.t -> M W unit) (none : M W unit)
      (h : Thrown -> M W unit) st :
  (forall err st', h err st' = caught ctx prefix err st') ->
  (forall sub st',
     try_catch (k sub) h st'
     = updated ctx so sub event (build sub (world st')).1 hk prefix
         (moved (build sub (world st')).2 st')) ->
  (forall st',
     none st'
     = match missing with
       | Some head =>
           let msg := head +:+ Event.txnid event +:+ " but subscription not found" in
           (Ok tt,
            record (CWarn msg) None (Logger.warn (logger ctx) msg (world st')) st')
       | None => (Ok tt, st')
       end) ->
  try_catch
    (sub <- findSubscription (adapter ctx) event ;;
     match sub with
     | Some sub => k sub
     | None => none
     end) h st
  = handled ctx so event build hk prefix missing st.
Proof.
  intros Hh Hk Hnone. unfold handled. rewrite <- findSubscription_sought.
  unfold try_catch at 1, bind at 1.
  destruct (findSubscription (adapter ctx) event st) as [[[sub|]|err] st1];
    cbn [fst snd].
  - rewrite <- Hk. reflexivity.
  - rewrite Hnone. destruct missing; reflexivity.
  - apply Hh.
Qed.

End CallByCall.

(** Brings the [try] of a handler to [handled]. *)
Ltac settle build hk missing :=
  cbn [negb];
  eapply (handled_body _ _ _ build hk _ missing);
  [ intros err st'; apply catch_caught
  | intros sub st'; rewrite ?newRemainingCount_after, !try_catch_now;
    cbn [fst snd];
    apply (updated_tail _ _ _ _ _ hk); intros err st''; apply catch_caught
  | intros st'; reflexivity ].

Section Handlers.
Context {W : Type} `{Clock W}.
Variables (ctx : HookContext W) (options : PayUOptions W)
          (so : SubscriptionOptions.t W) (event : Event.t).
Hypothesis has_options : subscription options = Some so.
Hypothesis is_enabled : SubscriptionOptions.enabled so = true.

Lemma onPaymentSuccess_handled st :
  Event.txnid event <> "" ->
  onPaymentSuccess ctx options event st
  = handled ctx so event
      (fun sub w => (paymentSuccessUpdate sub event (reading w), tick w))
      OnPaymentSuccess "PayU onPaymentSuccess error: "
      (Some "PayU: payment success for txnid ") st.
Proof.
  intros Htx. unfold onPaymentSuccess.
  rewrite has_options, is_enabled, (truthy_nonempty _ Htx).
  settle (fun sub w => (paymentSuccessUpdate sub event (reading w), tick w))
         OnPaymentSuccess (Some "PayU: payment success for txnid ").
Qed.

Lemma onSubscriptionActivated_handled st :
  Event.txnid event <> "" ->
  onSubscriptionActivated ctx options event st
  = handled ctx so event
      (fun sub w => (activatedUpdate sub event w, tick (tick w)))
      OnSubscriptionActivated "PayU onSubscriptionActivated error: "
      (Some "PayU: subscription activated for txnid ") st.
Proof.
  intros Htx. unfold onSubscriptionActivated.
  rewrite has_options, is_enabled, (truthy_nonempty _ Htx).
  settle (fun sub w => (activatedUpdate sub event w, tick (tick w)))
         OnSubscriptionActivated (Some "PayU: subscription activated for txnid ").
Qed.

Lemma onSubscriptionCharged_handled st :
  Event.txnid event <> "" ->
  onSubscriptionCharged ctx options event st
  = handled ctx so event
      (fun sub w => (chargedUpdate sub event (reading w), tick w))
      OnSubscriptionCharged "PayU onSubscriptionCharged error: "
      (Some "PayU: subscription charged for txnid ") st.
Proof.
  intros Htx. unfold onSubscriptionCharged.
  rewrite has_options, is_enabled, (truthy_nonempty _ Htx).
  settle (fun sub w => (chargedUpdate sub event (reading w), tick w))
         OnSubscriptionCharged (Some "PayU: subscription charged for txnid ").
Qed.

Lemma onSubscriptionPending_handled st :
  onSubscriptionPending ctx options event st
  = handled ctx so event
      (fun sub w => (statusUpdate "pending" sub (reading w), tick w))
      OnSubscriptionPending "PayU onSubscriptionPending error: " None st.
Proof.
  unfold onSubscriptionPending. rewrite has_options, is_enabled.
  settle (fun sub w => (statusUpdate "pending" sub (reading w), tick w))
         OnSubscriptionPending (@None string).
Qed.

Lemma onSubscriptionHalted_handled st :
  onSubscriptionHalted ctx options event st
  = handled ctx so event
      (fun sub w => (statusUpdate "halted" sub (reading w), tick w))
      OnSubscriptionHalted "PayU onSubscriptionHalted error: " None st.
Proof.
  unfold onSubscriptionHalted. rewrite has_options, is_enabled.
  settle (fun sub w => (statusUpdate "halted" sub (reading w), tick w))
         OnSubscriptionHalted (@None string).
Qed.

Lemma onSubscriptionCompleted_handled st :
  onSubscriptionCompleted ctx options event st
  = handled ctx so event
      (fun sub w => (completedUpdate sub w, tick (tick w)))
      OnSubscriptionCompleted "PayU onSubscriptionCompleted error: " None st.
Proof.
  unfold onSubscriptionCompleted. rewrite has_options, is_enabled.
  settle (fun sub w => (completedUpdate sub w, tick (tick w)))
         OnSubscriptionCompleted (@None string).
Qed.

Lemma onSubscriptionCancelled_handled st :
  onSubscriptionCancelled ctx options event st
  = handled ctx so event
      (fun sub w => (cancelledUpdate sub w, tick (tick (tick w))))
      OnSubscriptionCancelled "PayU onSubscriptionCancelled error: "
      (Some "PayU: subscription cancelled for txnid ") st.
Proof.
  unfold onSubscriptionCancelled. rewrite has_options, is_enabled.
  settle (fun sub w => (cancelledUpdate sub w, tick (tick (tick w))))
         OnSubscriptionCancelled (Some "PayU: subscription cancelled for txnid ").
Qed.

Lemma onSubscriptionPaused_handled st :
  onSubscriptionPaused ctx options event st
  = handled ctx so event
      (fun sub w => (pausedUpdate sub w, tick (tick w)))
      OnSubscriptionPaused "PayU onSubscriptionPaused error: " None st.
Proof.
  unfold onSubscriptionPaused. rewrite has_options, is_enabled.
  settle (fun sub w => (pausedUpdate sub w, tick (tick w)))
         OnSubscriptionPaused (@None string).
Qed.

Lemma onSubscriptionResumed_handled st :
  onSubscriptionResumed ctx options event st
  = handled ctx so event
      (fun sub w => (resumedUpdate sub w, tick w))
      OnSubscriptionResumed "PayU onSubscriptionResumed error: " None st.
Proof.
  unfold onSubscriptionResumed. rewrite has_options, is_enabled.
  settle (fun sub w => (resumedUpdate sub w, tick w))
         OnSubscriptionResumed (@None string).
Qed.

Lemma onMandateRevoked_handled st :
  onMandateRevoked ctx options event st
  = handled ctx so event
      (fun sub w => (cancelledUpdate sub w, tick (tick (tick w))))
      OnMandateRevoked "PayU onMandateRevoked error: " None st.
Proof.
  unfold onMandateRevoked. rewrite has_options, is_enabled.
  settle (fun sub w => (cancelledUpdate sub w, tick (tick (tick w))))
         OnMandateRevoked (@None string).
Qed.

Lemma onMandateModified_handled st :
  onMandateModified ctx options event st
  = handled ctx so event
      (fun sub w => (modifiedUpdate sub (reading w), tick w))
      OnMandateModified "PayU onMandateModified error: " None st.
Proof.
  unfold onMandateModified. rewrite has_options, is_enabled.
  settle (fun sub w => (modifiedUpdate sub (reading w), tick w))
         OnMandateModified (@None string).
Qed.

Lemma failure_notified_invoke st :
  try_catch
    (invoke (CPaymentFailure (paymentFailureData event))
            (SubscriptionOptions.onPaymentFailure so) (paymentFailureData event))
    (fun err =>
       text <- eval (errText err) ;;
       logging_error ctx ("PayU onPaymentFailure error: " +:+ text)) st
  = failure_notified ctx so event st.
Proof.
  unfold failure_notified, try_catch, invoke, called.
  destruct (SubscriptionOptions.onPaymentFailure so) as [f|]; [|reflexivity].
  unfold perform.
  destruct (f (paymentFailureData event) (world st)) as [[[]|err] w];
    cbn [fst snd raised_by]; [reflexivity|apply catch_caught].
Qed.

Lemma paymentFailureData_eq :
  {| failure_event := event;
     failure_error :=
       if Js.truthy (Event.error event) then Event.error event
       else if Js.truthy (Event.field9 event) then Event.field9 event
       else "Payment failed" |}
  = paymentFailureData event.
Proof.
  unfold paymentFailureData, Js.truthy.
  destruct (String.eqb (Event.error event) "");
    destruct (String.eqb (Event.field9 event) ""); reflexivity.
Qed.

Lemma onPaymentFailure_handled st :
  onPaymentFailure ctx options event st = failure_handled ctx so event st.
Proof.
  unfold onPaymentFailure. rewrite has_options, is_enabled. cbn [negb].
  cbv zeta. rewrite paymentFailureData_eq.
  unfold failure_handled. rewrite <- findSubscription_sought.
  unfold try_catch at 1, bind at 1 2.
  destruct (findSubscription (adapter ctx) event st) as [[[sub|]|err] st1];
    cbn [fst snd]; [| |apply catch_caught].
  - unfold bind, now, perform_update, perform, called, moved, reading, tick,
      statusUpdate, updateOf.
    destruct (newDate (world st1)) as [d w]. cbn [fst snd world journal].
    destruct (Adapter.update (adapter ctx) _ w) as [[[]|err] w'];
      cbn [fst snd raised_by]; [|apply catch_caught].
    apply failure_notified_invoke.
  - cbn [ret]. apply failure_notified_invoke.
Qed.

End Handlers.

Section NotFound.
Context {W : Type} `{Clock W}.
Variables (ctx : HookContext W) (options : PayUOptions W) (event : Event.t).
Hypothesis finds_nothing :
  forall q w, Adapter.findOne (adapter ctx) q w = (Ok None, w).

(** The lookup of an adapter that finds nothing: one or two entries, and
    the world as it was. *)
Lemma sought_nothing st :
  exists es,
    sought (adapter ctx) event st
    = (Ok None, {| world := world st; journal := journal st ++ es |})
    /\ forallb is_lookup es = true.
Proof.
  unfold sought, called. rewrite finds_nothing. cbn [fst snd raised_by].
  destruct (Event.udf4 event) as [id|];
    [destruct (String.eqb id "")|];
    try (eexists [_]; split; reflexivity).
  unfold record. cbn [world journal]. rewrite !finds_nothing.
  cbn [fst snd raised_by]. eexists [_; _].
  split; [rewrite <- app_assoc; reflexivity|reflexivity].
Qed.







End NotFound.

Section Revoked.
Context {W : Type} `{Clock W}.

Lemma emits_onMandateRevoked (ctx : HookContext W) options event :
  emits cancels (onMandateRevoked ctx options event).
Proof.
  unfold onMandateRevoked.
  destruct (subscription options) as [so|]; [|apply emits_ret].
  destruct (SubscriptionOptions.enabled so); cbn [negb]; [|apply emits_ret].
  apply emits_try_catch.
  - unfold findSubscription, findSubscriptionByTxnId, findSubscriptionByUdf,
      perform_findOne, perform_update, resolvePlan.
    repeat first
      [ apply emits_ret
      | apply emits_now
      | apply emits_perform; intros ?; exact I
      | apply emits_perform; intros ?; reflexivity
      | apply emits_invoke; intros ?; exact I
      | apply emits_bind; [|intros ?]
      | match goal with
        | |- emits _ (match ?x with _ => _ end) => destruct x
        end ].
  - intros err. apply emits_bind; [apply emits_eval|].
    intros text. apply emits_logging. exact I.
Qed.

End Revoked.
(* ================================================================== *)
(** * The webhook reconciliation claims                                *)
(* ================================================================== *)

Section Reconciliation.
Context {W : Type} `{Clock W}.

Lemma journal_bind_ret {A} (h : M W unit) (a : A) st :
  journal (bind h (fun _ => ret a) st).2 = journal (h st).2.
Proof. unfold bind, ret. destruct (h st) as [[[]|err] st']; reflexivity. Qed.

(** A handler whose lookup found a subscription. *)
Lemma handled_found (ctx : HookContext W) so event build hk prefix missing
      st sub st1 :
  findSubscription (adapter ctx) event st = (Ok (Some sub), st1) ->
  handled ctx so event build hk prefix missing st
  = updated ctx so sub event (build sub (world st1)).1 hk prefix
      (moved (build sub (world st1)).2 st1).
Proof.
  intros Hfind. unfold handled. rewrite <- findSubscription_sought, Hfind.
  reflexivity.
Qed.



(** C2. On every verified body the endpoint runs the handlers of the
    event's classification and answers success. The classification looks
    at the notification type first: mandate_revoked or si_cancelled, then
    mandate_modified or si_modified, in any spelling of capitals and small
    letters and whatever the status; otherwise at the status, spelled
    likewise, in the order success/captured, failure/failed, pending,
    cancelled, halted, completed, paused, resumed/active. An event of no
    class is answered with success and leaves the state as it was; every
    update made for a revoked mandate sets the status to cancelled. *)
Theorem webhook_classification :
  forall (ctx : HookContext W) (options : PayUOptions W)
         (body : gmap string string) (hash : string) (st : St W),
    verified options body hash ->
    let event := webhookEvent body hash in
    let c := classification (body !! "notificationType") (body !! "status") in
    webhook ctx options (Some body) st
    = (dispatch ctx options event c ;; ret {| success := true |}) st
    /\ (c = NoMatch ->
        webhook ctx options (Some body) st = (Ok {| success := true |}, st))
    /\ (named ["mandate_revoked"; "si_cancelled"] (body !! "notificationType") = true ->
        c = MandateRevoked)
    /\ (c = MandateRevoked ->
        exists es,
          journal (webhook ctx options (Some body) st).2 = (journal st ++ es)%list
          /\ Forall cancels es).
Proof.
  intros ctx options body hash st Hv event c.
  pose proof (webhook_runs_dispatch ctx options body hash Hv) as Hw.
  rewrite classify_classification in Hw.
  fold event c in Hw. rewrite Hw.
  split; [reflexivity|]. split; [|split].
  - intros ->. reflexivity.
  - intros Hn. unfold c, classification. rewrite Hn. reflexivity.
  - intros ->. cbn [dispatch]. rewrite journal_bind_ret.
    apply emits_onMandateRevoked.
Qed.






End Reconciliation.
(* ================================================================== *)
(** * The claims on the scenarios                                      *)
(* ================================================================== *)

Section OnScenarios.

Lemma revokedBody_verified :
  verified Scenario.options Scenario.revokedBody Scenario.revokedHash.
Proof.
  split; [vm_compute; reflexivity|]. split; [discriminate|].
  vm_compute. reflexivity.
Defined.

Lemma kelvinBody_verified :
  verified Scenario.options Scenario.kelvinBody Scenario.revokedHash.
Proof.
  split; [vm_compute; reflexivity|]. split; [discriminate|].
  vm_compute. reflexivity.
Defined.

Lemma successBody_verified :
  verified Scenario.options Scenario.successBody Scenario.successHash.
Proof.
  split; [vm_compute; reflexivity|]. split; [discriminate|].
  vm_compute. reflexivity.
Defined.

Lemma refundedBody_verified :
  verified Scenario.options Scenario.refundedBody Scenario.refundedHash.
Proof.
  split; [vm_compute; reflexivity|]. split; [discriminate|].
  vm_compute. reflexivity.
Defined.

(** A revoked mandate whose notification type is MANDATE_REVOKED with the
    Kelvin sign for its K, and that says [status=active], leaves the
    subscription cancelled; a status the endpoint does not know is answered
    with success and changes nothing. *)
Lemma webhook_classification_witness :
  verified Scenario.options Scenario.revokedBody Scenario.revokedHash
  /\ classification (Scenario.revokedBody !! "notificationType")
                    (Scenario.revokedBody !! "status") = MandateRevoked
  /\ verified Scenario.options Scenario.kelvinBody Scenario.revokedHash
  /\ Scenario.kelvinBody !! "status" = Some "active"
  /\ classification (Scenario.kelvinBody !! "notificationType")
                    (Scenario.kelvinBody !! "status") = MandateRevoked
  /\ Subscription.status <$>
       Mem.db (world (webhook Mem.ctx Scenario.options (Some Scenario.kelvinBody)
                        (Mem.start [Scenario.monthly] 5000)).2)
     = [cancelled]
  /\ verified Scenario.options Scenario.refundedBody Scenario.refundedHash
  /\ webhook Mem.ctx Scenario.options (Some Scenario.refundedBody)
       (Mem.start [Scenario.monthly] 5000)
     = (Ok {| success := true |}, Mem.start [Scenario.monthly] 5000).
Proof.
  split; [exact revokedBody_verified|].
  split; [vm_compute; reflexivity|].
  split; [exact kelvinBody_verified|].
  split; [vm_compute; reflexivity|].
  split; [vm_compute; reflexivity|].
  split.
  - destruct (webhook_classification Mem.ctx Scenario.options Scenario.kelvinBody
                Scenario.revokedHash (Mem.start [Scenario.monthly] 5000)
                kelvinBody_verified) as (Heq & _).
    rewrite Heq. vm_compute. reflexivity.
  - split; [exact refundedBody_verified|].
    destruct (webhook_classification Mem.ctx Scenario.options Scenario.refundedBody
                Scenario.refundedHash (Mem.start [Scenario.monthly] 5000)
                refundedBody_verified) as (_ & Hnone & _).
    apply Hnone. vm_compute. reflexivity.
Defined.

Lemma monthly_found :
  findSubscription Mem.memAdapter Scenario.event (Mem.start [Scenario.monthly] 5000)
  = (Ok (Some Scenario.monthly), found (Mem.start [Scenario.monthly] 5000)).
Proof. reflexivity. Defined.












(** C9 is not met by the code, whose catch blocks miss a case. A verified
    success event for [monthly], with a payment-success callback that
    throws a value without a string conversion: the subscription is
    updated, the callback throws, the catch block throws in turn while it
    builds its log line, and the exception leaves the endpoint. Nothing is
    logged, the activation handler is not run, and the counter has been
    incremented. *)
Theorem webhook_rethrows_unprintable :
  let st := Mem.start [Scenario.monthly] 5000 in
  let outcome :=
    webhook Mem.ctx Scenario.throwingOptions (Some Scenario.successBody) st in
  let event := webhookEvent Scenario.successBody Scenario.successHash in
  verified Scenario.throwingOptions Scenario.successBody Scenario.successHash
  /\ outcome.1 = Throw (ThrownError "Cannot convert object to primitive value")
  /\ journal outcome.2
     = [ {| call := CFindOne (byTransactionId "txn_123"); raised := None |};
         {| call := CUpdate (paymentSuccessUpdate Scenario.monthly event 5000);
            raised := None |};
         {| call := CCallback OnPaymentSuccess
                      (callbackData Scenario.monthly (Some Scenario.monthlyPlan) event);
            raised := Some Scenario.bare |} ]
  /\ Subscription.paidCount <$> Mem.db (world outcome.2) = [Some 4].
Proof.
  intros st outcome event. split.
  { split; [vm_compute; reflexivity|]. split; [discriminate|].
    vm_compute. reflexivity. }
  vm_compute. repeat split.
Qed.


End OnScenarios.
(* ================================================================== *)
(** * Further properties of the hash engine and of the status helpers  *)
(* ================================================================== *)

Section MoreHashEngine.

(** X1. A received hash that is not 128 lowercase hexadecimal digits is
    rejected, whatever the parameters: the comparison is on the digest as
    [digest("hex")] prints it. *)
Theorem verifyPayUHash_rejects_malformed :
  forall (params : VerifyParams.t) (salt receivedHash : string),
    String.length receivedHash <> 128%nat
    \/ forallb is_lower_hex (list_ascii_of_string receivedHash) = false ->
    Utils.verifyPayUHash params salt receivedHash = false.
Proof.
  intros params salt receivedHash Hbad.
  destruct (Utils.verifyPayUHash params salt receivedHash) eqn:E; [|reflexivity].
  unfold Utils.verifyPayUHash in E. apply String.eqb_eq in E.
  destruct (createHmac_sha512_hex_shape "" (Utils.reverseHashString params salt))
    as (Hlen & Hhex).
  rewrite E in Hlen, Hhex.
  destruct Hbad as [Hbad|Hbad]; [contradiction|congruence].
Qed.

(** The right digest in capital letters is not accepted. *)
Lemma verifyPayUHash_rejects_malformed_witness :
  forallb is_lower_hex
    (list_ascii_of_string
       "A633A542099AB2C544119D052F55C8325BC0F1B24C35E2F78773BE8D4A75B527037F523247725633D8B6FAA683C02182EFDE86416052539D1CC20509F29FE35A")
  = false
  /\ Utils.verifyPayUHash johnVerify "testSalt"
       "A633A542099AB2C544119D052F55C8325BC0F1B24C35E2F78773BE8D4A75B527037F523247725633D8B6FAA683C02182EFDE86416052539D1CC20509F29FE35A"
     = false.
Proof.
  split; [reflexivity|].
  apply verifyPayUHash_rejects_malformed. right. reflexivity.
Defined.

(** X2. The command hash joins its four arguments with "|" and nothing
    else: a separator may move from one argument to the next without
    changing the digest. *)
Theorem generateCommandHash_separator_moves :
  forall (key command var1 salt extra : string),
    Utils.generateCommandHash key command var1 salt
    = createHmac_sha512_hex "" (Js.join "|" [key; command; var1; salt])
    /\ Utils.generateCommandHash key (command +:+ "|" +:+ extra) var1 salt
       = Utils.generateCommandHash key command (extra +:+ "|" +:+ var1) salt.
Proof.
  intros key command var1 salt extra. unfold Utils.generateCommandHash. split.
  - reflexivity.
  - cbv zeta. rewrite !append_assoc. reflexivity.
Qed.

(** X3. A status name goes through [toSubscriptionStatus] unchanged, and
    any other string, a name in capitals too, becomes [created]. *)
Theorem toSubscriptionStatus_names :
  (forall st, Utils.toSubscriptionStatus (status_name st) = st)
  /\ (forall s, (forall st, status_name st <> s) ->
                Utils.toSubscriptionStatus s = created)
  /\ (forall s, status_name (Utils.toSubscriptionStatus s) = s
                \/ Utils.toSubscriptionStatus s = created).
Proof.
  assert (Hfind : forall s,
             (exists st, status_name st = s /\ Utils.toSubscriptionStatus s = st)
             \/ ((forall st, status_name st <> s)
                 /\ Utils.toSubscriptionStatus s = created)).
  { intros s. unfold Utils.toSubscriptionStatus.
    destruct (find (fun st => String.eqb (status_name st) s)
                [created; authenticated; active; pending; halted; cancelled;
                 completed; expired; paused]) as [st|] eqn:E.
    - left. exists st. apply find_some in E as [_ E].
      apply String.eqb_eq in E. split; [exact E|reflexivity].
    - right. split; [|reflexivity]. intros st Hst.
      pose proof (find_none _ _ E st) as Hn. cbv beta in Hn.
      rewrite Hst, String.eqb_refl in Hn.
      assert (Hin : In st [created; authenticated; active; pending; halted;
                           cancelled; completed; expired; paused])
        by (destruct st; simpl; tauto).
      specialize (Hn Hin). discriminate Hn. }
  split; [|split].
  - intros st. destruct st; reflexivity.
  - intros s Hs. destruct (Hfind s) as [(st & Hst & _)|(_ & Hc)]; [|exact Hc].
    exfalso. exact (Hs st Hst).
  - intros s. destruct (Hfind s) as [(st & Hst & ->)|(_ & Hc)]; [left|right]; assumption.
Qed.

Lemma toSubscriptionStatus_names_witness :
  Utils.toSubscriptionStatus "ACTIVE" = created.
Proof.
  destruct toSubscriptionStatus_names as (_ & Hdefault & _).
  apply Hdefault. intros st. destruct st; discriminate.
Defined.

(** X4. The status checkers cut the nine statuses into five classes:
    created, usable (active or authenticated), paused, payment issue
    (pending or halted) and terminal (cancelled, completed or expired);
    every status is in exactly one of them. *)
Theorem status_checkers_partition :
  forall st : PayUSubscriptionStatus,
    (Nat.b2n (Utils.isUsable st) + Nat.b2n (Utils.isPaused st)
     + Nat.b2n (Utils.hasPaymentIssue st) + Nat.b2n (Utils.isTerminal st)
     + Nat.b2n (String.eqb (status_name st) "created") = 1)%nat
    /\ Utils.isUsable st = Utils.isActive st || Utils.isAuthenticated st
    /\ (Utils.isCancelled st = true -> Utils.isTerminal st = true).
Proof. intros st. destruct st; repeat split; discriminate. Qed.

End MoreHashEngine.

(* ================================================================== *)
(** * Properties of the metadata helpers                               *)
(* ================================================================== *)

Section MetadataFacts.
Context {W : Type}.

Lemma udfSlots_keys : udfKey <$> seq 1 10 = udfSlots.
Proof. vm_compute. reflexivity. Qed.

Lemma paramsToUdf_lookup (params : string -> option string) (key : string) :
  Metadata.paramsToUdf params !! key =
  if bool_decide (key ∈ udfSlots) && Js.truthy_opt (params key)
  then params key else None.
Proof.
  unfold Metadata.paramsToUdf. rewrite paramsToUdf_fold, udfSlots_keys.
  destruct (bool_decide (key ∈ udfSlots) && Js.truthy_opt (params key));
    [reflexivity|apply lookup_empty].
Qed.

Lemma udfToParams_paramsToUdf (udf : gmap string string) :
  Metadata.udfToParams udf = Metadata.paramsToUdf (fun key => udf !! key).
Proof. reflexivity. Qed.

(** X5. [paramsToUdf] keeps the slots udf1 .. udf10 that hold a non-empty
    string and nothing else, and [udfToParams] does the same on an object;
    applying either to the result of the other changes nothing. *)
Theorem paramsToUdf_slots :
  forall (params : string -> option string) (udf : gmap string string)
         (key : string),
    Metadata.paramsToUdf params !! key
    = (if bool_decide (key ∈ udfSlots) && Js.truthy_opt (params key)
       then params key else None)
    /\ Metadata.udfToParams udf !! key
       = (if bool_decide (key ∈ udfSlots) && Js.truthy_opt (udf !! key)
          then udf !! key else None)
    /\ Metadata.udfToParams (Metadata.paramsToUdf params)
       = Metadata.paramsToUdf params
    /\ Metadata.paramsToUdf (fun k => Metadata.udfToParams udf !! k)
       = Metadata.udfToParams udf.
Proof.
  intros params udf key.
  assert (Hidem : forall p : string -> option string,
             Metadata.paramsToUdf (fun k => Metadata.paramsToUdf p !! k)
             = Metadata.paramsToUdf p).
  { intros p. apply map_eq. intros k. rewrite !paramsToUdf_lookup.
    destruct (bool_decide (k ∈ udfSlots)); cbn [andb]; [|reflexivity].
    destruct (Js.truthy_opt (p k)) eqn:E; cbn [andb]; [|reflexivity].
    rewrite E. reflexivity. }
  split; [apply paramsToUdf_lookup|].
  split; [rewrite udfToParams_paramsToUdf; apply paramsToUdf_lookup|].
  split.
  - rewrite udfToParams_paramsToUdf. apply Hidem.
  - rewrite udfToParams_paramsToUdf. apply Hidem.
Qed.

Lemma subscriptionUdf_set_udf4 (internalFields : Metadata.SubscriptionUdfFields)
      (userUdf : option (gmap string string)) :
  Metadata.subscriptionUdf_set internalFields userUdf !! "udf4"
  = Some (Metadata.set_subscriptionId internalFields).
Proof.
  unfold Metadata.subscriptionUdf_set, Metadata.defu. cbn [fold_left fst snd].
  simplify_map_eq. reflexivity.
Qed.

(** X6. Reading back what [subscriptionUdf.set] wrote gives the three
    internal fields, whatever the caller supplied for slots 2, 4 and 5; the
    caller's other entries pass through unchanged. *)
Theorem subscriptionUdf_set_get :
  forall (internalFields : Metadata.SubscriptionUdfFields)
         (userUdf : option (gmap string string)),
    Metadata.subscriptionUdf_get
      (Some (Metadata.subscriptionUdf_set internalFields userUdf))
    = {| Metadata.userId := Some (Metadata.set_userId internalFields);
         Metadata.subscriptionId := Some (Metadata.set_subscriptionId internalFields);
         Metadata.referenceId := Some (Metadata.set_referenceId internalFields) |}
    /\ forall key, key <> "udf2" -> key <> "udf4" -> key <> "udf5" ->
         Metadata.subscriptionUdf_set internalFields userUdf !! key
         = default ∅ userUdf !! key.
Proof.
  intros internalFields userUdf.
  unfold Metadata.subscriptionUdf_get, Metadata.subscriptionUdf_set, Metadata.defu.
  cbn [fold_left fst snd]. split.
  - f_equal; simplify_map_eq; reflexivity.
  - intros key H2 H4 H5. simplify_map_eq. reflexivity.
Qed.

(** X7. [customerUdf.set] writes the customer type to slot 1 and the id to
    slot 2 (user) or slot 3 (organization); the slot of the other kind is
    not cleared: what the caller supplied there is read back by
    [customerUdf.get]. *)
Theorem customerUdf_set_get :
  forall (id : string) (userUdf : option (gmap string string)),
    Metadata.customerUdf_get
      (Some (Metadata.customerUdf_set (Metadata.CustomerUser id) userUdf))
    = {| Metadata.customer_userId := Some id;
         Metadata.customer_organizationId := default ∅ userUdf !! "udf3";
         Metadata.customer_customerType := Some "user" |}
    /\ Metadata.customerUdf_get
         (Some (Metadata.customerUdf_set (Metadata.CustomerOrganization id) userUdf))
       = {| Metadata.customer_userId := default ∅ userUdf !! "udf2";
            Metadata.customer_organizationId := Some id;
            Metadata.customer_customerType := Some "organization" |}.
Proof.
  intros id userUdf.
  unfold Metadata.customerUdf_get, Metadata.customerUdf_set, Metadata.defu.
  cbn [fold_left fst snd Metadata.customerType]. split.
  - f_equal; simplify_map_eq; reflexivity.
  - f_equal; simplify_map_eq; reflexivity.
Qed.

(** X8. When slot 4 of an event is the slot 4 that [subscriptionUdf.set]
    wrote, the webhook's lookup by metadata asks for the subscription of
    that id, and asks nothing when the id is the empty string. *)
Theorem findSubscriptionByUdf_of_set :
  forall (a : Adapter.t W) (event : Event.t)
         (internalFields : Metadata.SubscriptionUdfFields)
         (userUdf : option (gmap string string)),
    Event.udf4 event
    = Metadata.subscriptionUdf_set internalFields userUdf !! "udf4" ->
    findSubscriptionByUdf a event =
    if String.eqb (Metadata.set_subscriptionId internalFields) ""
    then ret None
    else perform
           (CFindOne (bySubscriptionId (Metadata.set_subscriptionId internalFields)))
           (Adapter.findOne a
              (bySubscriptionId (Metadata.set_subscriptionId internalFields))).
Proof.
  intros a event internalFields userUdf Hslot.
  rewrite findSubscriptionByUdf_slot4, Hslot, subscriptionUdf_set_udf4.
  reflexivity.
Qed.

End MetadataFacts.

Section DigestFormat.

(** X9. The outbound hash and the command hash are always 128 lowercase
    hexadecimal digits, whatever the parameters and the salt. *)
Theorem digests_are_lowercase_hex :
  forall (params : HashParams.t) (key command var1 salt : string),
    (String.length (Utils.generatePayUHash params salt) = 128%nat
     /\ forallb is_lower_hex
          (list_ascii_of_string (Utils.generatePayUHash params salt)) = true)
    /\ (String.length (Utils.generateCommandHash key command var1 salt) = 128%nat
        /\ forallb is_lower_hex
             (list_ascii_of_string (Utils.generateCommandHash key command var1 salt))
           = true).
Proof.
  intros params key command var1 salt. split.
  - apply createHmac_sha512_hex_shape.
  - apply createHmac_sha512_hex_shape.
Qed.

End DigestFormat.

(* ================================================================== *)
(** * Properties of the plan lookups                                   *)
(* ================================================================== *)

Section PlanFacts.
Context {W : Type} `{Clock W}.

Lemma getPlans_array (so : SubscriptionOptions.t W) l st :
  SubscriptionOptions.enabled so = true ->
  SubscriptionOptions.plans so = Some (PlansArray l) ->
  getPlans (Some so) st = (Ok l, st).
Proof. intros He Hp. unfold getPlans. rewrite He, Hp. reflexivity. Qed.

Lemma getPlans_disabled (options : PayUOptions W) st :
  subscriptionsEnabled options = false ->
  getPlans (subscription options) st = (Throw notEnabled, st).
Proof.
  unfold subscriptionsEnabled, getPlans.
  destruct (subscription options) as [so|]; [|reflexivity].
  intros ->. reflexivity.
Qed.

(** The first element of a list that satisfies [f]. *)
Lemma find_first {A} (f : A -> bool) (l : list A) (x : A) :
  find f l = Some x ->
  exists l1 l2, l = (l1 ++ x :: l2)%list /\ f x = true
                /\ forall y, In y l1 -> f y = false.
Proof.
  induction l as [|a l IH]; simpl; [discriminate|].
  destruct (f a) eqn:E.
  - intros [= <-]. exists [], l. repeat split; [exact E|]. intros y [].
  - intros Hf. destruct (IH Hf) as (l1 & l2 & -> & Hx & Hl1).
    exists (a :: l1), l2. repeat split; [exact Hx|].
    intros y [<-|Hy]; [exact E|exact (Hl1 y Hy)].
Qed.

Lemma find_finer {A} (f g : A -> bool) (l : list A) (x : A) :
  (forall y, g y = true -> f y = true) ->
  find f l = Some x -> g x = true -> find g l = Some x.
Proof.
  intros Hgf. induction l as [|a l IH]; simpl; [discriminate|].
  destruct (f a) eqn:E.
  - intros [= <-] Hg. rewrite Hg. reflexivity.
  - intros Hf Hg. destruct (g a) eqn:G.
    + rewrite (Hgf a G) in E. discriminate.
    + exact (IH Hf Hg).
Qed.

(** X10. With subscriptions off, a signed-in user gets an empty list from
    [listPlans], but [getPlan] throws the plain error of [getPlans], not the
    not-found API error; neither changes the state. *)
Theorem plan_endpoints_when_disabled :
  forall (options : RouteOptions W) (ctx : EndpointContext W) (user : User)
         (planId : string) (st : St W),
    ep_user ctx = Some user ->
    subscriptionsEnabled (payu options) = false ->
    listPlans options ctx st = (Ok {| plans_json := [] |}, st)
    /\ getPlan options ctx planId st = (Throw notEnabled, st)
    /\ getPlanByName (payu options) planId st = (Throw notEnabled, st).
Proof.
  intros options ctx user planId st Huser Hoff.
  pose proof (getPlans_disabled (payu options) st Hoff) as Hplans.
  unfold listPlans, getPlan, getPlanByPlanId, getPlanByName, payuSessionMiddleware.
  rewrite Huser. unfold bind at 1. cbn [ret].
  repeat split.
  - unfold subscriptionsEnabled in Hoff.
    destruct (subscription (payu options)) as [so|]; [|reflexivity].
    rewrite Hoff. reflexivity.
  - unfold bind. cbn [ret]. rewrite Hplans. reflexivity.
  - unfold bind. rewrite Hplans. reflexivity.
Qed.

(** X11. [getPlanByName] on an array of plans returns the first plan whose
    name is the asked name up to the case of the letters, as [toLowerCase]
    folds them, and nothing when there is none. For a plan whose name is
    plain, the asked names that match are the spellings of the name. *)
Theorem getPlanByName_first_match :
  forall (options : PayUOptions W) (so : SubscriptionOptions.t W)
         (l : list Plan.t) (name : string) (st : St W),
    subscription options = Some so ->
    SubscriptionOptions.enabled so = true ->
    SubscriptionOptions.plans so = Some (PlansArray l) ->
    (exists r,
       getPlanByName options name st = (Ok r, st)
       /\ match r with
          | Some plan =>
              exists l1 l2,
                l = (l1 ++ plan :: l2)%list
                /\ same_letters (Plan.name plan) name
                /\ forall p, In p l1 -> ~ same_letters (Plan.name p) name
          | None => forall p, In p l -> ~ same_letters (Plan.name p) name
          end)
    /\ (forall p,
          plain (Plan.name p) = true ->
          same_letters (Plan.name p) name <-> spelled (Plan.name p) name = true).
Proof.
  intros options so l name st Hso Hen Hplans. split.
  - unfold getPlanByName. rewrite Hso. unfold bind.
    rewrite (getPlans_array so l st Hen Hplans). cbn [ret].
    eexists. split; [reflexivity|].
    destruct (find _ l) as [plan|] eqn:E.
    + apply find_first in E as (l1 & l2 & -> & Hx & Hl1).
      exists l1, l2. split; [reflexivity|]. split.
      * apply String.eqb_eq in Hx. exact Hx.
      * intros p Hp Hs. specialize (Hl1 p Hp). cbv beta in Hl1.
        unfold same_letters in Hs. rewrite Hs, String.eqb_refl in Hl1. discriminate.
    + intros p Hp Hs. pose proof (find_none _ _ E p Hp) as Hn. cbv beta in Hn.
      unfold same_letters in Hs. rewrite Hs, String.eqb_refl in Hn. discriminate.
  - intros p Hp. unfold same_letters. rewrite (toLowerCase_plain _ Hp).
    rewrite <- (toLowerCase_spelled (Plan.name p) name Hp).
    split; intros E; symmetry; exact E.
Qed.

(** X12. When the plans are given as an array, a plan found by
    [getPlanByName] and stored on the subscription by its own name, as the
    subscription routes store it, is the plan the webhook handlers resolve
    for that subscription. *)
Theorem stored_plan_resolves :
  forall (options : PayUOptions W) (so : SubscriptionOptions.t W)
         (l : list Plan.t) (name : string) (plan : Plan.t)
         (sub : Subscription.t) (st st' : St W),
    subscription options = Some so ->
    SubscriptionOptions.plans so = Some (PlansArray l) ->
    getPlanByName options name st = (Ok (Some plan), st') ->
    Subscription.plan sub = Plan.name plan ->
    resolvePlan so sub st' = (Ok (Some plan), st').
Proof.
  intros options so l name plan sub st st' Hso Hplans Hget Hstored.
  unfold getPlanByName, getPlans in Hget. rewrite Hso in Hget.
  unfold bind in Hget.
  destruct (SubscriptionOptions.enabled so); [|discriminate Hget].
  rewrite Hplans in Hget. cbn [ret] in Hget.
  injection Hget as Hfind <-.
  unfold resolvePlan. rewrite Hplans, Hstored. unfold ret. do 2 f_equal.
  eapply find_finer; [|exact Hfind|apply String.eqb_refl].
  intros p Hp. cbv beta in Hp. apply String.eqb_eq in Hp.
  apply find_some in Hfind as [_ Hfind]. cbv beta in Hfind.
  apply String.eqb_eq in Hfind. rewrite Hp, Hfind. apply String.eqb_refl.
Qed.

(** X13. [getPlanByPlanId] answers for the annual plan id of a plan as for
    its plan id: the plan returned carries the asked id in one of the two,
    no plan before it in the array does, and nothing is returned only when
    no plan carries it. *)
Theorem getPlanByPlanId_either_id :
  forall (options : PayUOptions W) (so : SubscriptionOptions.t W)
         (l : list Plan.t) (planId : string) (st : St W),
    subscription options = Some so ->
    SubscriptionOptions.enabled so = true ->
    SubscriptionOptions.plans so = Some (PlansArray l) ->
    exists r,
      getPlanByPlanId options planId st = (Ok r, st)
      /\ match r with
         | Some plan =>
             exists l1 l2,
               l = (l1 ++ plan :: l2)%list
               /\ (Plan.planId plan = planId \/ Plan.annualPlanId plan = Some planId)
               /\ forall p, In p l1 ->
                    Plan.planId p <> planId /\ Plan.annualPlanId p <> Some planId
         | None =>
             forall p, In p l ->
               Plan.planId p <> planId /\ Plan.annualPlanId p <> Some planId
         end.
Proof.
  intros options so l planId st Hso Hen Hplans.
  unfold getPlanByPlanId. rewrite Hso. unfold bind.
  rewrite (getPlans_array so l st Hen Hplans). cbn [ret].
  eexists. split; [reflexivity|].
  assert (Hno : forall p,
             String.eqb (Plan.planId p) planId
             || is_string (Plan.annualPlanId p) planId = false ->
             Plan.planId p <> planId /\ Plan.annualPlanId p <> Some planId).
  { intros p Hp. apply orb_false_iff in Hp as [H1 H2]. split.
    - intros E. rewrite E, String.eqb_refl in H1. discriminate.
    - intros E. rewrite E in H2. simpl in H2.
      rewrite String.eqb_refl in H2. discriminate. }
  destruct (find _ l) as [plan|] eqn:E.
  - apply find_first in E as (l1 & l2 & -> & Hx & Hl1).
    exists l1, l2. split; [reflexivity|]. split.
    + apply orb_true_iff in Hx as [Hx|Hx].
      * left. apply String.eqb_eq in Hx. exact Hx.
      * right. unfold is_string in Hx.
        destruct (Plan.annualPlanId plan) as [v|]; [|discriminate].
        apply String.eqb_eq in Hx. rewrite Hx. reflexivity.
    + intros p Hp. apply Hno. exact (Hl1 p Hp).
  - intros p Hp. apply Hno. exact (find_none _ _ E p Hp).
Qed.

End PlanFacts.

(* ================================================================== *)
(** * Further properties of the webhook endpoint                       *)
(* ================================================================== *)

Section WebhookEdges.
Context {W : Type} `{Clock W}.

Lemma handlers_off (ctx : HookContext W) options event c st :
  subscriptionsEnabled options = false ->
  dispatch ctx options event c st = (Ok tt, st)
  /\ onSubscriptionCharged ctx options event st = (Ok tt, st).
Proof.
  unfold subscriptionsEnabled. intros Hoff.
  unfold dispatch, onMandateRevoked, onMandateModified, onPaymentSuccess,
    onSubscriptionActivated, onPaymentFailure, onSubscriptionPending,
    onSubscriptionCancelled, onSubscriptionHalted, onSubscriptionCompleted,
    onSubscriptionPaused, onSubscriptionResumed, onSubscriptionCharged.
  destruct (subscription options) as [so|];
    [rewrite Hoff; cbn [negb]|]; (split; [destruct c|]); reflexivity.
Qed.

(** X14. The webhook endpoint throws in three cases only. Two come
    before anything is looked up, written or logged: a missing body or an
    absent or empty hash is a bad request, a hash that does not verify is
    unauthorized. The third is on a verified body, when the last call of a
    handler raised a value without a string conversion: what the
    conversion throws leaves the endpoint, after the calls of the journal.
    In every other case the endpoint answers success. *)
Theorem webhook_outcomes :
  forall (ctx : HookContext W) (options : PayUOptions W)
         (body : option (gmap string string)) (st : St W),
    match webhook ctx options body st with
    | (Ok r, _) =>
        r = {| success := true |}
        /\ exists b hash, body = Some b /\ verified options b hash
    | (Throw err, st') =>
        (st' = st /\ err = hashNotFound
         /\ forall b, body = Some b -> Js.truthy_opt (b !! "hash") = false)
        \/ (st' = st /\ err = hashRefused
            /\ exists b hash,
                 body = Some b /\ b !! "hash" = Some hash /\ hash <> ""
                 /\ Utils.verifyPayUHash (webhookVerifyParams options b)
                      (merchantSalt options) hash = false)
        \/ (exists b hash es c,
              body = Some b /\ verified options b hash
              /\ journal st'
                 = (journal st ++ es
                    ++ [{| call := c; raised := Some (ThrownUnprintable err) |}])%list
              /\ Forall tame es)
    end.
Proof.
  intros ctx options body st.
  destruct body as [b|];
    [|simpl; left; split; [reflexivity|split; [reflexivity|discriminate]]].
  destruct (b !! "hash") as [hash|] eqn:Hh.
  2:{ unfold webhook. rewrite Hh. simpl. left. split; [reflexivity|].
      split; [reflexivity|]. intros b' [= <-]. rewrite Hh. reflexivity. }
  destruct (Js.truthy hash) eqn:Ht.
  2:{ unfold webhook. rewrite Hh, Ht. simpl. left. split; [reflexivity|].
      split; [reflexivity|]. intros b' [= <-]. rewrite Hh. exact Ht. }
  assert (Hne : hash <> "").
  { intros ->. discriminate Ht. }
  destruct (Utils.verifyPayUHash (webhookVerifyParams options b)
              (merchantSalt options) hash) eqn:Hv.
  - assert (Hver : verified options b hash) by (repeat split; assumption).
    destruct (webhook_contained ctx options b hash st Hver)
      as (es & Hj & _ & Hc).
    destruct (webhook ctx options (Some b) st) as [[r|err] st'];
      cbn [fst snd] in *.
    + destruct Hc as [-> _]. split; [reflexivity|].
      exists b, hash. split; [reflexivity|exact Hver].
    + right. right. destruct Hc as (es0 & c & -> & Htame).
      exists b, hash, es0, c. repeat split; assumption.
  - unfold webhook. rewrite Hh, Ht. cbv zeta. rewrite Hv. simpl.
    right. left. split; [reflexivity|]. split; [reflexivity|].
    exists b, hash. repeat split; assumption.
Qed.

(** X15. With subscriptions absent or not enabled in the options, every
    handler returns at once: a verified webhook is answered with success and
    nothing is looked up, written, logged or called back. *)
Theorem disabled_subscriptions_ignore_events :
  forall (ctx : HookContext W) (options : PayUOptions W) (event : Event.t)
         (body : gmap string string) (hash : string) (st : St W),
    subscriptionsEnabled options = false ->
    (forall c, dispatch ctx options event c st = (Ok tt, st))
    /\ onSubscriptionCharged ctx options event st = (Ok tt, st)
    /\ (verified options body hash ->
        webhook ctx options (Some body) st = (Ok {| success := true |}, st)).
Proof.
  intros ctx options event body hash st Hoff.
  split; [intros c; apply (handlers_off ctx options event c st Hoff)|].
  split; [apply (handlers_off ctx options event NoMatch st Hoff)|].
  intros Hver. rewrite (webhook_runs_dispatch ctx options body hash Hver).
  unfold bind.
  destruct (handlers_off ctx options (webhookEvent body hash)
              (classify (body !! "notificationType") (body !! "status")) st Hoff)
    as [-> _].
  reflexivity.
Qed.

(** X16. The hash check of the webhook reads the fields of [hashedFields]
    and no other: a verified body stays verified when any other field is set
    to any value. The notification type is such a field, and it decides the
    classification before the status does. *)
Theorem verified_ignores_unhashed_fields :
  forall (options : PayUOptions W) (body : gmap string string)
         (hash field v : string),
    ~ In field hashedFields ->
    verified options body hash ->
    verified options (<[field := v]> body) hash
    /\ let revoked := <["notificationType" := "mandate_revoked"]> body in
       verified options revoked hash
       /\ classify (revoked !! "notificationType") (revoked !! "status")
          = MandateRevoked.
Proof.
  assert (Hkeep : forall (options : PayUOptions W) body hash field v,
             ~ In field hashedFields ->
             verified options body hash ->
             verified options (<[field := v]> body) hash).
  { intros options body hash field v Hout (Hh & Hne & Hv).
    assert (Hsame : forall k, In k hashedFields -> <[field := v]> body !! k = body !! k).
    { intros k Hk. apply lookup_insert_ne. intros ->. exact (Hout Hk). }
    unfold verified, webhookVerifyParams.
    rewrite !Hsame by (simpl; tauto).
    repeat split; assumption. }
  intros options body hash field v Hout Hver.
  split; [exact (Hkeep options body hash field v Hout Hver)|].
  cbv zeta. split.
  - apply Hkeep; [|exact Hver]. simpl. intros Hin.
    repeat (destruct Hin as [Hin|Hin]; [discriminate Hin|]). exact Hin.
  - rewrite lookup_insert_eq. unfold classify, recognize.
    rewrite (toLowerCase_plain "mandate_revoked") by (vm_compute; reflexivity).
    reflexivity.
Qed.

End WebhookEdges.

(* ================================================================== *)
(** * What the handlers write                                          *)
(* ================================================================== *)

Section Writes.
Context {W : Type} `{Clock W}.

Lemma emits_throw {A} Q (e : Thrown) : emits (W := W) (A := A) Q (throw e).
Proof. intros st. exists []. simpl. rewrite app_nil_r. split; [reflexivity|constructor]. Qed.

Lemma updates_app es1 es2 : updates (es1 ++ es2) = (updates es1 ++ updates es2)%list.
Proof. unfold updates. apply omap_app. Qed.

Lemma updates_reads es : Forall reads es -> updates es = [].
Proof.
  induction 1 as [|e es He _ IH]; [reflexivity|].
  change (e :: es) with ([e] ++ es)%list. rewrite updates_app, He, IH. reflexivity.
Qed.

Lemma writes_at_most_reads {A} (m : M W A) : emits reads m -> writes_at_most 0 m.
Proof.
  intros Hm st. destruct (Hm st) as (es & Hj & Hr).
  exists es. split; [exact Hj|]. rewrite (updates_reads es Hr). reflexivity.
Qed.

Lemma writes_at_most_perform {A} c (act : Action W A) :
  writes_at_most 1 (perform c act).
Proof.
  intros st. unfold perform. destruct (act (world st)) as [r w]. simpl.
  eexists. split; [reflexivity|]. unfold updates. simpl. destruct c; simpl; lia.
Qed.

Lemma writes_at_most_weaken {A} (n n' : nat) (m : M W A) :
  writes_at_most n m -> (n <= n')%nat -> writes_at_most n' m.
Proof.
  intros Hm Hle st. destruct (Hm st) as (es & Hj & Hn).
  exists es. split; [exact Hj|lia].
Qed.

Lemma writes_at_most_bind {A B} n1 n2 (m : M W A) (k : A -> M W B) :
  writes_at_most n1 m -> (forall a, writes_at_most n2 (k a)) ->
  writes_at_most (n1 + n2) (bind m k).
Proof.
  intros Hm Hk st. unfold bind.
  destruct (Hm st) as (es1 & Hj1 & Hn1).
  destruct (m st) as [[a|err] st1]; simpl in *.
  - destruct (Hk a st1) as (es2 & Hj2 & Hn2).
    exists (es1 ++ es2)%list. rewrite Hj2, Hj1, app_assoc, updates_app, length_app.
    split; [reflexivity|lia].
  - exists es1. split; [exact Hj1|lia].
Qed.

Lemma writes_at_most_try_catch {A} n1 n2 (m : M W A) (h : Thrown -> M W A) :
  writes_at_most n1 m -> (forall err, writes_at_most n2 (h err)) ->
  writes_at_most (n1 + n2) (try_catch m h).
Proof.
  intros Hm Hh st. unfold try_catch.
  destruct (Hm st) as (es1 & Hj1 & Hn1).
  destruct (m st) as [[a|err] st1]; simpl in *.
  - exists es1. split; [exact Hj1|lia].
  - destruct (Hh err st1) as (es2 & Hj2 & Hn2).
    exists (es1 ++ es2)%list. rewrite Hj2, Hj1, app_assoc, updates_app, length_app.
    split; [reflexivity|lia].
Qed.

End Writes.

(** Walks a handler with the lemmas of [emits]; [leaf] proves the property
    of one entry. *)
Ltac emits_walk leaf :=
  unfold findSubscription, findSubscriptionByTxnId, findSubscriptionByUdf,
    perform_findOne, perform_update, resolvePlan, logging_warn, logging_error;
  cbv zeta;
  repeat first
    [ apply emits_ret
    | apply emits_now
    | apply emits_eval
    | apply emits_throw
    | apply emits_logging; leaf
    | apply emits_perform; intros ?; leaf
    | apply emits_invoke; intros ?; leaf
    | apply emits_bind; [|intros ?]
    | apply emits_try_catch; [|intros ?]
    | match goal with
      | |- emits _ (match ?x with _ => _ end) => destruct x
      end ].

(** Counts the updates of a handler. *)
Ltac count_slack := first [apply Nat.le_refl | simpl; lia].

Ltac count_writes :=
  lazymatch goal with
  | |- writes_at_most _ (bind _ _) =>
      eapply writes_at_most_weaken;
      [eapply writes_at_most_bind; [count_writes|intros ?; count_writes]
      |count_slack]
  | |- writes_at_most _ (try_catch _ _) =>
      eapply writes_at_most_weaken;
      [eapply writes_at_most_try_catch; [count_writes|intros ?; count_writes]
      |count_slack]
  | |- writes_at_most _ (match ?x with _ => _ end) => destruct x; count_writes
  | |- writes_at_most _ (perform (CUpdate _) _) =>
      eapply writes_at_most_weaken; [apply writes_at_most_perform|count_slack]
  | |- _ =>
      eapply writes_at_most_weaken;
      [apply writes_at_most_reads; emits_walk ltac:(reflexivity)|count_slack]
  end.

Section HandlerWrites.
Context {W : Type} `{Clock W}.
Variables (ctx : HookContext W) (options : PayUOptions W) (event : Event.t).

Ltac aim :=
  first [ exact I
        | eexists; left; reflexivity
        | eexists; right; reflexivity
        | split; [reflexivity|split; eexists; reflexivity] ].

Lemma well_aimed_dispatch c : emits well_aimed (dispatch ctx options event c).
Proof.
  destruct c; unfold dispatch, onMandateRevoked, onMandateModified,
    onPaymentSuccess, onSubscriptionActivated, onPaymentFailure,
    onSubscriptionPending, onSubscriptionCancelled, onSubscriptionHalted,
    onSubscriptionCompleted, onSubscriptionPaused, onSubscriptionResumed;
    emits_walk aim.
Qed.

Lemma well_aimed_charged : emits well_aimed (onSubscriptionCharged ctx options event).
Proof. unfold onSubscriptionCharged. emits_walk aim. Qed.

End HandlerWrites.

Lemma classification_eq_dec (c1 c2 : Classification) : {c1 = c2} + {c1 <> c2}.
Proof. decide equality. Qed.


Section HandlerCounts.
Context {W : Type} `{Clock W}.
Variables (ctx : HookContext W) (options : PayUOptions W) (event : Event.t).

Ltac count_handler :=
  unfold findSubscription, findSubscriptionByTxnId, findSubscriptionByUdf,
    perform_findOne, perform_update, resolvePlan, logging_warn, logging_error;
  cbv zeta; count_writes.

Lemma one_write_onPaymentSuccess :
  writes_at_most 1 (onPaymentSuccess ctx options event).
Proof. unfold onPaymentSuccess. count_handler. Qed.

Lemma one_write_onSubscriptionActivated :
  writes_at_most 1 (onSubscriptionActivated ctx options event).
Proof. unfold onSubscriptionActivated. count_handler. Qed.

Lemma one_write_onSubscriptionCharged :
  writes_at_most 1 (onSubscriptionCharged ctx options event).
Proof. unfold onSubscriptionCharged. count_handler. Qed.

Lemma one_write_dispatch c :
  c <> PaymentSuccess -> writes_at_most 1 (dispatch ctx options event c).
Proof.
  intros Hc.
  destruct c; try (exfalso; apply Hc; reflexivity);
    unfold dispatch, onMandateRevoked, onMandateModified,
      onPaymentFailure, onSubscriptionPending, onSubscriptionCancelled,
      onSubscriptionHalted, onSubscriptionCompleted, onSubscriptionPaused,
      onSubscriptionResumed; count_handler.
Qed.

Lemma two_writes_dispatch c : writes_at_most 2 (dispatch ctx options event c).
Proof.
  destruct (classification_eq_dec c PaymentSuccess) as [->|Hc].
  - change 2%nat with (1 + 1)%nat. unfold dispatch.
    apply writes_at_most_bind;
      [apply one_write_onPaymentSuccess
      |intros _; apply one_write_onSubscriptionActivated].
  - eapply writes_at_most_weaken; [apply (one_write_dispatch c Hc)|lia].
Qed.

Ltac as_table :=
  first [ exact I
        | split; [reflexivity|simpl; tauto] ].

Lemma writes_as_dispatch c : emits (writes_as c) (dispatch ctx options event c).
Proof.
  destruct c; unfold dispatch, onMandateRevoked, onMandateModified,
    onPaymentSuccess, onSubscriptionActivated, onPaymentFailure,
    onSubscriptionPending, onSubscriptionCancelled, onSubscriptionHalted,
    onSubscriptionCompleted, onSubscriptionPaused, onSubscriptionResumed;
    emits_walk as_table.
Qed.

End HandlerCounts.

Section WebhookWrites.
Context {W : Type} `{Clock W}.

Lemma webhook_cases (ctx : HookContext W) options body st :
  (exists b hash, body = Some b /\ verified options b hash)
  \/ exists err, webhook ctx options body st = (Throw err, st).
Proof.
  destruct body as [b|]; [|right; eexists; reflexivity].
  destruct (b !! "hash") as [hash|] eqn:Hh;
    [|right; unfold webhook; rewrite Hh; eexists; reflexivity].
  destruct (Js.truthy hash) eqn:Ht;
    [|right; unfold webhook; rewrite Hh, Ht; eexists; reflexivity].
  destruct (Utils.verifyPayUHash (webhookVerifyParams options b)
              (merchantSalt options) hash) eqn:Hv.
  - left. exists b, hash. split; [reflexivity|]. split; [exact Hh|].
    split; [|exact Hv]. intros ->. discriminate Ht.
  - right. unfold webhook. rewrite Hh, Ht. cbv zeta. rewrite Hv.
    eexists. reflexivity.
Qed.

Lemma webhook_journal (ctx : HookContext W) options b hash st :
  verified options b hash ->
  journal (webhook ctx options (Some b) st).2
  = journal (dispatch ctx options (webhookEvent b hash)
               (classify (b !! "notificationType") (b !! "status")) st).2.
Proof.
  intros Hver. rewrite (webhook_runs_dispatch ctx options b hash Hver).
  apply journal_bind_ret.
Qed.

(** X17. Whatever the body, the adapter and the callbacks, one call of the
    webhook endpoint makes at most two updates, and at most one unless the
    event is a payment success; every update is on one subscription,
    selected by its id, and sets [updatedAt]; every lookup is by transaction
    id or by id. The charged handler on its own makes at most one such
    update. *)
Theorem webhook_writes :
  forall (ctx : HookContext W) (options : PayUOptions W)
         (body : option (gmap string string)) (st : St W),
    (exists es,
       journal (webhook ctx options body st).2 = (journal st ++ es)%list
       /\ Forall well_aimed es
       /\ (List.length (updates es) <= 2)%nat
       /\ (forall b,
             body = Some b ->
             classify (b !! "notificationType") (b !! "status") <> PaymentSuccess ->
             (List.length (updates es) <= 1)%nat))
    /\ (forall event,
          exists es,
            journal (onSubscriptionCharged ctx options event st).2
            = (journal st ++ es)%list
            /\ Forall well_aimed es
            /\ (List.length (updates es) <= 1)%nat).
Proof.
  intros ctx options body st. split.
  2:{ intros event.
      destruct (well_aimed_charged ctx options event st) as (es & Hj & Haim).
      exists es. split; [exact Hj|]. split; [exact Haim|].
      destruct (one_write_onSubscriptionCharged ctx options event st)
        as (es1 & Hj1 & Hn).
      rewrite Hj in Hj1. apply app_inv_head in Hj1 as ->. exact Hn. }
  destruct (webhook_cases ctx options body st)
    as [(b & hash & -> & Hver)|(err & Hthrow)].
  - rewrite (webhook_journal ctx options b hash st Hver).
    set (event := webhookEvent b hash).
    set (c := classify (b !! "notificationType") (b !! "status")).
    destruct (well_aimed_dispatch ctx options event c st) as (es & Hj & Haim).
    exists es. split; [exact Hj|]. split; [exact Haim|]. split.
    + destruct (two_writes_dispatch ctx options event c st) as (es2 & Hj2 & Hn).
      rewrite Hj in Hj2. apply app_inv_head in Hj2 as ->. exact Hn.
    + intros b' [= <-] Hc.
      destruct (one_write_dispatch ctx options event c Hc st) as (es1 & Hj1 & Hn).
      rewrite Hj in Hj1. apply app_inv_head in Hj1 as ->. exact Hn.
  - exists []. rewrite Hthrow. simpl. rewrite app_nil_r.
    split; [reflexivity|]. split; [constructor|]. split; [lia|]. intros; lia.
Qed.

(** X18. The status and the set of fields that a verified event writes
    depend on its classification alone: every update the endpoint makes has
    the status of [statusWritten] and the field names of [fieldsWritten].
    No event writes [created], [authenticated] or [expired], and none
    writes the plan, the reference or the total count of a subscription. *)
Theorem webhook_update_fields :
  forall (ctx : HookContext W) (options : PayUOptions W)
         (body : gmap string string) (hash : string) (st : St W),
    verified options body hash ->
    (exists es,
       journal (webhook ctx options (Some body) st).2 = (journal st ++ es)%list
       /\ Forall (writes_as (classification (body !! "notificationType")
                                            (body !! "status")))
            es)
    /\ (forall c s,
          statusWritten c = Some s ->
          In s [active; pending; halted; cancelled; completed; paused])
    /\ (forall c fields,
          In fields (fieldsWritten c) ->
          ~ In "plan" fields /\ ~ In "referenceId" fields
          /\ ~ In "totalCount" fields).
Proof.
  intros ctx options body hash st Hver. split; [|split].
  - rewrite (webhook_journal ctx options body hash st Hver).
    rewrite <- classify_classification.
    apply writes_as_dispatch.
  - intros c s Hs. destruct c; simpl in Hs; try discriminate Hs;
      injection Hs as <-; simpl; tauto.
  - intros c fields Hin.
    destruct c; simpl in Hin;
      repeat (destruct Hin as [<-|Hin]; [|]); try contradiction;
      (repeat split; simpl; intros Hno;
       repeat (destruct Hno as [Hno|Hno]; [discriminate Hno|]); exact Hno).
Qed.

End WebhookWrites.

Section Unmatched.
Context {W : Type} `{Clock W}.
Variables (ctx : HookContext W) (options : PayUOptions W)
          (so : SubscriptionOptions.t W) (event : Event.t).
Hypothesis finds_nothing :
  forall q w, Adapter.findOne (adapter ctx) q w = (Ok None, w).
Hypothesis has_options : subscription options = Some so.
Hypothesis is_enabled : SubscriptionOptions.enabled so = true.

Lemma silent_handled build hk prefix :
  silent (handled ctx so event build hk prefix None).
Proof.
  intros st. unfold handled.
  destruct (sought_nothing ctx event finds_nothing st) as (es & -> & Hl).
  cbn [fst snd]. eexists _, es. split; [reflexivity|]. split; [reflexivity|exact Hl].
Qed.

Lemma warns_handled build hk prefix head :
  warns (Event.txnid event) (handled ctx so event build hk prefix (Some head)).
Proof.
  intros st. unfold handled.
  destruct (sought_nothing ctx event finds_nothing st) as (es & -> & Hl).
  cbn [fst snd]. eexists _, es, head. split; [reflexivity|].
  split; [|exact Hl]. cbn [record journal]. rewrite <- app_assoc. reflexivity.
Qed.

Lemma silent_onSubscriptionPending : silent (onSubscriptionPending ctx options event).
Proof.
  intros st. rewrite (onSubscriptionPending_handled ctx options so event
                        has_options is_enabled).
  apply silent_handled.
Qed.

Lemma silent_onSubscriptionHalted : silent (onSubscriptionHalted ctx options event).
Proof.
  intros st. rewrite (onSubscriptionHalted_handled ctx options so event
                        has_options is_enabled).
  apply silent_handled.
Qed.

Lemma silent_onSubscriptionCompleted : silent (onSubscriptionCompleted ctx options event).
Proof.
  intros st. rewrite (onSubscriptionCompleted_handled ctx options so event
                        has_options is_enabled).
  apply silent_handled.
Qed.

Lemma silent_onSubscriptionPaused : silent (onSubscriptionPaused ctx options event).
Proof.
  intros st. rewrite (onSubscriptionPaused_handled ctx options so event
                        has_options is_enabled).
  apply silent_handled.
Qed.

Lemma silent_onSubscriptionResumed : silent (onSubscriptionResumed ctx options event).
Proof.
  intros st. rewrite (onSubscriptionResumed_handled ctx options so event
                        has_options is_enabled).
  apply silent_handled.
Qed.

Lemma silent_onMandateRevoked : silent (onMandateRevoked ctx options event).
Proof.
  intros st. rewrite (onMandateRevoked_handled ctx options so event
                        has_options is_enabled).
  apply silent_handled.
Qed.

Lemma silent_onMandateModified : silent (onMandateModified ctx options event).
Proof.
  intros st. rewrite (onMandateModified_handled ctx options so event
                        has_options is_enabled).
  apply silent_handled.
Qed.

Lemma warns_onSubscriptionCancelled :
  warns (Event.txnid event) (onSubscriptionCancelled ctx options event).
Proof.
  intros st. rewrite (onSubscriptionCancelled_handled ctx options so event
                        has_options is_enabled).
  apply warns_handled.
Qed.

Lemma warns_onPaymentSuccess :
  Event.txnid event <> "" ->
  warns (Event.txnid event) (onPaymentSuccess ctx options event).
Proof.
  intros Htx st. rewrite (onPaymentSuccess_handled ctx options so event
                            has_options is_enabled st Htx).
  apply warns_handled.
Qed.

Lemma warns_onSubscriptionActivated :
  Event.txnid event <> "" ->
  warns (Event.txnid event) (onSubscriptionActivated ctx options event).
Proof.
  intros Htx st. rewrite (onSubscriptionActivated_handled ctx options so event
                            has_options is_enabled st Htx).
  apply warns_handled.
Qed.

Lemma warns_onSubscriptionCharged :
  Event.txnid event <> "" ->
  warns (Event.txnid event) (onSubscriptionCharged ctx options event).
Proof.
  intros Htx st. rewrite (onSubscriptionCharged_handled ctx options so event
                            has_options is_enabled st Htx).
  apply warns_handled.
Qed.

End Unmatched.

Section UnmatchedEvents.
Context {W : Type} `{Clock W}.

(** X19. When the adapter finds no subscription for an event, the
    cancelled, payment-success, activated and charged handlers end with a
    warning that names the transaction id; the pending, halted, completed,
    paused, resumed and the two mandate handlers return without a log line,
    so that the lookups are the only trace of the event. *)
Theorem unmatched_event_traces :
  forall (ctx : HookContext W) (options : PayUOptions W)
         (so : SubscriptionOptions.t W) (event : Event.t),
    (forall q w, Adapter.findOne (adapter ctx) q w = (Ok None, w)) ->
    subscription options = Some so ->
    SubscriptionOptions.enabled so = true ->
    (forall c,
       In c [MandateRevoked; MandateModified; SubscriptionPending;
             SubscriptionHalted; SubscriptionCompleted; SubscriptionPaused;
             SubscriptionResumed] ->
       silent (dispatch ctx options event c))
    /\ warns (Event.txnid event) (dispatch ctx options event SubscriptionCancelled)
    /\ (Event.txnid event <> "" ->
        warns (Event.txnid event) (onPaymentSuccess ctx options event)
        /\ warns (Event.txnid event) (onSubscriptionActivated ctx options event)
        /\ warns (Event.txnid event) (onSubscriptionCharged ctx options event)).
Proof.
  intros ctx options so event Hnone Hso Hen. split; [|split].
  - intros c Hc. simpl in Hc.
    destruct Hc as [<-|[<-|[<-|[<-|[<-|[<-|[<-|[]]]]]]]]; unfold dispatch.
    + exact (silent_onMandateRevoked ctx options so event Hnone Hso Hen).
    + exact (silent_onMandateModified ctx options so event Hnone Hso Hen).
    + exact (silent_onSubscriptionPending ctx options so event Hnone Hso Hen).
    + exact (silent_onSubscriptionHalted ctx options so event Hnone Hso Hen).
    + exact (silent_onSubscriptionCompleted ctx options so event Hnone Hso Hen).
    + exact (silent_onSubscriptionPaused ctx options so event Hnone Hso Hen).
    + exact (silent_onSubscriptionResumed ctx options so event Hnone Hso Hen).
  - exact (warns_onSubscriptionCancelled ctx options so event Hnone Hso Hen).
  - intros Htx. split; [|split].
    + exact (warns_onPaymentSuccess ctx options so event Hnone Hso Hen Htx).
    + exact (warns_onSubscriptionActivated ctx options so event Hnone Hso Hen Htx).
    + exact (warns_onSubscriptionCharged ctx options so event Hnone Hso Hen Htx).
Qed.

End UnmatchedEvents.

Section EveryHandler.
Context {W : Type} `{Clock W}.

(** X27. With subscriptions enabled every handler is its lookup, its
    update, the plan lookup and its callback, in that order, applied to
    the adapter, the plan function and the callback themselves. What one
    of them throws ends the handler in its catch block: [logger.error] is
    given the prefix of the handler and the text of the thrown value
    (nothing after the prefix for the error of [createAPIError]), and the
    handler returns; a thrown value without a string conversion makes the
    catch block throw instead. *)
Theorem handlers_call_by_call :
  forall (ctx : HookContext W) (options : PayUOptions W)
         (so : SubscriptionOptions.t W) (event : Event.t) (st : St W),
    subscription options = Some so ->
    SubscriptionOptions.enabled so = true ->
    onSubscriptionPending ctx options event st
    = handled ctx so event
        (fun sub w => (statusUpdate "pending" sub (reading w), tick w))
        OnSubscriptionPending "PayU onSubscriptionPending error: " None st
    /\ onSubscriptionHalted ctx options event st
       = handled ctx so event
           (fun sub w => (statusUpdate "halted" sub (reading w), tick w))
           OnSubscriptionHalted "PayU onSubscriptionHalted error: " None st
    /\ onSubscriptionCompleted ctx options event st
       = handled ctx so event
           (fun sub w => (completedUpdate sub w, tick (tick w)))
           OnSubscriptionCompleted "PayU onSubscriptionCompleted error: " None st
    /\ onSubscriptionCancelled ctx options event st
       = handled ctx so event
           (fun sub w => (cancelledUpdate sub w, tick (tick (tick w))))
           OnSubscriptionCancelled "PayU onSubscriptionCancelled error: "
           (Some "PayU: subscription cancelled for txnid ") st
    /\ onSubscriptionPaused ctx options event st
       = handled ctx so event
           (fun sub w => (pausedUpdate sub w, tick (tick w)))
           OnSubscriptionPaused "PayU onSubscriptionPaused error: " None st
    /\ onSubscriptionResumed ctx options event st
       = handled ctx so event
           (fun sub w => (resumedUpdate sub w, tick w))
           OnSubscriptionResumed "PayU onSubscriptionResumed error: " None st
    /\ onMandateRevoked ctx options event st
       = handled ctx so event
           (fun sub w => (cancelledUpdate sub w, tick (tick (tick w))))
           OnMandateRevoked "PayU onMandateRevoked error: " None st
    /\ onMandateModified ctx options event st
       = handled ctx so event
           (fun sub w => (modifiedUpdate sub (reading w), tick w))
           OnMandateModified "PayU onMandateModified error: " None st
    /\ onPaymentFailure ctx options event st = failure_handled ctx so event st
    /\ (Event.txnid event <> "" ->
        onPaymentSuccess ctx options event st
        = handled ctx so event
            (fun sub w => (paymentSuccessUpdate sub event (reading w), tick w))
            OnPaymentSuccess "PayU onPaymentSuccess error: "
            (Some "PayU: payment success for txnid ") st
        /\ onSubscriptionActivated ctx options event st
           = handled ctx so event
               (fun sub w => (activatedUpdate sub event w, tick (tick w)))
               OnSubscriptionActivated "PayU onSubscriptionActivated error: "
               (Some "PayU: subscription activated for txnid ") st
        /\ onSubscriptionCharged ctx options event st
           = handled ctx so event
               (fun sub w => (chargedUpdate sub event (reading w), tick w))
               OnSubscriptionCharged "PayU onSubscriptionCharged error: "
               (Some "PayU: subscription charged for txnid ") st)
    /\ (forall prefix err text st',
          printed err = Some text ->
          caught ctx prefix err st'
          = (Ok tt,
             record (CError (prefix +:+ text)) None
                    (Logger.error (logger ctx) (prefix +:+ text) (world st')) st'))
    /\ (forall prefix inner st',
          caught ctx prefix (ThrownUnprintable inner) st' = (Throw inner, st')).
Proof.
  intros ctx options so event st Hso Hen.
  split; [apply (onSubscriptionPending_handled ctx options so event Hso Hen)|].
  split; [apply (onSubscriptionHalted_handled ctx options so event Hso Hen)|].
  split; [apply (onSubscriptionCompleted_handled ctx options so event Hso Hen)|].
  split; [apply (onSubscriptionCancelled_handled ctx options so event Hso Hen)|].
  split; [apply (onSubscriptionPaused_handled ctx options so event Hso Hen)|].
  split; [apply (onSubscriptionResumed_handled ctx options so event Hso Hen)|].
  split; [apply (onMandateRevoked_handled ctx options so event Hso Hen)|].
  split; [apply (onMandateModified_handled ctx options so event Hso Hen)|].
  split; [apply (onPaymentFailure_handled ctx options so event Hso Hen)|].
  split; [|split].
  - intros Htx.
    split; [apply (onPaymentSuccess_handled ctx options so event Hso Hen st Htx)|].
    split; [apply (onSubscriptionActivated_handled ctx options so event Hso Hen st Htx)|].
    apply (onSubscriptionCharged_handled ctx options so event Hso Hen st Htx).
  - intros prefix err text st' Hp.
    destruct err; try discriminate Hp; injection Hp as <-; cbn [caught];
      rewrite ?append_empty_r; reflexivity.
  - reflexivity.
Qed.

End EveryHandler.

(* ================================================================== *)
(** * Properties of the middleware                                     *)
(* ================================================================== *)

Section MiddlewareFacts.
Context {W : Type} `{Clock W}.

Lemma referenceMiddleware_signed_out (options : RouteOptions W) ctx st :
  ep_user ctx = None ->
  referenceMiddleware options ctx st = (Throw unauthorized, st).
Proof.
  intros Hu. unfold referenceMiddleware, payuSessionMiddleware, bind.
  rewrite Hu. reflexivity.
Qed.

Lemma referenceMiddleware_forbidden (options : RouteOptions W) ctx user st :
  ep_user ctx = Some user ->
  requested ctx user <> user_id user ->
  organizationsEnabled options = false ->
  referenceMiddleware options ctx st = (Throw forbidden, st).
Proof.
  intros Hu Hne Hoff.
  unfold referenceMiddleware, payuSessionMiddleware, bind, await, ret, throw.
  rewrite Hu. cbv beta iota zeta.
  change (match ep_body_referenceId ctx with
          | Some r => r
          | None => match ep_query_referenceId ctx with
                    | Some r => r
                    | None => user_id user
                    end
          end) with (requested ctx user).
  destruct (String.eqb (requested ctx user) (user_id user)) eqn:E.
  - apply String.eqb_eq in E. contradiction.
  - unfold organizationsEnabled in Hoff.
    destruct (organization options) as [org|]; [|reflexivity].
    rewrite Hoff. reflexivity.
Qed.

(** X20. Without a signed-in user the reference middleware and the pause,
    resume and plan routes throw the unauthorized error before anything
    else: no lookup, no update, no call of [authorizeReference]. *)
Theorem signed_out_requests_rejected :
  forall (options : RouteOptions W) (ctx : EndpointContext W)
         (planId : string) (st : St W),
    ep_user ctx = None ->
    referenceMiddleware options ctx st = (Throw unauthorized, st)
    /\ pauseSubscription options ctx st = (Throw unauthorized, st)
    /\ resumeSubscription options ctx st = (Throw unauthorized, st)
    /\ listPlans options ctx st = (Throw unauthorized, st)
    /\ getPlan options ctx planId st = (Throw unauthorized, st).
Proof.
  intros options ctx planId st Hu.
  pose proof (referenceMiddleware_signed_out options ctx st Hu) as Href.
  split; [exact Href|].
  unfold pauseSubscription, resumeSubscription, listPlans, getPlan, bind.
  rewrite Href. unfold payuSessionMiddleware. rewrite Hu.
  repeat split.
Qed.

(** X21. For a signed-in user the reference middleware never touches the
    journal. The user's own id, also when no reference is given, is accepted
    as a user reference without consulting [authorizeReference]. Any other
    reference is forbidden unless organizations are enabled; then it is
    accepted as it stands when no [authorizeReference] is configured, and
    otherwise exactly when that function, asked for the action
    [list-subscriptions], returns true. *)
Theorem referenceMiddleware_outcomes :
  forall (options : RouteOptions W) (ctx : EndpointContext W) (user : User)
         (st : St W),
    ep_user ctx = Some user ->
    let referenceId := requested ctx user in
    let outcome := referenceMiddleware options ctx st in
    journal outcome.2 = journal st
    /\ (referenceId = user_id user -> outcome = (Ok (asUser user), st))
    /\ (referenceId <> user_id user ->
        organizationsEnabled options = false ->
        outcome = (Throw forbidden, st))
    /\ (referenceId <> user_id user ->
        forall org,
          organization options = Some org -> org_enabled org = true ->
          match authorizeReference org with
          | None => outcome = (Ok (asOrganization referenceId user), st)
          | Some authorize =>
              let answer := authorize (authorization referenceId user) (world st) in
              outcome =
              (match answer.1 with
               | Ok true => Ok (asOrganization referenceId user)
               | Ok false => Throw forbidden
               | Throw err => Throw err
               end, moved answer.2 st)
          end).
Proof.
  intros options ctx user st Hu. cbv zeta.
  unfold referenceMiddleware, payuSessionMiddleware, bind, await, ret, throw.
  rewrite Hu. cbv beta iota zeta.
  change (match ep_body_referenceId ctx with
          | Some r => r
          | None => match ep_query_referenceId ctx with
                    | Some r => r
                    | None => user_id user
                    end
          end) with (requested ctx user).
  unfold organizationsEnabled, authorization.
  destruct (String.eqb (requested ctx user) (user_id user)) eqn:E.
  - apply String.eqb_eq in E. split; [reflexivity|].
    split; [intros _; unfold asUser; rewrite <- E; reflexivity|].
    split; intros Hne; contradiction.
  - assert (Hne : requested ctx user <> user_id user).
    { intros Heq. rewrite Heq, String.eqb_refl in E. discriminate. }
    destruct (organization options) as [org|].
    2:{ split; [reflexivity|]. split; [intros Heq; contradiction|].
        split; [reflexivity|]. intros _ org [=]. }
    destruct (org_enabled org) eqn:Hen.
    2:{ split; [reflexivity|]. split; [intros Heq; contradiction|].
        split; [reflexivity|]. intros _ org' [= <-] Hen'. congruence. }
    destruct (authorizeReference org) as [authorize|] eqn:Hauth.
    + destruct (authorize _ (world st)) as [[[|]|err] w] eqn:Hans;
        cbn [negb fst snd journal];
        (split; [reflexivity|]); (split; [intros Heq; contradiction|]);
        (split; [discriminate|]);
        intros _ org' [= <-] _; rewrite Hauth, Hans; reflexivity.
    + split; [reflexivity|]. split; [intros Heq; contradiction|].
      split; [discriminate|].
      intros _ org' [= <-] _. rewrite Hauth. reflexivity.
Qed.

End MiddlewareFacts.

(* ================================================================== *)
(** * Properties of the pause and resume routes and of the deletion hook *)
(* ================================================================== *)

Section RouteFacts.
Context {W : Type} `{Clock W}.

Lemma perform_findOne_returns (a : Adapter.t W) q st found w :
  Adapter.findOne a q (world st) = (Ok found, w) ->
  perform_findOne a q st = (Ok found, record (CFindOne q) None w st).
Proof. intros Hf. unfold perform_findOne, perform. rewrite Hf. reflexivity. Qed.

(** X22. Once the reference is accepted and the lookup of an active
    subscription of that reference has returned, [pauseSubscription] throws
    not-found when nothing was returned and not-active when the record
    returned is not active, a paused record included: the already-paused
    error is never reached. On an active record it makes the one update
    [pausedUpdate] and answers success when that update returns. *)
Theorem pauseSubscription_outcomes :
  forall (options : RouteOptions W) (ctx : EndpointContext W)
         (ref : Reference) (found : option Subscription.t)
         (st st1 : St W) (w : W),
    referenceMiddleware options ctx st = (Ok ref, st1) ->
    Adapter.findOne (ep_adapter ctx)
      (byReferenceAndStatus (ref_referenceId ref) "active") (world st1)
    = (Ok found, w) ->
    let st2 :=
      record (CFindOne (byReferenceAndStatus (ref_referenceId ref) "active"))
             None w st1 in
    let outcome := pauseSubscription options ctx st in
    match found with
    | None => outcome = (Throw subscriptionNotFound, st2)
    | Some sub =>
        (Subscription.status sub <> active -> outcome = (Throw notActive, st2))
        /\ (Subscription.status sub = paused -> outcome <> (Throw alreadyPaused, st2))
        /\ (Subscription.status sub = active ->
            let written :=
              Adapter.update (ep_adapter ctx) (pausedUpdate sub w) (tick (tick w)) in
            outcome =
            (match written.1 with
             | Ok _ => Ok {| success := true |}
             | Throw err => Throw err
             end,
             record (CUpdate (pausedUpdate sub w)) (raised_by written.1)
                    written.2 st2))
    end.
Proof.
  intros options ctx ref found st st1 w Href Hfind. cbv zeta.
  unfold pauseSubscription.
  rewrite (bind_returns _ _ _ _ _ Href).
  rewrite (bind_returns _ _ _ _ _
             (perform_findOne_returns _ _ _ _ _ Hfind)).
  destruct found as [sub|]; [|reflexivity].
  destruct (Subscription.status sub) eqn:Hs; cbn [Utils.isActive Utils.isPaused negb];
    (split; [first [reflexivity|intros Hne; contradiction]|]);
    (split; [first [discriminate|intros _; discriminate]|]);
    try discriminate.
  intros _. unfold perform_update, bind, now, perform, ret, record, pausedUpdate,
    reading, tick.
  cbn [world journal].
  destruct (newDate w) as [d1 w1]. cbn [fst snd world journal].
  destruct (newDate w1) as [d2 w2]. cbn [fst snd world journal].
  destruct (Adapter.update (ep_adapter ctx) _ w2) as [[[]|err] w3];
    reflexivity.
Qed.

(** X23. Once the reference is accepted and the lookup of a paused
    subscription of that reference has returned, [resumeSubscription]
    throws not-found when nothing was returned and not-paused when the
    record returned is not paused; on a paused record it makes the one
    update [resumedUpdate], which sets the status to active and clears
    [pausedAt], and answers success when that update returns. *)
Theorem resumeSubscription_outcomes :
  forall (options : RouteOptions W) (ctx : EndpointContext W)
         (ref : Reference) (found : option Subscription.t)
         (st st1 : St W) (w : W),
    referenceMiddleware options ctx st = (Ok ref, st1) ->
    Adapter.findOne (ep_adapter ctx)
      (byReferenceAndStatus (ref_referenceId ref) "paused") (world st1)
    = (Ok found, w) ->
    let st2 :=
      record (CFindOne (byReferenceAndStatus (ref_referenceId ref) "paused"))
             None w st1 in
    let outcome := resumeSubscription options ctx st in
    match found with
    | None => outcome = (Throw subscriptionNotFound, st2)
    | Some sub =>
        (Subscription.status sub <> paused -> outcome = (Throw notPaused, st2))
        /\ (Subscription.status sub = paused ->
            let written :=
              Adapter.update (ep_adapter ctx) (resumedUpdate sub w) (tick w) in
            outcome =
            (match written.1 with
             | Ok _ => Ok {| success := true |}
             | Throw err => Throw err
             end,
             record (CUpdate (resumedUpdate sub w)) (raised_by written.1)
                    written.2 st2))
    end.
Proof.
  intros options ctx ref found st st1 w Href Hfind. cbv zeta.
  unfold resumeSubscription.
  rewrite (bind_returns _ _ _ _ _ Href).
  rewrite (bind_returns _ _ _ _ _
             (perform_findOne_returns _ _ _ _ _ Hfind)).
  destruct found as [sub|]; [|reflexivity].
  destruct (Subscription.status sub) eqn:Hs; cbn [Utils.isPaused negb];
    (split; [first [reflexivity|intros Hne; contradiction]|]);
    try discriminate.
  intros _. unfold perform_update, bind, now, perform, ret, record, resumedUpdate,
    reading, tick.
  cbn [world journal].
  destruct (newDate w) as [d1 w1]. cbn [fst snd world journal].
  destruct (Adapter.update (ep_adapter ctx) _ w1) as [[[]|err] w3];
    reflexivity.
Qed.

(** X24. The webhook handlers of a paused and of a resumed subscription
    hand the adapter the same updates as the pause and the resume routes:
    [pausedUpdate] and [resumedUpdate] of the subscription found, read at
    the world the lookup left; when the update returns they notify the
    callback, and what the update throws is caught. *)
Theorem webhook_pause_resume_as_routes :
  forall (ctx : HookContext W) (options : PayUOptions W)
         (so : SubscriptionOptions.t W) (event : Event.t)
         (sub : Subscription.t) (st st1 : St W),
    subscription options = Some so ->
    SubscriptionOptions.enabled so = true ->
    findSubscription (adapter ctx) event st = (Ok (Some sub), st1) ->
    let w := world st1 in
    let pausing :=
      Adapter.update (adapter ctx) (pausedUpdate sub w) (tick (tick w)) in
    let resuming :=
      Adapter.update (adapter ctx) (resumedUpdate sub w) (tick w) in
    let after_pausing :=
      record (CUpdate (pausedUpdate sub w)) (raised_by pausing.1) pausing.2 st1 in
    let after_resuming :=
      record (CUpdate (resumedUpdate sub w)) (raised_by resuming.1) resuming.2 st1 in
    onSubscriptionPaused ctx options event st
    = match pausing.1 with
      | Ok _ =>
          notified ctx so sub event OnSubscriptionPaused
            "PayU onSubscriptionPaused error: " after_pausing
      | Throw err => caught ctx "PayU onSubscriptionPaused error: " err after_pausing
      end
    /\ onSubscriptionResumed ctx options event st
       = match resuming.1 with
         | Ok _ =>
             notified ctx so sub event OnSubscriptionResumed
               "PayU onSubscriptionResumed error: " after_resuming
         | Throw err =>
             caught ctx "PayU onSubscriptionResumed error: " err after_resuming
         end.
Proof.
  intros ctx options so event sub st st1 Hso Hen Hfind. cbv zeta. split.
  - rewrite (onSubscriptionPaused_handled ctx options so event Hso Hen st).
    rewrite (handled_found ctx so event _ _ _ _ st sub st1 Hfind). reflexivity.
  - rewrite (onSubscriptionResumed_handled ctx options so event Hso Hen st).
    rewrite (handled_found ctx so event _ _ _ _ st sub st1 Hfind). reflexivity.
Qed.

(** X25. The organization deletion hook looks up one subscription of the
    organization and blocks the deletion exactly when the record returned
    is active; a record in any other status, authenticated or paused
    included, lets it pass. It writes nothing. A hook that was installed
    before runs first, and when it throws the lookup is not made. *)
Theorem beforeDeleteOrganization_outcomes :
  forall (existing : option (string -> Action W unit)) (a : Adapter.t W)
         (organizationId : string) (st : St W),
    (forall found w,
       Adapter.findOne a (byReference organizationId) (world st) = (Ok found, w) ->
       beforeDeletePayUOrg a organizationId st
       = (match found with
          | Some sub =>
              if Utils.isActive (Subscription.status sub)
              then Throw organizationHasSubscription else Ok tt
          | None => Ok tt
          end,
          record (CFindOne (byReference organizationId)) None w st))
    /\ (existing = None ->
        beforeDeleteOrganization existing a organizationId st
        = beforeDeletePayUOrg a organizationId st)
    /\ (forall hook w,
          existing = Some hook ->
          (forall err,
             hook organizationId (world st) = (Throw err, w) ->
             beforeDeleteOrganization existing a organizationId st
             = (Throw err, moved w st))
          /\ (hook organizationId (world st) = (Ok tt, w) ->
              beforeDeleteOrganization existing a organizationId st
              = beforeDeletePayUOrg a organizationId (moved w st))).
Proof.
  intros existing a organizationId st. split; [|split].
  - intros found w Hfind. unfold beforeDeletePayUOrg.
    rewrite (bind_returns _ _ _ _ _
               (perform_findOne_returns _ _ _ _ _ Hfind)).
    destruct found as [sub|]; [|reflexivity].
    destruct (Utils.isActive (Subscription.status sub)); reflexivity.
  - intros ->. reflexivity.
  - intros hook w ->. unfold beforeDeleteOrganization, bind, await. split.
    + intros err Hhook. rewrite Hhook. reflexivity.
    + intros Hhook. rewrite Hhook. reflexivity.
Qed.

End RouteFacts.

Section ReadRoutes.
Context {W : Type} `{Clock W}.

(** X26. [getSubscription] returns the record that the adapter finds by the
    id asked, for every signed-in user: the lookup has no clause on the
    reference, and the owner of the record is not compared with the user.
    [listSubscriptions] goes through the reference middleware: it refuses a
    reference that is not the user's own when organizations are off, and it
    returns at most one record. *)
Theorem subscription_reads :
  forall (options : RouteOptions W) (ctx : EndpointContext W) (user : User)
         (subscriptionId : string) (st : St W),
    ep_user ctx = Some user ->
    (forall found w,
       Adapter.findOne (ep_adapter ctx) (bySubscriptionId subscriptionId) (world st)
       = (Ok found, w) ->
       getSubscription ctx subscriptionId st
       = (match found with
          | Some sub => Ok {| subscription_json := sub |}
          | None => Throw subscriptionNotFound
          end,
          record (CFindOne (bySubscriptionId subscriptionId)) None w st))
    /\ (forall r st',
          listSubscriptions options ctx st = (Ok r, st') ->
          (List.length (subscriptions_json r) <= 1)%nat)
    /\ (requested ctx user <> user_id user ->
        organizationsEnabled options = false ->
        listSubscriptions options ctx st = (Throw forbidden, st)).
Proof.
  intros options ctx user subscriptionId st Hu. split; [|split].
  - intros found w Hfind. unfold getSubscription, payuSessionMiddleware.
    rewrite Hu. unfold bind at 1. cbn [ret].
    rewrite (bind_returns _ _ _ _ _
               (perform_findOne_returns _ _ _ _ _ Hfind)).
    destruct found; reflexivity.
  - intros r st' Hlist. unfold listSubscriptions, bind, ret in Hlist.
    destruct (referenceMiddleware options ctx st) as [[ref|err] st1];
      [|discriminate Hlist].
    destruct (perform_findOne _ _ st1) as [[[sub|]|err] st2];
      try discriminate Hlist; injection Hlist as <- _; simpl; lia.
  - intros Hne Hoff.
    pose proof (referenceMiddleware_forbidden options ctx user st Hu Hne Hoff) as Href.
    unfold listSubscriptions, bind. rewrite Href. reflexivity.
Qed.

End ReadRoutes.

(* ================================================================== *)
(** * The further properties on the scenarios                          *)
(* ================================================================== *)

Section OnRequests.

Lemma findSubscriptionByUdf_of_set_witness :
  findSubscriptionByUdf Mem.memAdapter (Scenario.withUdf4 "sub_456" Scenario.event)
  = perform (CFindOne (bySubscriptionId "sub_456"))
            (Adapter.findOne Mem.memAdapter (bySubscriptionId "sub_456")).
Proof.
  refine (findSubscriptionByUdf_of_set Mem.memAdapter
            (Scenario.withUdf4 "sub_456" Scenario.event)
            Requests.otherFields None _).
  vm_compute. reflexivity.
Defined.

Lemma plan_endpoints_when_disabled_witness :
  listPlans Requests.disabledRouteOptions (Requests.signedIn Mem.memAdapter)
    (Mem.start [] 5000)
  = (Ok {| plans_json := [] |}, Mem.start [] 5000)
  /\ getPlan Requests.disabledRouteOptions (Requests.signedIn Mem.memAdapter)
       "plan_monthly" (Mem.start [] 5000)
     = (Throw notEnabled, Mem.start [] 5000)
  /\ getPlanByName Requests.disabledOptions "plan_monthly" (Mem.start [] 5000)
     = (Throw notEnabled, Mem.start [] 5000).
Proof.
  apply (plan_endpoints_when_disabled Requests.disabledRouteOptions
           (Requests.signedIn Mem.memAdapter) Requests.alice "plan_monthly"
           (Mem.start [] 5000)); reflexivity.
Defined.

(** The plan named with a capital E acute is found when asked with the
    small letter. *)
Lemma getPlanByName_first_match_witness :
  let asked := String (Utf8.char 195) (String (Utf8.char 169) "cole") in
  getPlanByName Scenario.ecoleOptions asked (Mem.start [] 5000)
  = (Ok (Some Scenario.ecolePlan), Mem.start [] 5000)
  /\ Plan.name Scenario.ecolePlan <> asked
  /\ same_letters (Plan.name Scenario.ecolePlan) asked.
Proof.
  intros asked.
  assert (E : getPlanByName Scenario.ecoleOptions asked (Mem.start [] 5000)
              = (Ok (Some Scenario.ecolePlan), Mem.start [] 5000))
    by (vm_compute; reflexivity).
  split; [exact E|]. split; [discriminate|].
  destruct (getPlanByName_first_match Scenario.ecoleOptions
              (SubscriptionOptions.mk true
                 (Some (PlansArray [Scenario.monthlyPlan; Scenario.ecolePlan]))
                 None None None None None None None None None None None None)
              [Scenario.monthlyPlan; Scenario.ecolePlan] asked (Mem.start [] 5000)
              eq_refl eq_refl eq_refl) as ((r & Hr & Hm) & _).
  rewrite E in Hr. injection Hr as <-.
  destruct Hm as (l1 & l2 & _ & Hs & _). exact Hs.
Defined.

Lemma stored_plan_resolves_witness :
  getPlanByName Scenario.options "MONTHLY" (Mem.start [] 5000)
  = (Ok (Some Scenario.monthlyPlan), Mem.start [] 5000)
  /\ resolvePlan Scenario.subscriptionOptions Scenario.monthly (Mem.start [] 5000)
     = (Ok (Some Scenario.monthlyPlan), Mem.start [] 5000).
Proof.
  split; [reflexivity|].
  apply (stored_plan_resolves Scenario.options Scenario.subscriptionOptions
           [Scenario.monthlyPlan] "MONTHLY" Scenario.monthlyPlan Scenario.monthly
           (Mem.start [] 5000) (Mem.start [] 5000)); reflexivity.
Defined.

Lemma getPlanByPlanId_either_id_witness :
  exists r,
    getPlanByPlanId Scenario.options "plan_monthly" (Mem.start [] 5000)
    = (Ok r, Mem.start [] 5000).
Proof.
  destruct (getPlanByPlanId_either_id Scenario.options Scenario.subscriptionOptions
              [Scenario.monthlyPlan] "plan_monthly" (Mem.start [] 5000)
              eq_refl eq_refl eq_refl) as (r & H1 & _).
  exists r. exact H1.
Defined.

Lemma successBody_verified_when_disabled :
  verified Requests.disabledOptions Scenario.successBody Scenario.successHash.
Proof.
  split; [vm_compute; reflexivity|]. split; [discriminate|].
  vm_compute. reflexivity.
Qed.

Lemma disabled_subscriptions_ignore_events_witness :
  webhook Mem.ctx Requests.disabledOptions (Some Scenario.successBody)
    (Mem.start [Scenario.monthly] 5000)
  = (Ok {| success := true |}, Mem.start [Scenario.monthly] 5000).
Proof.
  apply (disabled_subscriptions_ignore_events Mem.ctx Requests.disabledOptions
           Scenario.event Scenario.successBody Scenario.successHash
           (Mem.start [Scenario.monthly] 5000) eq_refl).
  exact successBody_verified_when_disabled.
Defined.

Lemma mihpayid_not_hashed : ~ In "mihpayid" hashedFields.
Proof.
  simpl. intros Hin.
  repeat (destruct Hin as [Hin|Hin]; [discriminate Hin|]). exact Hin.
Qed.

Lemma verified_ignores_unhashed_fields_witness :
  verified Scenario.options (<["mihpayid" := "forged"]> Scenario.successBody)
    Scenario.successHash.
Proof.
  apply (verified_ignores_unhashed_fields Scenario.options Scenario.successBody
           Scenario.successHash "mihpayid" "forged" mihpayid_not_hashed
           successBody_verified).
Defined.

Lemma webhook_update_fields_witness :
  exists es,
    journal (webhook Mem.ctx Scenario.options (Some Scenario.kelvinBody)
               (Mem.start [Scenario.monthly] 5000)).2
    = (journal (Mem.start [Scenario.monthly] 5000) ++ es)%list
    /\ Forall (writes_as MandateRevoked) es.
Proof.
  exact (proj1 (webhook_update_fields Mem.ctx Scenario.options Scenario.kelvinBody
                  Scenario.revokedHash (Mem.start [Scenario.monthly] 5000)
                  kelvinBody_verified)).
Defined.

(** A failure event with a payment-failure callback that throws a value
    without a string conversion: the third case. *)
Lemma webhook_outcomes_witness :
  exists err st',
    webhook Mem.ctx Scenario.throwingOptions (Some Scenario.failureBody)
      (Mem.start [] 5000) = (Throw err, st')
    /\ exists es c,
         journal st'
         = (es ++ [{| call := c; raised := Some (ThrownUnprintable err) |}])%list.
Proof.
  pose proof (webhook_outcomes Mem.ctx Scenario.throwingOptions
                (Some Scenario.failureBody) (Mem.start [] 5000)) as Hw.
  destruct (webhook Mem.ctx Scenario.throwingOptions (Some Scenario.failureBody)
              (Mem.start [] 5000)) as [[r|err] st'] eqn:E.
  - vm_compute in E. discriminate E.
  - exists err, st'. split; [reflexivity|].
    destruct Hw as [(_ & Herr & _)|[(_ & Herr & _)|(b & hash & es & c & _ & _ & Hj & _)]].
    + vm_compute in E. injection E as <- _. discriminate Herr.
    + vm_compute in E. injection E as <- _. discriminate Herr.
    + exists es, c. exact Hj.
Defined.

(** The database is down: the lookup of the pending handler throws, the
    error is handed to the logger with the prefix of the handler, and the
    handler returns. *)
Lemma handlers_call_by_call_witness :
  onSubscriptionPending Scenario.brokenCtx Scenario.options Scenario.event
    (Mem.start [] 5000)
  = (Ok tt,
     {| world := world (Mem.start [] 5000);
        journal :=
          [ {| call := CFindOne (byTransactionId "txn_123");
               raised := Some (ThrownError "DB error") |};
            {| call := CError "PayU onSubscriptionPending error: DB error";
               raised := None |} ] |}).
Proof.
  destruct (handlers_call_by_call Scenario.brokenCtx Scenario.options
              Scenario.subscriptionOptions Scenario.event (Mem.start [] 5000)
              eq_refl eq_refl) as (Hpending & _).
  rewrite Hpending. reflexivity.
Defined.

Lemma unmatched_event_traces_witness :
  silent (dispatch Requests.lostCtx Scenario.options Scenario.event SubscriptionPaused)
  /\ warns "txn_123" (onPaymentSuccess Requests.lostCtx Scenario.options Scenario.event).
Proof.
  destruct (unmatched_event_traces Requests.lostCtx Scenario.options
              Scenario.subscriptionOptions Scenario.event
              (fun _ _ => eq_refl) eq_refl eq_refl) as (Hsilent & _ & Hwarns).
  split.
  - apply Hsilent. simpl. tauto.
  - apply Hwarns. discriminate.
Defined.

Lemma signed_out_requests_rejected_witness :
  pauseSubscription Requests.routeOptions Requests.signedOut (Mem.start [] 5000)
  = (Throw unauthorized, Mem.start [] 5000).
Proof.
  apply (signed_out_requests_rejected Requests.routeOptions Requests.signedOut
           "plan_monthly" (Mem.start [] 5000) eq_refl).
Defined.

Lemma referenceMiddleware_outcomes_witness :
  referenceMiddleware Requests.openOrganizations Requests.forOrganization
    (Mem.start [] 5000)
  = (Ok (asOrganization "org_1" Requests.alice), Mem.start [] 5000)
  /\ referenceMiddleware Requests.routeOptions Requests.forOrganization
       (Mem.start [] 5000)
     = (Throw forbidden, Mem.start [] 5000).
Proof.
  split.
  - pose proof (referenceMiddleware_outcomes Requests.openOrganizations
                  Requests.forOrganization Requests.alice (Mem.start [] 5000)
                  eq_refl) as Hw.
    cbv zeta in Hw. destruct Hw as (_ & _ & _ & Horg).
    refine (Horg _ _ eq_refl eq_refl). discriminate.
  - pose proof (referenceMiddleware_outcomes Requests.routeOptions
                  Requests.forOrganization Requests.alice (Mem.start [] 5000)
                  eq_refl) as Hw.
    cbv zeta in Hw. destruct Hw as (_ & _ & Hoff & _).
    refine (Hoff _ eq_refl). discriminate.
Defined.

Lemma pauseSubscription_outcomes_witness :
  pauseSubscription Requests.routeOptions
    (Requests.signedIn (Requests.holding Requests.pausedRecord)) (Mem.start [] 5000)
  = (Throw notActive,
     record (CFindOne (byReferenceAndStatus "user_123" "active")) None
            (world (Mem.start [] 5000)) (Mem.start [] 5000)).
Proof.
  pose proof (pauseSubscription_outcomes Requests.routeOptions
                (Requests.signedIn (Requests.holding Requests.pausedRecord))
                (asUser Requests.alice) (Some Requests.pausedRecord)
                (Mem.start [] 5000) (Mem.start [] 5000)
                (world (Mem.start [] 5000)) eq_refl eq_refl) as Hw.
  cbv zeta in Hw. destruct Hw as (Hnot & _).
  apply Hnot. discriminate.
Defined.

Lemma resumeSubscription_outcomes_witness :
  (resumeSubscription Requests.routeOptions
     (Requests.signedIn (Requests.holding Requests.pausedRecord))
     (Mem.start [Requests.pausedRecord] 5000)).1
  = Ok {| success := true |}.
Proof.
  pose proof (resumeSubscription_outcomes Requests.routeOptions
                (Requests.signedIn (Requests.holding Requests.pausedRecord))
                (asUser Requests.alice) (Some Requests.pausedRecord)
                (Mem.start [Requests.pausedRecord] 5000)
                (Mem.start [Requests.pausedRecord] 5000)
                (world (Mem.start [Requests.pausedRecord] 5000))
                eq_refl eq_refl) as Hw.
  cbv zeta in Hw. destruct Hw as (_ & Hpaused).
  rewrite (Hpaused eq_refl). reflexivity.
Defined.

Lemma subscription_reads_witness :
  getSubscription (Requests.signedIn Mem.memAdapter) "sub_456"
    (Mem.start [Scenario.monthly; Scenario.other] 5000)
  = (Ok {| subscription_json := Scenario.other |},
     record (CFindOne (bySubscriptionId "sub_456")) None
            (world (Mem.start [Scenario.monthly; Scenario.other] 5000))
            (Mem.start [Scenario.monthly; Scenario.other] 5000)).
Proof.
  destruct (subscription_reads Requests.routeOptions
              (Requests.signedIn Mem.memAdapter) Requests.alice "sub_456"
              (Mem.start [Scenario.monthly; Scenario.other] 5000) eq_refl)
    as (Hget & _).
  exact (Hget (Some Scenario.other) _ eq_refl).
Defined.

(** On [monthly] the paused handler leaves the record paused at the
    clock reading 5000. *)
Lemma webhook_pause_resume_as_routes_witness :
  let st := Mem.start [Scenario.monthly] 5000 in
  (fun s => (Subscription.status s, Subscription.pausedAt s))
    <$> Mem.db (world (onSubscriptionPaused Mem.ctx Scenario.options
                         Scenario.event st).2)
  = [(paused, Some 5000)]
  /\ (fun s => (Subscription.status s, Subscription.pausedAt s))
       <$> Mem.db (world (onSubscriptionResumed Mem.ctx Scenario.options
                            Scenario.event st).2)
     = [(active, None)].
Proof.
  intros st.
  pose proof (webhook_pause_resume_as_routes Mem.ctx Scenario.options
                Scenario.subscriptionOptions Scenario.event Scenario.monthly
                st (found st) eq_refl eq_refl monthly_found) as Hw.
  cbv zeta in Hw. destruct Hw as [Hp Hr].
  rewrite Hp, Hr. split; vm_compute; reflexivity.
Defined.

End OnRequests.

